(** * VisDrone to YOLO annotation conversion (prepare_visdrone.py)

    A shallow embedding of [ml_pipeline/scripts/prepare_visdrone.py] and the
    properties its specification states about it.

    Layout of the development:
    - [PyStr]    the Python string builtins the script calls
                 ([str.strip], [str.split(',')], [int(str)], [str(int)],
                 [str.join]);
    - [PyFloat]  Python floats as IEEE binary64 values ([spec_float] of the
                 standard library at precision 53), with the two exceptions
                 float arithmetic can raise and the [.6f] format;
    - [Convert]  [convert_visdrone_annotation], line by line from the source;
    - [Pipeline] the file system, [process_split] and [main];
    - [Spec]     definitions written from the words of the specification;
    - [Examples] small worlds to run the script in;
    - [Props]    the vocabulary of the further properties;
    - the theorems, one block per property: first those the specification
      states, then further properties read off the code.

    Text is modelled as [string] (a sequence of 8-bit characters): the
    development covers ASCII input.  Python's [int] is [Z]. *)

From Stdlib Require Import ZArith QArith List String Ascii Lia Bool DecimalString.
From Stdlib Require Import Floats.SpecFloat.
From Stdlib Require DecimalPos DecimalFacts.
From stdpp Require Import gmap strings list.

Local Open Scope Z_scope.

(** ** Exceptions and results *)

(** The exceptions the modelled code can raise.  [OSError] stands for the
    whole family raised by file operations ([FileNotFoundError],
    [IsADirectoryError], [NotADirectoryError], [FileExistsError],
    [shutil.SameFileError]). *)
Inductive exn : Type :=
  | ZeroDivisionError
  | OverflowError
  | OSError.

Inductive result (A : Type) : Type :=
  | Ok (a : A)
  | Raise (e : exn).
Arguments Ok {A} a.
Arguments Raise {A} e.

#[global] Instance result_ret : MRet result := fun A a => Ok a.
#[global] Instance result_bind : MBind result := fun A B f m =>
  match m with
  | Ok a => f a
  | Raise e => Raise e
  end.

(** ** Python string builtins *)

Module PyStr.

(** [str.isspace] on one ASCII character: TAB, LF, VT, FF, CR, the four
    separators 0x1c-0x1f and the space. *)
Definition is_space (c : ascii) : bool :=
  let n := Z.of_nat (nat_of_ascii c) in
  ((9 <=? n) && (n <=? 13)) || ((28 <=? n) && (n <=? 32)).

(** The white space [int] skips around a literal: TAB, LF, VT, FF, CR
    and the space only ([int] of a field that starts with 0x1c is a
    [ValueError], although [strip] removes that character). *)
Definition is_c_space (c : ascii) : bool :=
  let n := Z.of_nat (nat_of_ascii c) in
  ((9 <=? n) && (n <=? 13)) || (n =? 32).

Section Strip.
Variable sp : ascii -> bool.

Fixpoint lstrip (s : string) : string :=
  match s with
  | String c r => if sp c then lstrip r else s
  | EmptyString => EmptyString
  end.

Fixpoint rstrip (s : string) : string :=
  match s with
  | String c r =>
      match rstrip r with
      | EmptyString => if sp c then EmptyString else String c EmptyString
      | r' => String c r'
      end
  | EmptyString => EmptyString
  end.
End Strip.

(** [s.strip()] *)
Definition strip (s : string) : string := rstrip is_space (lstrip is_space s).

(** [s.split(',')]: every comma separates; the result is never empty. *)
Fixpoint split_comma (s : string) : list string :=
  match s with
  | EmptyString => [EmptyString]
  | String c r =>
      if Ascii.eqb c ","%char then EmptyString :: split_comma r
      else match split_comma r with
           | f :: fs => String c f :: fs
           | [] => [String c EmptyString]
           end
  end.

Definition is_digit (c : ascii) : bool :=
  let n := Z.of_nat (nat_of_ascii c) in (48 <=? n) && (n <=? 57).

Definition digit_val (c : ascii) : Z := Z.of_nat (nat_of_ascii c) - 48.

(** The digit part of a base-10 integer literal: decimal digits, with
    single underscores allowed between two digits.  [prev] tells whether
    the previous character was a digit. *)
Fixpoint parse_digits (s : string) (acc : Z) (prev : bool) : option Z :=
  match s with
  | EmptyString => if prev then Some acc else None
  | String c r =>
      if is_digit c then parse_digits r (10 * acc + digit_val c) true
      else if Ascii.eqb c "_"%char then
        if prev then parse_digits r acc false else None
      else None
  end.

(** [int(s)] in base 10; [None] stands for [ValueError].  Surrounding
    white space is dropped, one sign is accepted.  The cap CPython 3.11 puts
    on the length of a literal (a [ValueError] past 4300 digits) is left
    out. *)
Definition py_int (s : string) : option Z :=
  match rstrip is_c_space (lstrip is_c_space s) with
  | String "-"%char r => Z.opp <$> parse_digits r 0 false
  | String "+"%char r => parse_digits r 0 false
  | t => parse_digits t 0 false
  end.

(** [str(n)] for an [int]. *)
Definition str_of_int (n : Z) : string := NilZero.string_of_int (Z.to_int n).

(** [sep.join(l)] *)
Definition join (sep : string) (l : list string) : string := String.concat sep l.

End PyStr.

(** ** Python floats *)

Module PyFloat.

(** A Python [float] is an IEEE 754 binary64 value. *)
Definition prec : Z := 53.
Definition emax : Z := 1024.
Abbreviation float := spec_float.

(** The least magnitude that rounds (to nearest, ties to even) to
    [2^1024], that is, out of the binary64 range: half an ulp above the
    largest finite double. *)
Definition DBL_OVERFLOW : Z := 2 ^ 1024 - 2 ^ 970.

(** An integer as an unrounded (sign, mantissa, exponent 0) triple. *)
Definition exact_int (z : Z) : float :=
  match z with
  | Z0 => S754_zero false
  | Zpos p => S754_finite false p 0
  | Zneg p => S754_finite true p 0
  end.

(** [float(n)] as applied implicitly to the [int] operand of a mixed
    [int]/[float] operation: correctly rounded, [OverflowError] ("int too
    large to convert to float") when the rounded value is out of range,
    which is when [|n|] reaches [DBL_OVERFLOW]. *)
Definition float_of_int (n : Z) : result float :=
  if DBL_OVERFLOW <=? Z.abs n then Raise OverflowError
  else Ok (binary_normalize prec emax n 0 false).

(** [a / b] on two [int]s: the correctly rounded quotient;
    [ZeroDivisionError] when [b] is 0, [OverflowError] ("integer division
    result too large for a float") when the quotient rounds out of
    range. *)
Definition int_truediv (a b : Z) : result float :=
  if b =? 0 then Raise ZeroDivisionError
  else if DBL_OVERFLOW * Z.abs b <=? Z.abs a then Raise OverflowError
  else Ok (SFdiv prec emax (exact_int a) (exact_int b)).

Definition is_zero (f : float) : bool :=
  match f with S754_zero _ => true | _ => false end.

(** [a + b] on two [float]s: never raises, overflow gives an infinity. *)
Definition float_add (a b : float) : float := SFadd prec emax a b.

(** [a / b] on two [float]s: [ZeroDivisionError] on a zero divisor. *)
Definition float_truediv (a b : float) : result float :=
  if is_zero b then Raise ZeroDivisionError
  else Ok (SFdiv prec emax a b).

(** [n + f] with [n] an [int]. *)
Definition int_add_float (n : Z) (f : float) : result float :=
  a ← float_of_int n; Ok (float_add a f).

(** [f / n] with [n] an [int]. *)
Definition float_div_int (f : float) (n : Z) : result float :=
  b ← float_of_int n; float_truediv f b.

(** *** Exact value and comparisons with an [int] *)

Definition is_finite (f : float) : bool :=
  match f with S754_zero _ | S754_finite _ _ _ => true | _ => false end.

(** The rational a finite float stands for (0 for the others). *)
Definition F2Q (f : float) : Q :=
  match f with
  | S754_finite s m e =>
      let sm := if s then Zneg m else Zpos m in
      if 0 <=? e then inject_Z (sm * 2 ^ e) else sm # Z.to_pos (2 ^ (- e))
  | _ => 0%Q
  end.

(** Python compares a [float] with an [int] exactly; a NaN compares
    false with everything. *)
Definition float_cmp_int (f : float) (n : Z) : option comparison :=
  match f with
  | S754_nan => None
  | S754_infinity s => Some (if s then Lt else Gt)
  | _ => Some (Qcompare (F2Q f) (inject_Z n))
  end.

(** [n <= f], [n < f] and [f <= n]. *)
Definition int_le_float (n : Z) (f : float) : bool :=
  match float_cmp_int f n with Some (Gt | Eq) => true | _ => false end.
Definition int_lt_float (n : Z) (f : float) : bool :=
  match float_cmp_int f n with Some Gt => true | _ => false end.
Definition float_le_int (f : float) (n : Z) : bool :=
  match float_cmp_int f n with Some (Lt | Eq) => true | _ => false end.

(** *** The format specification [.6f] *)

(** Nearest integer to [n / d] ([d > 0]), ties to the even one. *)
Definition round_half_even (n : Z) (d : Z) : Z :=
  let q := n / d in
  let r := n mod d in
  match 2 * r ?= d with
  | Lt => q
  | Gt => q + 1
  | Eq => if Z.even q then q else q + 1
  end.

(** The magnitude of a finite float in units of [10^-6], rounded half to
    even on its exact binary value. *)
Definition micro_units (f : float) : Z :=
  match f with
  | S754_finite _ m e =>
      if 0 <=? e then Zpos m * 2 ^ e * 10 ^ 6
      else round_half_even (Zpos m * 10 ^ 6) (2 ^ (- e))
  | _ => 0
  end.

Definition sign_bit (f : float) : bool :=
  match f with
  | S754_zero s | S754_infinity s | S754_finite s _ _ => s
  | S754_nan => false
  end.

(** [n] written with at least [k] digits, zero padded on the left. *)
Definition zero_pad (k : nat) (s : string) : string :=
  String.concat "" (replicate (k - String.length s) "0"%string) +:+ s.

(** [f"{x:.6f}"] *)
Definition format_6f (f : float) : string :=
  match f with
  | S754_nan => "nan"
  | S754_infinity s => if s then "-inf" else "inf"
  | _ =>
      let u := micro_units f in
      (if sign_bit f then "-" else "") +:+
      PyStr.str_of_int (u / 10 ^ 6) +:+ "." +:+
      zero_pad 6 (PyStr.str_of_int (u mod 10 ^ 6))
  end%string.

End PyFloat.

(** ** Annotation conversion *)

Module Convert.
Import PyStr PyFloat.

(** Class mapping configuration. *)
Definition VISDRONE_TO_SNIPERSCOPE : gmap Z Z :=
  <[1 := 0]> (<[2 := 0]> (<[4 := 2]> (<[5 := 3]> (<[6 := 3]> (<[9 := 3]> ∅))))).

Definition MIN_BOX_SIZE : Z := 10.

(** The body of the [try] block: fields 0-3 and 5 read with [int]; a
    [ValueError] (or [IndexError]) leaves the block with [None]. *)
Definition parse_fields (parts : list string) : option (Z * Z * Z * Z * Z) :=
  x ← parts !! 0%nat ≫= py_int;
  y ← parts !! 1%nat ≫= py_int;
  w ← parts !! 2%nat ≫= py_int;
  h ← parts !! 3%nat ≫= py_int;
  visdrone_class ← parts !! 5%nat ≫= py_int;
  Some (x, y, w, h, visdrone_class).

(** [w < MIN_BOX_SIZE or h < MIN_BOX_SIZE] *)
Definition too_small (w h : Z) : bool :=
  (w <? MIN_BOX_SIZE) || (h <? MIN_BOX_SIZE).

(** [x < 0 or y < 0 or x + w > img_width or y + h > img_height] *)
Definition out_of_bounds (x y w h img_width img_height : Z) : bool :=
  (x <? 0) || (y <? 0) || (img_width <? x + w) || (img_height <? y + h).

(** The four assignments of the clipping branch, in source order: the
    new [w] and [h] are computed from the already clipped [x] and [y]. *)
Definition clip (x y w h img_width img_height : Z) : Z * Z * Z * Z :=
  let x := Z.max 0 x in
  let y := Z.max 0 y in
  let w := Z.min w (img_width - x) in
  let h := Z.min h (img_height - y) in
  (x, y, w, h).

(** The normalized record: class id, centre, width and height. *)
Record yolo_box : Type := YoloBox {
  cls : Z;
  cx : float;
  cy : float;
  nw : float;
  nh : float
}.

(** [0 <= cx <= 1 and 0 <= cy <= 1 and 0 < nw <= 1 and 0 < nh <= 1] *)
Definition in_range (b : yolo_box) : bool :=
  int_le_float 0 (cx b) && float_le_int (cx b) 1 &&
  int_le_float 0 (cy b) && float_le_int (cy b) 1 &&
  int_lt_float 0 (nw b) && float_le_int (nw b) 1 &&
  int_lt_float 0 (nh b) && float_le_int (nh b) 1.

(** The f-string of the [return] statement. *)
Definition format_yolo (b : yolo_box) : string :=
  (str_of_int (cls b) +:+ " " +:+ format_6f (cx b) +:+ " " +:+
   format_6f (cy b) +:+ " " +:+ format_6f (nw b) +:+ " " +:+
   format_6f (nh b))%string.

(** Coordinate conversion and validation: the part of the function after
    the clipping block, up to the validation [if]. *)
Definition normalize (sniperscope_class x y w h img_width img_height : Z)
  : result (option yolo_box) :=
  half_w ← int_truediv w 2;
  sx ← int_add_float x half_w;
  cx ← float_div_int sx img_width;
  half_h ← int_truediv h 2;
  sy ← int_add_float y half_h;
  cy ← float_div_int sy img_height;
  nw ← int_truediv w img_width;
  nh ← int_truediv h img_height;
  let b := YoloBox sniperscope_class cx cy nw nh in
  if negb (in_range b) then Ok None else Ok (Some b).

(** The head of the function: split the stripped line on commas, give up
    on fewer than 8 fields, then run the [try] block.  Both ways out
    return [None]. *)
Definition parse_line (line : string) : option (Z * Z * Z * Z * Z) :=
  let parts := split_comma (strip line) in
  if (length parts <? 8)%nat then None else parse_fields parts.

(** The function up to and without the final formatting: the record the
    returned line is printed from, [None] for a skipped annotation. *)
Definition convert_record (line : string) (img_width img_height : Z)
  : result (option yolo_box) :=
  match parse_line line with
  | None => Ok None
  | Some (x, y, w, h, visdrone_class) =>
      match VISDRONE_TO_SNIPERSCOPE !! visdrone_class with
      | None => Ok None
      | Some sniperscope_class =>
          if too_small w h then Ok None else
          if out_of_bounds x y w h img_width img_height then
            let '(x, y, w, h) := clip x y w h img_width img_height in
            if too_small w h then Ok None
            else normalize sniperscope_class x y w h img_width img_height
          else normalize sniperscope_class x y w h img_width img_height
      end
  end.

(** [convert_visdrone_annotation(line, img_width, img_height)]: the YOLO
    line, or [None]. *)
Definition convert_visdrone_annotation (line : string) (img_width img_height : Z)
  : result (option string) :=
  match convert_record line img_width img_height with
  | Ok (Some b) => Ok (Some (format_yolo b))
  | Ok None => Ok None
  | Raise e => Raise e
  end.

End Convert.

(** ** Files, splits and the run *)

Module Pipeline.
Import PyStr Convert.

Definition LF : string := String (ascii_of_nat 10) EmptyString.
Definition CR : ascii := ascii_of_nat 13.

(** *** Paths *)

(** A [pathlib.Path]: a list of component names, anchored at the root or
    relative to the working directory.  Components are opaque names: the
    split names given on the command line are taken to be plain directory
    names, without a separator. *)
Record Path : Type := MkPath { anchored : bool; names : list string }.

(** [p / n] *)
Definition div (p : Path) (n : string) : Path :=
  MkPath (anchored p) (names p ++ [n]).
Infix "//" := div (at level 40, left associativity).

(** [p.name] *)
Definition name (p : Path) : string := List.last (names p) EmptyString.

(** [s.rfind('.')]: the index of the last dot, scanning from index [i]. *)
Fixpoint rfind_dot (s : string) (i : nat) (found : option nat) : option nat :=
  match s with
  | EmptyString => found
  | String c r =>
      rfind_dot r (S i) (if Ascii.eqb c "."%char then Some i else found)
  end.

(** The stem of a file name: the name without its last suffix, when the
    last dot is neither the first nor the last character. *)
Definition stem_of (n : string) : string :=
  match rfind_dot n 0 None with
  | Some i =>
      if ((0 <? i) && (i <? String.length n - 1))%nat
      then String.substring 0 i n else n
  | None => n
  end.

(** [p.stem] *)
Definition stem (p : Path) : string := stem_of (name p).

Fixpoint ends_with (suffix s : string) : bool :=
  String.eqb s suffix ||
  match s with
  | String _ r => ends_with suffix r
  | EmptyString => false
  end.

(** [str(p)] *)
Definition path_str (p : Path) : string :=
  match anchored p, names p with
  | false, [] => "."
  | false, l => join "/" l
  | true, l => "/" +:+ join "/" l
  end%string.

(** *** The file system *)

Inductive node : Type :=
  | Dir
  | File (content : string).

(** What is printed, one constructor per block of [print] statements: the
    configuration banner with the class-mapping listing, the warning of
    [process_split], the two lines printed around each split, the summary
    and the closing line. *)
Inductive out_line : Type :=
  | OutHeader (visdrone_root output_root : Path) (splits : list string)
  | OutWarnMissing (images_dir : Path) (split : string)
  | OutProcessing (split : string)
  | OutSplitCounts (processed skipped : Z)
  | OutTotals (total_processed total_skipped : Z)
  | OutSaved (dataset_yaml : Path).

(** The world the script runs in: the working directory, the files (keyed
    by their component names from the root) and what was printed. *)
Record world : Type := World {
  cwd : list string;
  fs : gmap (list string) node;
  stdout : list out_line
}.

Definition set_fs (w : world) (m : gmap (list string) node) : world :=
  World (cwd w) m (stdout w).

Definition resolve (w : world) (p : Path) : list string :=
  if anchored p then names p else cwd w ++ names p.

(** Path resolution: from the directory [cur], follow [rest]; every
    component but the last must be a directory. *)
Fixpoint walk (m : gmap (list string) node) (cur rest : list string) : option node :=
  match rest with
  | [] => Some Dir
  | n :: rest' =>
      match m !! (cur ++ [n]) with
      | Some Dir => walk m (cur ++ [n]) rest'
      | Some (File c) => match rest' with [] => Some (File c) | _ => None end
      | None => None
      end
  end.

Definition stat (m : gmap (list string) node) (k : list string) : option node :=
  walk m [] k.

(** Effects: a state of the world threaded through, exceptions on top.
    What was written before an exception stays written. *)
Definition io (A : Type) : Type := world -> result A * world.

#[global] Instance io_ret : MRet io := fun A a w => (Ok a, w).
#[global] Instance io_bind : MBind io := fun A B f m w =>
  match m w with
  | (Ok a, w') => f a w'
  | (Raise e, w') => (Raise e, w')
  end.

Definition lift {A} (r : result A) : io A := fun w => (r, w).

Definition print (l : out_line) : io unit := fun w =>
  (Ok tt, World (cwd w) (fs w) (stdout w ++ [l])).

(** The script never changes its working directory. *)
Definition keeps_cwd {A} (m : io A) : Prop :=
  forall w, cwd (snd (m w)) = cwd w.

(** [p.exists()] *)
Definition path_exists (p : Path) : io bool := fun w =>
  (Ok (match stat (fs w) (resolve w p) with Some _ => true | None => false end), w).

(** [p.absolute()] *)
Definition absolute (p : Path) : io Path := fun w =>
  (Ok (MkPath true (resolve w p)), w).

(** Creation of the missing directories along [rest], below [cur]. *)
Fixpoint mkdirs (m : gmap (list string) node) (cur rest : list string)
  : result (gmap (list string) node) :=
  match rest with
  | [] => Ok m
  | n :: rest' =>
      match m !! (cur ++ [n]) with
      | Some Dir => mkdirs m (cur ++ [n]) rest'
      | Some (File _) => Raise OSError
      | None => mkdirs (<[cur ++ [n] := Dir]> m) (cur ++ [n]) rest'
      end
  end.

(** [p.mkdir(parents=True, exist_ok=True)] *)
Definition mkdir_parents (p : Path) : io unit := fun w =>
  match mkdirs (fs w) [] (resolve w p) with
  | Ok m => (Ok tt, set_fs w m)
  | Raise e => (Raise e, w)
  end.

(** The name of [k] when it is an entry of the directory [d]. *)
Definition child_of (d k : list string) : option string :=
  match List.rev k with
  | n :: r => if decide (List.rev r = d) then Some n else None
  | [] => None
  end.

(** [list(d.glob('*.jpg'))]: the entries of [d] whose name ends in
    [.jpg], in the order the directory lists them. *)
Definition glob_jpg (d : Path) : io (list Path) := fun w =>
  match stat (fs w) (resolve w d) with
  | Some Dir =>
      (Ok (div d <$> filter (fun n => ends_with ".jpg" n = true)
                       (omap (child_of (resolve w d)) (map_to_list (fs w)).*1)), w)
  | _ => (Ok [], w)
  end.

(** Text-mode reading: [\r\n] and [\r] become [\n] ... *)
Fixpoint universal_newlines (s : string) : string :=
  match s with
  | EmptyString => EmptyString
  | String c r =>
      if Ascii.eqb c CR then
        String (ascii_of_nat 10)
          match r with
          | String c' r' =>
              if Ascii.eqb c' (ascii_of_nat 10) then universal_newlines r'
              else universal_newlines r
          | EmptyString => EmptyString
          end
      else String c (universal_newlines r)
  end.

(** ... and iteration yields the lines with their terminator. *)
Fixpoint lines_keepends (s : string) : list string :=
  match s with
  | EmptyString => []
  | String c r =>
      if Ascii.eqb c (ascii_of_nat 10) then String c EmptyString :: lines_keepends r
      else match lines_keepends r with
           | l :: ls => String c l :: ls
           | [] => [String c EmptyString]
           end
  end.

(** [open(p, 'r')] and the list of the lines it iterates over. *)
Definition read_lines (p : Path) : io (list string) := fun w =>
  match stat (fs w) (resolve w p) with
  | Some (File c) => (Ok (lines_keepends (universal_newlines c)), w)
  | _ => (Raise OSError, w)
  end.

(** Creation or replacement of the file [k] with content [c]: the parent
    must be a directory and [k] must not be one. *)
Definition write_file (k : list string) (c : string) : io unit := fun w =>
  match stat (fs w) (removelast k), stat (fs w) k with
  | Some Dir, Some (File _) | Some Dir, None => (Ok tt, set_fs w (<[k := File c]> (fs w)))
  | _, _ => (Raise OSError, w)
  end.

(** [with open(p, 'w') as f: f.write(text)] *)
Definition write_text (p : Path) (text : string) : io unit := fun w =>
  write_file (resolve w p) text w.

(** [shutil.copy(src, dst)]: into [dst] when it is a directory; refuses to
    copy a file onto itself. *)
Definition shutil_copy (src dst : Path) : io unit := fun w =>
  match stat (fs w) (resolve w src) with
  | Some (File c) =>
      let target :=
        match stat (fs w) (resolve w dst) with
        | Some Dir => resolve w dst ++ [name src]
        | _ => resolve w dst
        end in
      if decide (target = resolve w src) then (Raise OSError, w)
      else write_file target c w
  | _ => (Raise OSError, w)
  end.

(** *** The directories of a split *)

(** The four directories [process_split] works with, as it names them. *)
Abbreviation images_dir visdrone_root split :=
  (visdrone_root // ("VisDrone2019-DET-" +:+ split) // "images").
Abbreviation annotations_dir visdrone_root split :=
  (visdrone_root // ("VisDrone2019-DET-" +:+ split) // "annotations").
Abbreviation output_images output_root split := (output_root // "images" // split).
Abbreviation output_labels output_root split := (output_root // "labels" // split).

(** *** Split processing *)

Section Run.

(** [cv2.imread] followed by [img.shape[:2]]: the height and width of
    the image a file's bytes decode to, [None] when they do not decode. *)
Variable decode : string -> option (Z * Z).

(** [cv2.imread(str(p))]: [None] for anything that is not a readable
    image file. *)
Definition imread (p : Path) : io (option (Z * Z)) := fun w =>
  match stat (fs w) (resolve w p) with
  | Some (File c) => (Ok (decode c), w)
  | _ => (Ok None, w)
  end.

(** The inner loop: [yolo_lines] as it stands after the lines of the
    annotation file were converted in order.  [if yolo_line:] is false
    for [None] and for the empty string. *)
Fixpoint convert_lines (lines : list string) (img_width img_height : Z)
  : result (list string) :=
  match lines with
  | [] => Ok []
  | line :: rest =>
      yolo_line ← convert_visdrone_annotation line img_width img_height;
      yolo_lines ← convert_lines rest img_width img_height;
      Ok (match yolo_line with
          | Some s => if String.eqb s EmptyString then yolo_lines else s :: yolo_lines
          | None => yolo_lines
          end)
  end.

(** A [for] loop threading the variables it assigns. *)
Fixpoint for_each {A S : Type} (body : A -> S -> io S) (l : list A) (s : S) : io S :=
  match l with
  | [] => mret s
  | a :: l' => s' ← body a s; for_each body l' s'
  end.

(** The body of the loop over [image_files]; the state is
    [(processed, skipped)]. *)
Definition process_image (annotations_dir output_images output_labels img_path : Path)
    (counts : Z * Z) : io (Z * Z) :=
  let '(processed, skipped) := counts in
  img ← imread img_path;
  match img with
  | None => mret (processed, skipped + 1)
  | Some (img_height, img_width) =>
      let ann_path := annotations_dir // (stem img_path +:+ ".txt") in
      found ← path_exists ann_path;
      if negb found then mret (processed, skipped + 1) else
      lines ← read_lines ann_path;
      yolo_lines ← lift (convert_lines lines img_width img_height);
      match yolo_lines with
      | _ :: _ =>
          _ ← shutil_copy img_path (output_images // name img_path);
          _ ← write_text (output_labels // (stem img_path +:+ ".txt"))
                (join LF yolo_lines);
          mret (processed + 1, skipped)
      | [] => mret (processed, skipped + 1)
      end
  end.

(** [process_split(visdrone_root, output_root, split)] *)
Definition process_split (visdrone_root output_root : Path) (split : string)
  : io (Z * Z) :=
  let images_dir := visdrone_root // ("VisDrone2019-DET-" +:+ split) // "images" in
  let annotations_dir := visdrone_root // ("VisDrone2019-DET-" +:+ split) // "annotations" in
  found ← path_exists images_dir;
  if negb found then
    _ ← print (OutWarnMissing images_dir split);
    mret (0, 0)
  else
    let output_images := output_root // "images" // split in
    let output_labels := output_root // "labels" // split in
    _ ← mkdir_parents output_images;
    _ ← mkdir_parents output_labels;
    image_files ← glob_jpg images_dir;
    for_each (process_image annotations_dir output_images output_labels)
             image_files (0, 0).

(** *** The run *)

(** The lines of [dataset.yaml], [root] being the text of
    [output_root.absolute()]. *)
Definition dataset_yaml_lines (root : string) : list string :=
  [ "# VisDrone subset for SniperScope";
    "# Auto-generated by prepare_visdrone.py";
    "";
    "# Dataset root path (absolute)";
    "path: " +:+ root;
    "";
    "# Relative paths to image directories";
    "train: images/train";
    "val: images/val";
    "";
    "# Number of classes";
    "nc: 4";
    "";
    "# Class names (indices must match)";
    "# Note: SniperScope uses sparse indices (0, 2, 3) for compatibility";
    "# with the full class set (person=0, car=2, truck=3)";
    "names:";
    "  0: person";
    "  2: car";
    "  3: truck" ]%string.

(** The f-string written to the file: every line above, each ended by a
    newline. *)
Definition dataset_yaml_text (root : string) : string :=
  String.concat "" ((fun l => l +:+ LF) <$> dataset_yaml_lines root).

(** The body of the loop over [args.splits]; the state is
    [(total_processed, total_skipped)]. *)
Definition run_split (visdrone_root output_root : Path) (split : string)
    (totals : Z * Z) : io (Z * Z) :=
  let '(total_processed, total_skipped) := totals in
  _ ← print (OutProcessing split);
  counts ← process_split visdrone_root output_root split;
  let '(processed, skipped) := counts in
  _ ← print (OutSplitCounts processed skipped);
  mret (total_processed + processed, total_skipped + skipped).

(** [main()], after the command line was parsed into [visdrone_root],
    [output_root] and [splits]. *)
Definition main (visdrone_root output_root : Path) (splits : list string) : io unit :=
  _ ← print (OutHeader visdrone_root output_root splits);
  totals ← for_each (run_split visdrone_root output_root) splits (0, 0);
  _ ← print (OutTotals (fst totals) (snd totals));
  let dataset_yaml := output_root // "dataset.yaml" in
  root ← absolute output_root;
  _ ← write_text dataset_yaml (dataset_yaml_text (path_str root));
  print (OutSaved dataset_yaml).

End Run.

End Pipeline.

(** ** The specification's own words *)

(** Definitions written from the text of the specification, to be compared
    with the ones above. *)
Module Spec.
Import PyStr Convert Pipeline.

(** ClassMapper: the fixed table; every other id is absent. *)
Definition class_map (source_id : Z) : option Z :=
  if (source_id =? 1) || (source_id =? 2) then Some 0
  else if source_id =? 4 then Some 2
  else if (source_id =? 5) || (source_id =? 6) || (source_id =? 9) then Some 3
  else None.

(** SizeFilter: [accept(w, h)], true iff both sides reach the minimum of
    10 pixels. *)
Definition accept (w h : Z) : bool := (10 <=? w) && (10 <=? h).

(** GeometryNormalizer, bounds check: the box the later steps work on. *)
Definition bounds_check (x y w h imgWidth imgHeight : Z) : Z * Z * Z * Z :=
  if (x <? 0) || (y <? 0) || (imgWidth <? x + w) || (imgHeight <? y + h)
  then (Z.max 0 x, Z.max 0 y,
        Z.min w (imgWidth - Z.max 0 x), Z.min h (imgHeight - Z.max 0 y))
  else (x, y, w, h).





(** What the run prints for a split whose image directory is missing. *)
Definition skipped_split_output (visdrone_root : Path) (split : string)
  : list out_line :=
  [ OutProcessing split;
    OutWarnMissing (images_dir visdrone_root split) split;
    OutSplitCounts 0 0 ].

(** Error taxonomy, missing source root: the run ends in an error and no
    split was processed. *)
Definition aborted_before_splits (r : result unit * world) : Prop :=
  (exists e, fst r = Raise e) /\
  forall split, OutProcessing split ∉ stdout (snd r).

(** A reader for the manifest: [key: value] lines at the left margin ... *)
Fixpoint key_value (l : string) : option (string * string) :=
  match l with
  | EmptyString => None
  | String c r =>
      if Ascii.eqb c ":"%char then
        match r with
        | String " "%char v => Some (EmptyString, v)
        | _ => None
        end
      else (fun kv => (String c (fst kv), snd kv)) <$> key_value r
  end.

Definition top_entries (ls : list string) : list (string * string) :=
  omap (fun l => match l with
                 | String "#"%char _ | String " "%char _ => None
                 | _ => key_value l
                 end) ls.

(** ... and the entries of the class-name table, indented by two spaces. *)
Definition name_entries (ls : list string) : list (string * string) :=
  omap (fun l => match l with
                 | String " "%char (String " "%char r) => key_value r
                 | _ => None
                 end) ls.

(** The manifest of external interfaces and of 4.8: a file [manifest]
    under the output root, with the absolute root path, the relative path
    of every processed split, and a table of four class names. *)
Definition manifest_at_manifest (output_root : Path) (w w' : world) : Prop :=
  exists text, fs w' !! (resolve w output_root ++ ["manifest"]) = Some (File text).

Definition manifest_lists_splits (splits : list string) (ls : list string) : Prop :=
  forall split, split ∈ splits ->
    exists k, (k, ("images/" +:+ split)%string) ∈ top_entries ls.

Definition manifest_has_four_names (ls : list string) : Prop :=
  length (name_entries ls) = 4%nat.

End Spec.

(** ** Example worlds *)

Module Examples.
Import Pipeline.
Local Open Scope string_scope.
Local Open Scope list_scope.

(** A decoder that knows one image, 1280 wide and 720 high. *)
Definition decode (c : string) : option (Z * Z) :=
  if String.eqb c "JPEG 1280x720" then Some (720, 1280) else None.

Definition visdrone_root : Path := MkPath false ["datasets"; "visdrone_raw"].
Definition output_root : Path := MkPath false ["datasets"; "visdrone"].

Definition raw : list string := ["work"; "datasets"; "visdrone_raw"].
Definition out : list string := ["work"; "datasets"; "visdrone"].

(** A working directory with an output root and no source root. *)
Definition no_source : world :=
  World ["work"]
    (list_to_map [ (["work"], Dir); (["work"; "datasets"], Dir); (out, Dir) ])
    [].

(** A source root with one split of two images: [a.jpg] has one
    annotation of a mapped class, one that is too small and one that is
    clipped; [b.jpg] has only a bicycle.  The output directories of the
    split exist. *)
Definition one_split (split : string) : world :=
  let src := raw ++ ["VisDrone2019-DET-" +:+ split] in
  World ["work"]
    (list_to_map
       [ (["work"], Dir); (["work"; "datasets"], Dir); (raw, Dir); (src, Dir);
         (src ++ ["images"], Dir); (src ++ ["annotations"], Dir);
         (src ++ ["images"; "a.jpg"], File "JPEG 1280x720");
         (src ++ ["annotations"; "a.txt"],
          File ("100,200,50,100,1,1,0,0" +:+ LF +:+ "5,5,3,3,0,1,0,0" +:+ LF +:+
                "1270,700,50,50,0,4,0,0" +:+ LF));
         (src ++ ["images"; "b.jpg"], File "JPEG 1280x720");
         (src ++ ["annotations"; "b.txt"], File ("100,200,50,100,1,3,0,0" +:+ LF));
         (out, Dir); (out ++ ["images"], Dir); (out ++ ["images"; split], Dir);
         (out ++ ["labels"], Dir); (out ++ ["labels"; split], Dir) ])
    [].

Definition image (split file : string) : Path :=
  visdrone_root // ("VisDrone2019-DET-" +:+ split) // "images" // file.

End Examples.

(** ** Vocabulary of the further properties *)

(** Predicates and measures the last part of the file states its
    properties with.  The embedding of the script above does not use
    them. *)
Module Props.
Import PyStr PyFloat Pipeline.

(** *** Strings *)

(** Every character of [s] satisfies [P]. *)
Fixpoint all_chars (P : ascii -> bool) (s : string) : bool :=
  match s with
  | EmptyString => true
  | String c r => P c && all_chars P r
  end.

(** A string of white space only, as [str.strip] sees it. *)
Definition all_space (s : string) : bool := all_chars is_space s.

(** The characters of a decimal integer as [str] writes it. *)
Definition numeral (c : ascii) : bool := is_digit c || Ascii.eqb c "-"%char.

Definition not_comma (c : ascii) : bool := negb (Ascii.eqb c ","%char).
Definition not_CR (c : ascii) : bool := negb (Ascii.eqb c CR).
Definition not_LF (c : ascii) : bool := negb (Ascii.eqb c (ascii_of_nat 10)).

(** The characters of an output line: digits, the decimal point and the
    space. *)
Definition plain (c : ascii) : bool :=
  is_digit c || Ascii.eqb c "."%char || Ascii.eqb c " "%char.

(** A number of the unit interval in fixed-point notation with six
    decimals: [0.dddddd] or [1.000000]. *)
Definition unit_decimal (s : string) : bool :=
  match s with
  | String i (String "."%char frac) =>
      (String.length frac =? 6)%nat && all_chars is_digit frac &&
      (Ascii.eqb i "0"%char || (Ascii.eqb i "1"%char && String.eqb frac "000000"))
  | _ => false
  end.

(** *** Floats *)

(** A float that is [+0] or positive and finite, of exponent at most 0,
    whose value lies between the integers [lo] and [hi]. *)
Definition between (lo hi : Z) (f : float) : Prop :=
  match f with
  | S754_zero false => lo <= 0 <= hi
  | S754_finite false m e => e <= 0 /\ lo * 2 ^ (- e) <= Zpos m <= hi * 2 ^ (- e)
  | _ => False
  end.

(** A mantissa [m] at exponent [e <= 0], with what was cut off located
    by [l], whose rounding up, if any, stays at or below [hi]. *)
Definition room (m e : Z) (l : location) (hi : Z) : Prop :=
  match l with
  | loc_Exact => m <= hi * 2 ^ (- e)
  | loc_Inexact _ => m + 1 <= hi * 2 ^ (- e)
  end.

(** *** Files *)

(** The files [m'] keep what the files [m] hold, and differ from them
    only at the directory [O] and below it, and by new directories on the
    way to [O]: every entry of [m] is still an entry, a directory is still
    a directory, an entry that is not [O] or below it is unchanged; and
    an entry of [m'] that [m] does not hold as it is lies at [O] or below
    it, or is a directory above [O]. *)
Definition confined_to (O : list string) (m m' : gmap (list string) node) : Prop :=
  (forall k v, m !! k = Some v ->
     is_Some (m' !! k) /\
     (v = Dir -> m' !! k = Some Dir) /\
     (~ O `prefix_of` k -> m' !! k = Some v)) /\
  (forall k v, m' !! k = Some v ->
     m !! k = Some v \/ O `prefix_of` k \/ (v = Dir /\ k `prefix_of` O)).

(** A computation that keeps the working directory and whose effect on the
    files is confined to the directory [out], whether it returns or
    raises. *)
Definition confined {A} (out : Path) (m : io A) : Prop :=
  forall w, cwd (snd (m w)) = cwd w /\
            confined_to (resolve w out) (fs w) (fs (snd (m w))).

(** The path [p] is [out] or lies below it. *)
Definition under (out p : Path) : Prop :=
  anchored p = anchored out /\ names out `prefix_of` names p.

(** *** Printed lines *)

(** The counts a printed line reports for a split, if it is such a line. *)
Definition split_counts (l : out_line) : option (Z * Z) :=
  match l with
  | OutSplitCounts processed skipped => Some (processed, skipped)
  | _ => None
  end.

(** A computation that prints no line of split counts: what it adds to
    the output holds none. *)
Definition prints_no_counts {A} (m : io A) : Prop :=
  forall w, exists added,
    stdout (snd (m w)) = stdout w ++ added /\ omap split_counts added = [].

(** The sum of a list of integers. *)
Definition total (l : list Z) : Z := foldr Z.add 0 l.

End Props.

(** ** Further example worlds *)

Module MoreExamples.
Import Pipeline Examples.
Local Open Scope string_scope.
Local Open Scope list_scope.

(** A working directory with nothing in it. *)
Definition bare : world := World ["work"] (list_to_map [ (["work"], Dir) ]) [].

(** A source root whose [val] split has an image directory without
    images; there is no output root yet. *)
Definition empty_split : world :=
  let src := raw ++ ["VisDrone2019-DET-val"] in
  World ["work"]
    (list_to_map
       [ (["work"], Dir); (["work"; "datasets"], Dir); (raw, Dir); (src, Dir);
         (src ++ ["images"], Dir); (src ++ ["annotations"], Dir) ])
    [].

End MoreExamples.

(** * Properties *)

(** ** Facts on binary64 rounding *)

Section FloatFacts.
Import PyFloat.


Lemma shr_1_div2 mrs : 0 <= shr_m mrs -> shr_m (shr_1 mrs) = Z.div2 (shr_m mrs).
Proof.
  destruct mrs as [[|p|p] r s]; simpl; intros Hm; try lia; try reflexivity.
  destruct p; reflexivity.
Qed.

Lemma iter_shr_1_shiftr p :
  forall mrs, 0 <= shr_m mrs ->
    shr_m (SpecFloat.iter_pos shr_1 p mrs) = Z.shiftr (shr_m mrs) (Zpos p).
Proof.
  induction p as [p IH|p IH|]; intros mrs Hm; simpl.
  - assert (0 <= shr_m (shr_1 mrs))
      by (rewrite shr_1_div2, Z.div2_spec by lia; apply Z.shiftr_nonneg; lia).
    assert (0 <= shr_m (SpecFloat.iter_pos shr_1 p (shr_1 mrs)))
      by (rewrite IH by lia; apply Z.shiftr_nonneg; lia).
    rewrite !IH, shr_1_div2 by lia.
    rewrite Z.div2_spec, !Z.shiftr_shiftr by lia. f_equal. lia.
  - assert (0 <= shr_m (SpecFloat.iter_pos shr_1 p mrs))
      by (rewrite IH by lia; apply Z.shiftr_nonneg; lia).
    rewrite !IH by lia. rewrite !Z.shiftr_shiftr by lia. f_equal. lia.
  - rewrite shr_1_div2 by lia. apply Z.div2_spec.
Qed.

Lemma digits2_pos_log2 m : Zpos (digits2_pos m) = Z.log2 (Zpos m) + 1.
Proof.
  induction m as [m IH|m IH|]; simpl digits2_pos; try reflexivity.
  - rewrite Pos2Z.inj_succ, IH. change (Z.pos m~1) with (2 * Z.pos m + 1).
    rewrite Z.log2_succ_double by lia. lia.
  - rewrite Pos2Z.inj_succ, IH. change (Z.pos m~0) with (2 * Z.pos m).
    rewrite Z.log2_double by lia. lia.
Qed.

Lemma shr_record_of_loc_m m l : shr_m (shr_record_of_loc m l) = m.
Proof. destruct l as [|[]]; reflexivity. Qed.

(** Shifting a positive mantissa down to its format exponent leaves it
    positive, as long as the exponent is not below the least one. *)
Lemma shr_fexp_positive m e l :
  0 < m -> emin prec emax <= e ->
  0 < shr_m (fst (shr_fexp prec emax m e l)) /\
  emin prec emax <= snd (shr_fexp prec emax m e l).
Proof.
  intros Hm He. unfold shr_fexp, shr.
  destruct m as [|p|p]; try lia. simpl Zdigits2.
  rewrite digits2_pos_log2.
  set (n := fexp prec emax (Z.log2 (Z.pos p) + 1 + e) - e).
  assert (Hn : n <= Z.log2 (Z.pos p)).
  { unfold n, fexp, emin, prec, emax in *. pose proof (Z.log2_nonneg (Z.pos p)). lia. }
  destruct n as [|q|q] eqn:En; simpl; rewrite ?shr_record_of_loc_m; try (split; lia).
  rewrite iter_shr_1_shiftr by (rewrite shr_record_of_loc_m; lia).
  rewrite shr_record_of_loc_m. split; [|lia].
  assert (Z.shiftr (Z.pos p) (Z.pos q) <> 0).
  { rewrite Z.shiftr_eq_0_iff. lia. }
  pose proof (Z.shiftr_nonneg (Z.pos p) (Z.pos q)). lia.
Qed.

Lemma round_nearest_even_positive m l : 0 < m -> 0 < round_nearest_even m l.
Proof.
  intros Hm. destruct l as [|[]]; simpl; try lia.
  destruct (Z.even m); lia.
Qed.

Lemma binary_round_aux_nonzero s m e l :
  0 < m -> emin prec emax <= e ->
  is_zero (binary_round_aux prec emax s m e l) = false.
Proof.
  intros Hm He. unfold binary_round_aux.
  pose proof (shr_fexp_positive m e l Hm He) as [H1 H2].
  destruct (shr_fexp prec emax m e l) as [mrs' e']. simpl in H1, H2.
  pose proof (round_nearest_even_positive _ (loc_of_shr_record mrs') H1) as H3.
  pose proof (shr_fexp_positive _ e' loc_Exact H3 H2) as [H4 H5].
  destruct (shr_fexp prec emax _ e' loc_Exact) as [mrs'' e'']. simpl in H4.
  destruct (shr_m mrs'') as [|p|p]; try lia.
  destruct (e'' <=? emax - prec); reflexivity.
Qed.

(** [float(n)] is zero only for [n = 0]. *)
Lemma binary_normalize_nonzero n :
  n <> 0 -> is_zero (binary_normalize prec emax n 0 false) = false.
Proof.
  intros Hn.
  assert (forall s p, is_zero (binary_round prec emax s p 0) = false) as Hr.
  { intros s p. unfold binary_round, shl_align.
    set (ex := fexp prec emax (Z.pos (digits2_pos p) + 0)).
    assert (emin prec emax <= ex) by (unfold ex, fexp; lia).
    destruct (ex - 0) as [|d|d] eqn:Ed;
      apply binary_round_aux_nonzero; try lia; unfold emin, prec, emax; lia. }
  destruct n as [|p|p]; [lia | apply Hr | apply Hr].
Qed.

Lemma float_of_int_returns n :
  Z.abs n < DBL_OVERFLOW ->
  float_of_int n = Ok (binary_normalize prec emax n 0 false).
Proof.
  intros Hn. unfold float_of_int.
  destruct (Z.leb_spec DBL_OVERFLOW (Z.abs n)); [lia | reflexivity].
Qed.

Lemma int_truediv_returns a b :
  b <> 0 -> Z.abs a < DBL_OVERFLOW * Z.abs b ->
  int_truediv a b = Ok (SFdiv prec emax (exact_int a) (exact_int b)).
Proof.
  intros Hb Ha. unfold int_truediv.
  destruct (Z.eqb_spec b 0); [lia |].
  destruct (Z.leb_spec (DBL_OVERFLOW * Z.abs b) (Z.abs a)); [lia | reflexivity].
Qed.



(** The two comparisons of a chained [0 <= f <= 1] pin [f] to a finite
    value of the closed unit interval. *)
Lemma closed_unit_interval f :
  int_le_float 0 f = true -> float_le_int f 1 = true ->
  is_finite f = true /\ (0 <= F2Q f <= 1)%Q.
Proof.
  unfold int_le_float, float_le_int, float_cmp_int.
  destruct f as [s|[]| |s m e]; try discriminate; intros H0 H1;
    (split; [reflexivity|]); split.
  all: try (apply Qle_alt; change (inject_Z 1) with 1%Q in H1;
            destruct (Qcompare _ 1); congruence).
  all: apply Qge_alt; change (inject_Z 0) with 0%Q in H0;
       destruct (Qcompare _ 0); congruence.
Qed.

Lemma half_open_unit_interval f :
  int_lt_float 0 f = true -> float_le_int f 1 = true ->
  is_finite f = true /\ (0 < F2Q f <= 1)%Q.
Proof.
  unfold int_lt_float, float_le_int, float_cmp_int.
  destruct f as [s|[]| |s m e]; try discriminate; intros H0 H1;
    (split; [reflexivity|]); split.
  all: try (apply Qle_alt; change (inject_Z 1) with 1%Q in H1;
            destruct (Qcompare _ 1); congruence).
  all: apply Qgt_alt; change (inject_Z 0) with 0%Q in H0;
       destruct (Qcompare _ 0); congruence.
Qed.

End FloatFacts.

(** ** The conversion of one line *)

Section ConvertFacts.
Import PyStr PyFloat Convert.

Lemma bind_Ok {A B} (a : A) (f : A -> result B) : Ok a ≫= f = f a.
Proof. reflexivity. Qed.

Lemma class_map_lookup c : VISDRONE_TO_SNIPERSCOPE !! c = Spec.class_map c.
Proof.
  unfold VISDRONE_TO_SNIPERSCOPE, Spec.class_map.
  repeat (rewrite lookup_insert; case_decide; [subst c; reflexivity |]).
  rewrite lookup_empty.
  repeat match goal with
         | |- context [?a =? ?b] => destruct (Z.eqb_spec a b); [congruence |]
         end.
  reflexivity.
Qed.

Lemma class_map_Some c t :
  Spec.class_map c = Some t ->
  (c = 1 \/ c = 2) /\ t = 0 \/ c = 4 /\ t = 2 \/ (c = 5 \/ c = 6 \/ c = 9) /\ t = 3.
Proof.
  unfold Spec.class_map.
  repeat match goal with
         | |- context [?a =? ?b] => destruct (Z.eqb_spec a b)
         end; simpl; intros [= <-]; lia.
Qed.

Lemma too_small_accept w h : too_small w h = negb (Spec.accept w h).
Proof.
  unfold too_small, Spec.accept, MIN_BOX_SIZE.
  destruct (Z.ltb_spec w 10), (Z.ltb_spec h 10),
           (Z.leb_spec 10 w), (Z.leb_spec 10 h); simpl; lia || reflexivity.
Qed.

Lemma bounds_check_clip x y w h W H :
  (if out_of_bounds x y w h W H then clip x y w h W H else (x, y, w, h))
  = Spec.bounds_check x y w h W H.
Proof. reflexivity. Qed.

(** The function, once the line is parsed, its class mapped and its raw
    size accepted: the box goes through the bounds check, the size filter
    again, and then the transform. *)
Lemma convert_record_staged line W H x y w h c t :
  parse_line line = Some (x, y, w, h, c) ->
  VISDRONE_TO_SNIPERSCOPE !! c = Some t ->
  too_small w h = false ->
  convert_record line W H =
    let '(x', y', w', h') := Spec.bounds_check x y w h W H in
    if too_small w' h' then Ok None else normalize t x' y' w' h' W H.
Proof.
  intros Hp Hc Hs. unfold convert_record. rewrite Hp, Hc, Hs.
  rewrite <- bounds_check_clip.
  destruct (out_of_bounds x y w h W H); [reflexivity |].
  rewrite Hs. reflexivity.
Qed.

(** What a returned record tells about the line. *)
Lemma convert_record_Some line W H b :
  convert_record line W H = Ok (Some b) ->
  exists x y w h c t,
    parse_line line = Some (x, y, w, h, c) /\
    VISDRONE_TO_SNIPERSCOPE !! c = Some t /\
    too_small w h = false /\
    let '(x', y', w', h') := Spec.bounds_check x y w h W H in
    too_small w' h' = false /\ normalize t x' y' w' h' W H = Ok (Some b).
Proof.
  intros Hb.
  destruct (parse_line line) as [[[[[x y] w] h] c]|] eqn:Hp;
    [| unfold convert_record in Hb; rewrite Hp in Hb; discriminate].
  destruct (VISDRONE_TO_SNIPERSCOPE !! c) as [t|] eqn:Hc;
    [| unfold convert_record in Hb; rewrite Hp, Hc in Hb; discriminate].
  destruct (too_small w h) eqn:Hs;
    [unfold convert_record in Hb; rewrite Hp, Hc, Hs in Hb; discriminate |].
  rewrite (convert_record_staged _ _ _ _ _ _ _ _ _ Hp Hc Hs) in Hb.
  exists x, y, w, h, c, t. repeat (split; [assumption |]).
  destruct (Spec.bounds_check x y w h W H) as [[[x' y'] w'] h'].
  destruct (too_small w' h'); [discriminate | auto].
Qed.

Lemma normalize_Some t x y w h W H b :
  normalize t x y w h W H = Ok (Some b) -> cls b = t /\ in_range b = true.
Proof.
  unfold normalize. intros Hn.
  repeat match type of Hn with
         | (mbind _ ?m) = _ => destruct m; cbn in Hn; [| discriminate]
         | (?m ≫= _) = _ => destruct m; cbn in Hn; [| discriminate]
         end.
  match type of Hn with
  | (if negb (in_range ?b') then _ else _) = _ =>
      destruct (in_range b') eqn:Hr; cbn in Hn; [| discriminate]
  end.
  injection Hn as <-. split; [reflexivity | assumption].
Qed.

Lemma in_range_unit b :
  in_range b = true ->
  (is_finite (cx b) = true /\ (0 <= F2Q (cx b) <= 1)%Q) /\
  (is_finite (cy b) = true /\ (0 <= F2Q (cy b) <= 1)%Q) /\
  (is_finite (nw b) = true /\ (0 < F2Q (nw b) <= 1)%Q) /\
  (is_finite (nh b) = true /\ (0 < F2Q (nh b) <= 1)%Q).
Proof.
  unfold in_range. rewrite !andb_true_iff.
  intros [[[[[[[H1 H2] H3] H4] H5] H6] H7] H8].
  auto using closed_unit_interval, half_open_unit_interval.
Qed.

Lemma convert_Some line W H s :
  convert_visdrone_annotation line W H = Ok (Some s) ->
  exists b, convert_record line W H = Ok (Some b) /\ s = format_yolo b.
Proof.
  unfold convert_visdrone_annotation.
  destruct (convert_record line W H) as [[b|]|]; try discriminate.
  intros [= <-]. eauto.
Qed.

Lemma convert_None line W H :
  convert_record line W H = Ok None ->
  convert_visdrone_annotation line W H = Ok None.
Proof. unfold convert_visdrone_annotation. intros ->. reflexivity. Qed.

(** The box that leaves the bounds check with an accepted size lies
    inside the image. *)
Lemma bounds_check_inside x y w h W H x' y' w' h' :
  Spec.bounds_check x y w h W H = (x', y', w', h') ->
  too_small w' h' = false ->
  (0 <= x' /\ 10 <= w' /\ x' + w' <= W) /\ (0 <= y' /\ 10 <= h' /\ y' + h' <= H).
Proof.
  unfold Spec.bounds_check, too_small, MIN_BOX_SIZE.
  rewrite orb_false_iff, !Z.ltb_ge.
  destruct (x <? 0) eqn:E1, (y <? 0) eqn:E2, (W <? x + w) eqn:E3,
           (H <? y + h) eqn:E4; simpl; intros [= <- <- <- <-];
    rewrite ?Z.ltb_lt, ?Z.ltb_ge in *; lia.
Qed.





(** The fields the [try] block reads decide the parse. *)
Lemma parse_fields_agree p q :
  (forall i, In i [0; 1; 2; 3; 5]%nat -> p !! i = q !! i) ->
  parse_fields p = parse_fields q.
Proof.
  intros Hpq. unfold parse_fields.
  rewrite !Hpq by (simpl; tauto). reflexivity.
Qed.

Lemma parse_fields_None p i :
  In i [0; 1; 2; 3; 5]%nat -> p !! i ≫= py_int = None -> parse_fields p = None.
Proof.
  intros Hi Hn. unfold parse_fields. simpl in Hi.
  destruct (p !! 0%nat ≫= py_int) eqn:E0; [| reflexivity].
  destruct (p !! 1%nat ≫= py_int) eqn:E1; [| reflexivity].
  destruct (p !! 2%nat ≫= py_int) eqn:E2; [| reflexivity].
  destruct (p !! 3%nat ≫= py_int) eqn:E3; [| reflexivity].
  destruct (p !! 5%nat ≫= py_int) eqn:E5; [| reflexivity].
  exfalso. destruct Hi as [<-|[<-|[<-|[<-|[<-|[]]]]]]; congruence.
Qed.

End ConvertFacts.

(** ** Properties of [convert_visdrone_annotation] *)

Section ConvertClaims.
Import PyStr PyFloat Convert.

(** C1: whenever the conversion returns a line rather than [None], the
    record that line is printed from has its centre coordinates in
    [[0, 1]] and its width and height in [(0, 1]]. *)
Theorem emitted_annotation_in_unit_range line W H s :
  convert_visdrone_annotation line W H = Ok (Some s) ->
  exists b,
    convert_record line W H = Ok (Some b) /\ s = format_yolo b /\
    (is_finite (cx b) = true /\ (0 <= F2Q (cx b) <= 1)%Q) /\
    (is_finite (cy b) = true /\ (0 <= F2Q (cy b) <= 1)%Q) /\
    (is_finite (nw b) = true /\ (0 < F2Q (nw b) <= 1)%Q) /\
    (is_finite (nh b) = true /\ (0 < F2Q (nh b) <= 1)%Q).
Proof.
  intros Hs. destruct (convert_Some _ _ _ _ Hs) as (b & Hb & ->).
  exists b. split; [assumption |]. split; [reflexivity |].
  destruct (convert_record_Some _ _ _ _ Hb) as (x & y & w & h & c & t & _ & _ & _ & Hn).
  destruct (Spec.bounds_check x y w h W H) as [[[x' y'] w'] h'].
  destruct Hn as [_ Hn]. apply normalize_Some in Hn as [_ Hr].
  apply in_range_unit, Hr.
Qed.

Lemma emitted_annotation_in_unit_range_witness :
  exists b,
    convert_record "100,200,50,100,1,1,0,0" 1280 720 = Ok (Some b) /\
    "0 0.097656 0.347222 0.039062 0.138889" = format_yolo b /\
    (is_finite (cx b) = true /\ (0 <= F2Q (cx b) <= 1)%Q) /\
    (is_finite (cy b) = true /\ (0 <= F2Q (cy b) <= 1)%Q) /\
    (is_finite (nw b) = true /\ (0 < F2Q (nw b) <= 1)%Q) /\
    (is_finite (nh b) = true /\ (0 < F2Q (nh b) <= 1)%Q).
Proof.
  apply (emitted_annotation_in_unit_range "100,200,50,100,1,1,0,0" 1280 720).
  vm_compute. reflexivity.
Defined.

(** The invariant is on the record: after rounding to six decimals a
    positive width can be printed as 0.000000. *)
Lemma printed_width_can_be_zero :
  convert_visdrone_annotation "0,0,10,10,0,1,0,0" (10 ^ 8) 100
    = Ok (Some "0 0.000000 0.050000 0.000000 0.100000").
Proof. vm_compute. reflexivity. Qed.

(** The normalized width of the docstring's example is exactly 5/128: a
    binary64 value halfway between 0.039062 and 0.039063. *)
Lemma docstring_example_width :
  exists b,
    convert_record "100,200,50,100,1,1,0,0" 1280 720 = Ok (Some b) /\
    (F2Q (nw b) == 5 # 128)%Q /\
    (F2Q (nw b) * 1000000 == 39062 + (1 # 2))%Q /\
    micro_units (nw b) = 39062.
Proof. eexists. split; [vm_compute; reflexivity |]. repeat split; vm_compute; reflexivity. Qed.

(** C2: on the line of the docstring's example and a 1280x720 image the
    function returns "0 0.097656 0.347222 0.039062 0.138889": the fourth
    field is 0.039062, not the 0.039063 of the docstring. *)
Theorem docstring_example_output :
  convert_visdrone_annotation "100,200,50,100,1,1,0,0" 1280 720
    = Ok (Some "0 0.097656 0.347222 0.039062 0.138889") /\
  convert_visdrone_annotation "100,200,50,100,1,1,0,0" 1280 720
    <> Ok (Some "0 0.097656 0.347222 0.039063 0.138889").
Proof. split; [vm_compute; reflexivity | vm_compute; discriminate]. Qed.

(** C3: once a line is parsed, its class mapped and its raw size
    accepted, the box handed to the second size check and to the
    transform is the one the bounds check of the specification gives:
    clipped as [x' = max(0, x)], [y' = max(0, y)],
    [w' = min(w, imgWidth - x')], [h' = min(h, imgHeight - y')] when it
    leaves the image, unchanged otherwise; the box (1270, 700, 50, 50) in
    a 1280x720 image is clipped to width 10 and height 20. *)
Theorem clip_before_size_check_and_transform line W H x y w h c t :
  parse_line line = Some (x, y, w, h, c) ->
  VISDRONE_TO_SNIPERSCOPE !! c = Some t ->
  too_small w h = false ->
  (if out_of_bounds x y w h W H then clip x y w h W H else (x, y, w, h))
    = Spec.bounds_check x y w h W H /\
  convert_record line W H =
    (let '(x', y', w', h') := Spec.bounds_check x y w h W H in
     if too_small w' h' then Ok None else normalize t x' y' w' h' W H) /\
  out_of_bounds 1270 700 50 50 1280 720 = true /\
  clip 1270 700 50 50 1280 720 = (1270, 700, 10, 20).
Proof.
  intros Hp Hc Hs. split; [apply bounds_check_clip |].
  split; [apply (convert_record_staged _ _ _ _ _ _ _ c); assumption |].
  split; reflexivity.
Qed.

Lemma clip_before_size_check_and_transform_witness :
  convert_record "1270,700,50,50,0,4,0,0" 1280 720
    = normalize 2 1270 700 10 20 1280 720 /\
  convert_visdrone_annotation "1270,700,50,50,0,4,0,0" 1280 720
    = convert_visdrone_annotation "1270,700,10,20,0,4,0,0" 1280 720.
Proof.
  split.
  - apply (clip_before_size_check_and_transform
             "1270,700,50,50,0,4,0,0" 1280 720 1270 700 50 50 4 2);
      vm_compute; reflexivity.
  - vm_compute. reflexivity.
Defined.

(** C4: a line produces output only if its class id is one of 1, 2, 4,
    5, 6, 9; the class id written is then 0 for 1 and 2, 2 for 4, and 3
    for 5, 6 and 9, hence one of 0, 2, 3.  Class 5 maps to 3, and a line
    of class 3 never produces output. *)
Theorem emitted_class_ids line W H :
  (forall s, convert_visdrone_annotation line W H = Ok (Some s) ->
     exists x y w h c b,
       parse_line line = Some (x, y, w, h, c) /\ s = format_yolo b /\
       ((c = 1 \/ c = 2) /\ cls b = 0 \/ c = 4 /\ cls b = 2 \/
        (c = 5 \/ c = 6 \/ c = 9) /\ cls b = 3) /\
       (cls b = 0 \/ cls b = 2 \/ cls b = 3)) /\
  VISDRONE_TO_SNIPERSCOPE !! 5 = Some 3 /\
  VISDRONE_TO_SNIPERSCOPE !! 3 = None /\
  (forall x y w h, parse_line line = Some (x, y, w, h, 3) ->
     convert_visdrone_annotation line W H = Ok None).
Proof.
  split; [| split; [reflexivity | split; [reflexivity |]]].
  - intros s Hs. destruct (convert_Some _ _ _ _ Hs) as (b & Hb & ->).
    destruct (convert_record_Some _ _ _ _ Hb) as (x & y & w & h & c & t & Hp & Hc & _ & Hn).
    destruct (Spec.bounds_check x y w h W H) as [[[x' y'] w'] h'].
    destruct Hn as [_ Hn]. apply normalize_Some in Hn as [Ht _].
    rewrite class_map_lookup in Hc. apply class_map_Some in Hc.
    exists x, y, w, h, c, b. rewrite Ht.
    split; [assumption |]. split; [reflexivity |]. split; [assumption | lia].
  - intros x y w h Hp. apply convert_None.
    unfold convert_record. rewrite Hp. reflexivity.
Qed.

Lemma emitted_class_ids_witness :
  (exists x y w h c b,
     parse_line "10,20,30,40,0,5,0,0" = Some (x, y, w, h, c) /\
     "3 0.039062 0.083333 0.046875 0.083333" = format_yolo b /\
     ((c = 1 \/ c = 2) /\ cls b = 0 \/ c = 4 /\ cls b = 2 \/
      (c = 5 \/ c = 6 \/ c = 9) /\ cls b = 3) /\
     (cls b = 0 \/ cls b = 2 \/ cls b = 3)) /\
  convert_visdrone_annotation "10,20,30,40,0,3,0,0" 640 480 = Ok None.
Proof.
  split.
  - apply (proj1 (emitted_class_ids "10,20,30,40,0,5,0,0" 640 480)).
    vm_compute. reflexivity.
  - apply (proj2 (proj2 (proj2 (emitted_class_ids "10,20,30,40,0,3,0,0" 640 480)))
             10 20 30 40).
    vm_compute. reflexivity.
Defined.

End ConvertClaims.

Section ConvertClaimsFilters.
Import PyStr PyFloat Convert.

(** C5: the size filter accepts exactly the boxes with [w >= 10] and
    [h >= 10] ([MIN_BOX_SIZE] is 10); it is applied to the raw box and
    again to the box the bounds check leaves.  A box refused at either
    stage makes the function return [None], so a side of 9 is always
    refused; a box accepted at both stages, 10 by 10 included, reaches the
    transform. *)
Theorem size_filter_both_stages line W H x y w h c :
  parse_line line = Some (x, y, w, h, c) ->
  let '(x', y', w', h') := Spec.bounds_check x y w h W H in
  MIN_BOX_SIZE = 10 /\
  (too_small w h = false <-> MIN_BOX_SIZE <= w /\ MIN_BOX_SIZE <= h) /\
  too_small w h = negb (Spec.accept w h) /\
  too_small w' h' = negb (Spec.accept w' h') /\
  (Spec.accept w h = false -> convert_visdrone_annotation line W H = Ok None) /\
  (Spec.accept w' h' = false -> convert_visdrone_annotation line W H = Ok None) /\
  (forall t, VISDRONE_TO_SNIPERSCOPE !! c = Some t ->
     Spec.accept w h = true -> Spec.accept w' h' = true ->
     convert_record line W H = normalize t x' y' w' h' W H) /\
  (forall a, Spec.accept 9 a = false /\ Spec.accept a 9 = false) /\
  Spec.accept 10 10 = true.
Proof.
  intros Hp.
  destruct (Spec.bounds_check x y w h W H) as [[[x' y'] w'] h'] eqn:Hb.
  assert (Hfirst : Spec.accept w h = false ->
                   convert_visdrone_annotation line W H = Ok None).
  { intros Ha. apply convert_None. unfold convert_record. rewrite Hp.
    destruct (VISDRONE_TO_SNIPERSCOPE !! c); [| reflexivity].
    rewrite too_small_accept, Ha. reflexivity. }
  split; [reflexivity |].
  split; [unfold too_small; rewrite orb_false_iff, !Z.ltb_ge; tauto |].
  split; [apply too_small_accept |].
  split; [apply too_small_accept |].
  split; [exact Hfirst |].
  split; [| split; [| split; [| reflexivity]]].
  - intros Ha'. destruct (Spec.accept w h) eqn:Ha; [| auto].
    apply convert_None.
    destruct (VISDRONE_TO_SNIPERSCOPE !! c) as [t|] eqn:Hc;
      [| unfold convert_record; rewrite Hp, Hc; reflexivity].
    rewrite (convert_record_staged _ W H _ _ _ _ _ _ Hp Hc)
      by (rewrite too_small_accept, Ha; reflexivity).
    rewrite Hb, too_small_accept, Ha'. reflexivity.
  - intros t Hc Ha Ha'.
    rewrite (convert_record_staged _ W H _ _ _ _ _ _ Hp Hc)
      by (rewrite too_small_accept, Ha; reflexivity).
    rewrite Hb, too_small_accept, Ha'. reflexivity.
  - intros a. unfold Spec.accept. split; [reflexivity |].
    apply andb_false_r.
Qed.

Lemma size_filter_both_stages_witness :
  (convert_visdrone_annotation "0,0,9,50,0,1,0,0" 100 100 = Ok None) /\
  (convert_visdrone_annotation "95,0,14,50,0,1,0,0" 100 100 = Ok None) /\
  (convert_record "-3,90,10,10,0,1,0,0" 100 100 = normalize 0 0 90 10 10 100 100).
Proof.
  pose proof (size_filter_both_stages "0,0,9,50,0,1,0,0" 100 100 0 0 9 50 1 eq_refl) as H1.
  pose proof (size_filter_both_stages "95,0,14,50,0,1,0,0" 100 100 95 0 14 50 1 eq_refl) as H2.
  pose proof (size_filter_both_stages "-3,90,10,10,0,1,0,0" 100 100 (-3) 90 10 10 1 eq_refl) as H3.
  cbv beta iota zeta delta [Spec.bounds_check] in H1, H2, H3.
  simpl in H1, H2, H3.
  split; [apply H1; reflexivity |].
  split; [apply H2; reflexivity |].
  apply H3; reflexivity.
Defined.

(** The boundary, end to end: a 10 by 10 box inside the image is
    converted, one pixel less on either side is not. *)
Lemma size_boundary_examples :
  convert_visdrone_annotation "0,0,10,10,0,1,0,0" 100 100
    = Ok (Some "0 0.050000 0.050000 0.100000 0.100000") /\
  convert_visdrone_annotation "0,0,9,10,0,1,0,0" 100 100 = Ok None /\
  convert_visdrone_annotation "0,0,10,9,0,1,0,0" 100 100 = Ok None /\
  convert_visdrone_annotation "91,0,10,10,0,1,0,0" 100 100 = Ok None.
Proof. repeat split; vm_compute; reflexivity. Qed.

(** C9: a line with fewer than 8 comma-separated fields, or one whose
    field 0, 1, 2, 3 or 5 is not an integer literal, makes the function
    return [None] (and not raise); two lines of at least 8 fields that
    agree on fields 0-3 and 5 convert alike, so further fields, and
    fields 4, 6 and 7, are ignored. *)
Theorem malformed_line_rejected line W H :
  let parts := split_comma (strip line) in
  ((length parts < 8)%nat -> convert_visdrone_annotation line W H = Ok None) /\
  (forall i, In i [0; 1; 2; 3; 5]%nat -> parts !! i ≫= py_int = None ->
     convert_visdrone_annotation line W H = Ok None) /\
  (forall line',
     let parts' := split_comma (strip line') in
     (8 <= length parts)%nat -> (8 <= length parts')%nat ->
     (forall i, In i [0; 1; 2; 3; 5]%nat -> parts !! i = parts' !! i) ->
     convert_visdrone_annotation line' W H = convert_visdrone_annotation line W H).
Proof.
  intros parts.
  assert (Hnone : parse_line line = None -> convert_visdrone_annotation line W H = Ok None).
  { intros Hp. apply convert_None. unfold convert_record. rewrite Hp. reflexivity. }
  split; [| split].
  - intros Hlen. apply Hnone. unfold parse_line. fold parts.
    destruct (Nat.ltb_spec (length parts) 8); [reflexivity | lia].
  - intros i Hi Hf. apply Hnone. unfold parse_line. fold parts.
    destruct (length parts <? 8)%nat; [reflexivity |].
    apply (parse_fields_None _ i); assumption.
  - intros line' parts' Hlen Hlen' Hag.
    unfold convert_visdrone_annotation, convert_record, parse_line.
    fold parts parts'.
    destruct (Nat.ltb_spec (length parts) 8); [lia |].
    destruct (Nat.ltb_spec (length parts') 8); [lia |].
    rewrite (parse_fields_agree parts parts' Hag). reflexivity.
Qed.

Lemma malformed_line_rejected_witness :
  convert_visdrone_annotation "100,200,50,100,1,1,0" 1280 720 = Ok None /\
  convert_visdrone_annotation "100,200,5o,100,1,1,0,0" 1280 720 = Ok None /\
  convert_visdrone_annotation "100,200,50,100,x,1,y,z,extra,fields" 1280 720
    = convert_visdrone_annotation "100,200,50,100,1,1,0,0" 1280 720.
Proof.
  split; [| split].
  - apply (proj1 (malformed_line_rejected "100,200,50,100,1,1,0" 1280 720)).
    vm_compute. lia.
  - apply (proj1 (proj2 (malformed_line_rejected "100,200,5o,100,1,1,0,0" 1280 720)) 2%nat).
    + simpl. tauto.
    + vm_compute. reflexivity.
  - apply (proj2 (proj2 (malformed_line_rejected "100,200,50,100,1,1,0,0" 1280 720))).
    + vm_compute. lia.
    + vm_compute. lia.
    + intros i [<-|[<-|[<-|[<-|[<-|[]]]]]]; reflexivity.
Defined.




(** The threshold is exact on both operations that can overflow. *)
Lemma overflow_threshold_examples :
  float_of_int (DBL_OVERFLOW - 1) = Ok (SFmax_float prec emax) /\
  binary_normalize prec emax DBL_OVERFLOW 0 false = S754_infinity false /\
  int_truediv (3 * DBL_OVERFLOW - 1) 3 = Ok (SFmax_float prec emax) /\
  SFdiv prec emax (exact_int (3 * DBL_OVERFLOW)) (exact_int 3) = S754_infinity false.
Proof. repeat split; vm_compute; reflexivity. Qed.

End ConvertClaimsFilters.

(** ** The file system and the loops *)

Section PipelineFacts.
Import PyStr PyFloat Convert Pipeline.

Lemma resolve_div w p n : resolve w (p // n) = resolve w p ++ [n].
Proof.
  unfold resolve, div. simpl. destruct (anchored p); [reflexivity |].
  apply app_assoc.
Qed.

Lemma io_bind_eq {A B} (m : io A) (f : A -> io B) w :
  (m ≫= f) w =
    match m w with
    | (Ok a, w') => f a w'
    | (Raise e, w') => (Raise e, w')
    end.
Proof. reflexivity. Qed.



(** Nothing exists below a path that does not exist. *)
Lemma walk_None_app m rest s :
  forall cur, walk m cur rest = None -> walk m cur (rest ++ s) = None.
Proof.
  induction rest as [|n rest IH]; intros cur; [discriminate |].
  simpl. destruct (m !! (cur ++ [n])) as [[|c]|]; [apply IH | | reflexivity].
  destruct rest; [discriminate | reflexivity].
Qed.

Lemma stat_None_app m k s : stat m k = None -> stat m (k ++ s) = None.
Proof. apply walk_None_app. Qed.

Lemma removelast_snoc {A} (l : list A) (a : A) : removelast (l ++ [a]) = l.
Proof. apply removelast_last. Qed.

Section WithDecoder.
Variable decode : string -> option (Z * Z).



(** Each turn of a loop whose body counts one image adds one to the
    sum of the two counters. *)
Lemma for_each_counts {A} (body : A -> Z * Z -> io (Z * Z)) :
  (forall a c w c' w', body a c w = (Ok c', w') ->
     fst c' + snd c' = fst c + snd c + 1) ->
  forall l c w c' w', for_each body l c w = (Ok c', w') ->
    fst c' + snd c' = fst c + snd c + Z.of_nat (length l).
Proof.
  intros Hbody l. induction l as [|a l IH]; intros c w c' w' Hl.
  - injection Hl as <- _. simpl. lia.
  - simpl for_each in Hl. rewrite io_bind_eq in Hl.
    destruct (body a c w) as [[c1|e] w1] eqn:Hb; [| discriminate].
    apply Hbody in Hb. apply IH in Hl.
    rewrite Hl, Hb. simpl length. lia.
Qed.

End WithDecoder.

End PipelineFacts.

(** ** Properties of [process_split] and [main] *)

Section ImageStep.
Import PyStr PyFloat Convert Pipeline.

Variable decode : string -> option (Z * Z).

(** Decoded images have sides in the binary64 range (OpenCV's are below
    [2^31]). *)
Hypothesis decode_in_range :
  forall c h w, decode c = Some (h, w) -> w < DBL_OVERFLOW /\ h < DBL_OVERFLOW.


End ImageStep.

Section RunFacts.
Import PyStr PyFloat Convert Pipeline.

Variable decode : string -> option (Z * Z).

Lemma keeps_cwd_ret {A} (a : A) : keeps_cwd (mret a).
Proof. intros w. reflexivity. Qed.

Lemma keeps_cwd_bind {A B} (m : io A) (f : A -> io B) :
  keeps_cwd m -> (forall a, keeps_cwd (f a)) -> keeps_cwd (m ≫= f).
Proof.
  intros Hm Hf w. rewrite io_bind_eq. specialize (Hm w).
  destruct (m w) as [[a|e] w1]; simpl in *; [| exact Hm].
  rewrite Hf. exact Hm.
Qed.

Lemma keeps_cwd_print l : keeps_cwd (print l).
Proof. intros w. reflexivity. Qed.

Lemma keeps_cwd_path_exists p : keeps_cwd (path_exists p).
Proof. intros w. reflexivity. Qed.

Lemma keeps_cwd_absolute p : keeps_cwd (absolute p).
Proof. intros w. reflexivity. Qed.

Lemma keeps_cwd_lift {A} (r : result A) : keeps_cwd (lift r).
Proof. intros w. reflexivity. Qed.

Lemma keeps_cwd_mkdir_parents p : keeps_cwd (mkdir_parents p).
Proof. intros w. unfold mkdir_parents. destruct (mkdirs _ _ _); reflexivity. Qed.

Lemma keeps_cwd_glob_jpg p : keeps_cwd (glob_jpg p).
Proof. intros w. unfold glob_jpg. destruct (stat _ _) as [[|?]|]; reflexivity. Qed.

Lemma keeps_cwd_read_lines p : keeps_cwd (read_lines p).
Proof. intros w. unfold read_lines. destruct (stat _ _) as [[|?]|]; reflexivity. Qed.

Lemma keeps_cwd_imread p : keeps_cwd (imread decode p).
Proof. intros w. unfold imread. destruct (stat _ _) as [[|?]|]; reflexivity. Qed.

Lemma keeps_cwd_write_file k c : keeps_cwd (write_file k c).
Proof.
  intros w. unfold write_file.
  destruct (stat (fs w) (removelast k)) as [[|?]|]; try reflexivity.
  destruct (stat (fs w) k) as [[|?]|]; reflexivity.
Qed.

Lemma keeps_cwd_write_text p c : keeps_cwd (write_text p c).
Proof. intros w. unfold write_text. apply keeps_cwd_write_file. Qed.

Lemma keeps_cwd_shutil_copy p q : keeps_cwd (shutil_copy p q).
Proof.
  intros w. unfold shutil_copy.
  destruct (stat (fs w) (resolve w p)) as [[|?]|]; try reflexivity.
  case_decide; [reflexivity | apply keeps_cwd_write_file].
Qed.

Lemma keeps_cwd_for_each {A S} (body : A -> S -> io S) l :
  (forall a s, keeps_cwd (body a s)) -> forall s, keeps_cwd (for_each body l s).
Proof.
  intros Hb. induction l as [|a l IH]; intros s; simpl.
  - apply keeps_cwd_ret.
  - apply keeps_cwd_bind; [apply Hb | exact IH].
Qed.

Lemma keeps_cwd_process_image a oi ol p c :
  keeps_cwd (process_image decode a oi ol p c).
Proof.
  unfold process_image. destruct c as [processed skipped].
  apply keeps_cwd_bind; [apply keeps_cwd_imread |].
  intros [[h wd]|]; [| apply keeps_cwd_ret].
  apply keeps_cwd_bind; [apply keeps_cwd_path_exists |].
  intros [|]; [| apply keeps_cwd_ret]. cbn [negb].
  apply keeps_cwd_bind; [apply keeps_cwd_read_lines |]. intros lines.
  apply keeps_cwd_bind; [apply keeps_cwd_lift |].
  intros [|l ls]; [apply keeps_cwd_ret |].
  apply keeps_cwd_bind; [apply keeps_cwd_shutil_copy |]. intros _.
  apply keeps_cwd_bind; [apply keeps_cwd_write_text |]. intros _.
  apply keeps_cwd_ret.
Qed.

Lemma keeps_cwd_process_split root out split :
  keeps_cwd (process_split decode root out split).
Proof.
  unfold process_split.
  apply keeps_cwd_bind; [apply keeps_cwd_path_exists |].
  intros [|]; cbn [negb].
  - apply keeps_cwd_bind; [apply keeps_cwd_mkdir_parents |]. intros _.
    apply keeps_cwd_bind; [apply keeps_cwd_mkdir_parents |]. intros _.
    apply keeps_cwd_bind; [apply keeps_cwd_glob_jpg |]. intros files.
    apply keeps_cwd_for_each. intros. apply keeps_cwd_process_image.
  - apply keeps_cwd_bind; [apply keeps_cwd_print |]. intros _.
    apply keeps_cwd_ret.
Qed.

Lemma keeps_cwd_run_split root out split totals :
  keeps_cwd (run_split decode root out split totals).
Proof.
  unfold run_split. destruct totals as [tp ts].
  apply keeps_cwd_bind; [apply keeps_cwd_print |]. intros _.
  apply keeps_cwd_bind; [apply keeps_cwd_process_split |]. intros [p s].
  apply keeps_cwd_bind; [apply keeps_cwd_print |]. intros _.
  apply keeps_cwd_ret.
Qed.

(** A split whose image directory is missing: a warning, no counts, no
    change to the files. *)
Lemma process_split_missing root out split w :
  stat (fs w) (resolve w (images_dir root split)) = None ->
  process_split decode root out split w =
    (Ok (0, 0),
     World (cwd w) (fs w)
       (stdout w ++ [OutWarnMissing (images_dir root split) split])).
Proof.
  intros Hm. unfold process_split. rewrite io_bind_eq. unfold path_exists.
  rewrite Hm. reflexivity.
Qed.

Lemma run_split_missing root out split tp ts w :
  stat (fs w) (resolve w (images_dir root split)) = None ->
  run_split decode root out split (tp, ts) w =
    (Ok (tp, ts),
     World (cwd w) (fs w) (stdout w ++ Spec.skipped_split_output root split)).
Proof.
  intros Hm. unfold run_split. rewrite io_bind_eq.
  unfold print at 1. cbv beta iota. rewrite io_bind_eq.
  rewrite process_split_missing by exact Hm.
  cbv beta iota. rewrite io_bind_eq. unfold print. cbv beta iota.
  unfold mret, io_ret. cbn [cwd fs stdout].
  rewrite !Z.add_0_r, <- !app_assoc. reflexivity.
Qed.

Lemma for_each_cons {A S} (body : A -> S -> io S) a l s w :
  for_each body (a :: l) s w =
    match body a s w with
    | (Ok s', w') => for_each body l s' w'
    | (Raise e, w') => (Raise e, w')
    end.
Proof. reflexivity. Qed.

Lemma missing_root_missing_images root split w :
  stat (fs w) (resolve w root) = None ->
  stat (fs w) (resolve w (images_dir root split)) = None.
Proof.
  intros Hroot. rewrite !resolve_div, <- app_assoc.
  apply stat_None_app. exact Hroot.
Qed.

(** With the source root missing every split is skipped in turn. *)
Lemma for_each_missing_root root out splits :
  forall totals w,
    stat (fs w) (resolve w root) = None ->
    for_each (run_split decode root out) splits totals w
    = (Ok totals,
       World (cwd w) (fs w)
         (stdout w ++ flat_map (Spec.skipped_split_output root) splits)).
Proof.
  induction splits as [|split rest IH]; intros [tp ts] w Hroot.
  - simpl. rewrite app_nil_r. destruct w; reflexivity.
  - rewrite for_each_cons.
    rewrite run_split_missing by (apply missing_root_missing_images; exact Hroot).
    rewrite IH by exact Hroot.
    cbn [cwd fs stdout flat_map]. rewrite <- app_assoc. reflexivity.
Qed.

End RunFacts.

Section Mkdir.
Import PyStr PyFloat Convert Pipeline.

(** [mkdirs] only adds entries. *)
Lemma mkdirs_keeps rest :
  forall cur m m', mkdirs m cur rest = Ok m' ->
    forall k v, m !! k = Some v -> m' !! k = Some v.
Proof.
  induction rest as [|n rest IH]; intros cur m m' Hm k v Hk.
  - injection Hm as <-. exact Hk.
  - simpl in Hm. destruct (m !! (cur ++ [n])) as [[|c]|] eqn:Hn; [| discriminate |].
    + exact (IH _ _ _ Hm k v Hk).
    + apply (IH _ _ _ Hm k v). rewrite lookup_insert_ne; [exact Hk |].
      intros <-. congruence.
Qed.

Lemma walk_keeps m m' rest :
  (forall k v, m !! k = Some v -> m' !! k = Some v) ->
  forall cur n, walk m cur rest = Some n -> walk m' cur rest = Some n.
Proof.
  intros Hk. induction rest as [|a rest IH]; intros cur n; [trivial |].
  simpl. destruct (m !! (cur ++ [a])) as [[|c]|] eqn:Ha; [| | discriminate];
    rewrite (Hk _ _ Ha); [apply IH | trivial].
Qed.

(** After [mkdirs] the path is a directory. *)
Lemma mkdirs_walk rest :
  forall cur m m', mkdirs m cur rest = Ok m' -> walk m' cur rest = Some Dir.
Proof.
  induction rest as [|n rest IH]; intros cur m m' Hm; [reflexivity |].
  simpl in Hm. simpl.
  destruct (m !! (cur ++ [n])) as [[|c]|] eqn:Hn; [| discriminate |].
  - rewrite (mkdirs_keeps _ _ _ _ Hm _ _ Hn). exact (IH _ _ _ Hm).
  - rewrite (mkdirs_keeps _ _ _ _ Hm (cur ++ [n]) Dir) by apply lookup_insert_eq.
    exact (IH _ _ _ Hm).
Qed.

Lemma mkdir_parents_Ok p w u w' :
  mkdir_parents p w = (Ok u, w') ->
  cwd w' = cwd w /\ stdout w' = stdout w /\
  stat (fs w') (resolve w p) = Some Dir /\
  forall k n, stat (fs w) k = Some n -> stat (fs w') k = Some n.
Proof.
  unfold mkdir_parents.
  destruct (mkdirs (fs w) [] (resolve w p)) as [m|e] eqn:Hm; [| discriminate].
  intros [= _ <-]. cbn [set_fs cwd fs stdout].
  split; [reflexivity |]. split; [reflexivity |].
  split; [exact (mkdirs_walk _ _ _ _ Hm) |].
  intros k n. apply walk_keeps. exact (mkdirs_keeps _ _ _ _ Hm).
Qed.

(** When [process_split] reaches its loop, the two output directories of
    the split are in place. *)
Lemma output_directories_ready out split w w1 w2 u1 u2 :
  mkdir_parents (out // "images" // split) w = (Ok u1, w1) ->
  mkdir_parents (out // "labels" // split) w1 = (Ok u2, w2) ->
  stat (fs w2) (resolve w2 (out // "images" // split)) = Some Dir /\
  stat (fs w2) (resolve w2 (out // "labels" // split)) = Some Dir.
Proof.
  intros H1 H2.
  destruct (mkdir_parents_Ok _ _ _ _ H1) as (Hc1 & _ & Hd1 & _).
  destruct (mkdir_parents_Ok _ _ _ _ H2) as (Hc2 & _ & Hd2 & Hk2).
  assert (Hr : forall p, resolve w2 p = resolve w p).
  { intros p. unfold resolve. rewrite Hc2, Hc1. reflexivity. }
  assert (Hr1 : forall p, resolve w1 p = resolve w p).
  { intros p. unfold resolve. rewrite Hc1. reflexivity. }
  rewrite !Hr. rewrite Hr1 in Hd2. split; [apply Hk2; exact Hd1 | exact Hd2].
Qed.

End Mkdir.

Section Counts.
Import PyStr PyFloat Convert Pipeline.
Variable decode : string -> option (Z * Z).

(** Every turn of the loop over the images counts the image once, as
    processed or as skipped. *)
Lemma process_image_counts a oi ol p c w c' w' :
  process_image decode a oi ol p c w = (Ok c', w') ->
  fst c' + snd c' = fst c + snd c + 1.
Proof.
  unfold process_image. destruct c as [processed skipped].
  rewrite io_bind_eq. unfold imread.
  destruct (stat (fs w) (resolve w p)) as [[|content]|];
    try (intros [= <- _]; simpl; lia).
  destruct (decode content) as [[h wd]|]; [| intros [= <- _]; simpl; lia].
  rewrite io_bind_eq. unfold path_exists.
  destruct (stat (fs w) (resolve w (a // (stem p +:+ ".txt")))) as [[|text]|];
    cbv beta iota delta [negb]; try (intros [= <- _]; simpl; lia).
  - rewrite io_bind_eq. unfold read_lines.
    destruct (stat _ _) as [[|?]|]; try discriminate.
    rewrite io_bind_eq. unfold lift.
    destruct (convert_lines _ wd h) as [[|l ls]|]; try discriminate;
      [intros [= <- _]; simpl; lia |].
    rewrite io_bind_eq. destruct (shutil_copy _ _ _) as [[u|e] w1]; [| discriminate].
    rewrite io_bind_eq. destruct (write_text _ _ _) as [[u'|e] w2]; [| discriminate].
    intros [= <- _]. simpl. lia.
  - rewrite io_bind_eq. unfold read_lines.
    destruct (stat _ _) as [[|?]|]; try discriminate.
    rewrite io_bind_eq. unfold lift.
    destruct (convert_lines _ wd h) as [[|l ls]|]; try discriminate;
      [intros [= <- _]; simpl; lia |].
    rewrite io_bind_eq. destruct (shutil_copy _ _ _) as [[u|e] w1]; [| discriminate].
    rewrite io_bind_eq. destruct (write_text _ _ _) as [[u'|e] w2]; [| discriminate].
    intros [= <- _]. simpl. lia.
Qed.

(** A split that is present and processed to the end counts each of its
    [.jpg] entries once. *)
Lemma process_split_counts root out split w processed skipped w' :
  stat (fs w) (resolve w (images_dir root split)) <> None ->
  process_split decode root out split w = (Ok (processed, skipped), w') ->
  exists w0 image_files,
    glob_jpg (images_dir root split) w0 = (Ok image_files, w0) /\
    processed + skipped = Z.of_nat (length image_files).
Proof.
  intros Hdir. unfold process_split. rewrite io_bind_eq. unfold path_exists.
  destruct (stat (fs w) _) as [n|]; [| congruence]. cbv beta iota delta [negb].
  rewrite io_bind_eq. destruct (mkdir_parents _ w) as [[u|e] w1]; [| discriminate].
  rewrite io_bind_eq. destruct (mkdir_parents _ w1) as [[u'|e] w2]; [| discriminate].
  rewrite io_bind_eq.
  destruct (glob_jpg _ w2) as [[files|e] w3] eqn:Hglob; [| discriminate].
  assert (w3 = w2) as ->.
  { unfold glob_jpg in Hglob. destruct (stat _ _) as [[|?]|]; congruence. }
  intros Hloop. exists w2, files. split; [exact Hglob |].
  apply (for_each_counts _ (process_image_counts _ _ _)) in Hloop.
  simpl in Hloop. lia.
Qed.

End Counts.

(** ** The loop over the images of a split *)

Section LoopFacts.
Import PyStr PyFloat Convert Pipeline Spec.

Lemma name_div p n : name (p // n) = n.
Proof. unfold name, div. simpl. apply last_last. Qed.

Lemma stem_div p n : stem (p // n) = stem_of n.
Proof. unfold stem. rewrite name_div. reflexivity. Qed.




End LoopFacts.


Section LoopClaim.
Import PyStr PyFloat Convert Pipeline Spec.

Variable decode : string -> option (Z * Z).
Hypothesis decode_in_range :
  forall c h w, decode c = Some (h, w) -> w < DBL_OVERFLOW /\ h < DBL_OVERFLOW.

Variables (visdrone_root output_root : Path) (split : string).







(** [process_split] on a split that is present: the two directories are
    made, and the loop runs over the [.jpg] entries of the image
    directory, from counters at zero. *)
Lemma process_split_loop w w1 w2 u1 u2 :
  stat (fs w) (resolve w (images_dir visdrone_root split)) <> None ->
  mkdir_parents (output_images output_root split) w = (Ok u1, w1) ->
  mkdir_parents (output_labels output_root split) w1 = (Ok u2, w2) ->
  stat (fs w2) (resolve w2 (output_images output_root split)) = Some Dir /\
  stat (fs w2) (resolve w2 (output_labels output_root split)) = Some Dir /\
  exists ns,
    Forall (fun n => ends_with ".jpg" n = true) ns /\
    process_split decode visdrone_root output_root split w
    = for_each (process_image decode (annotations_dir visdrone_root split)
              (output_images output_root split) (output_labels output_root split))
        (div (images_dir visdrone_root split) <$> ns) (0, 0) w2.
Proof.
  intros Hdir H1 H2.
  destruct (output_directories_ready _ _ _ _ _ _ _ H1 H2) as [Hi Hl].
  split; [exact Hi |]. split; [exact Hl |].
  unfold process_split.
  rewrite io_bind_eq. unfold path_exists.
  destruct (stat (fs w) (resolve w (images_dir visdrone_root split))) as [node|];
    [| congruence].
  cbv beta iota delta [negb]. rewrite io_bind_eq, H1, io_bind_eq, H2, io_bind_eq.
  unfold glob_jpg.
  destruct (stat (fs w2) (resolve w2 (images_dir visdrone_root split))) as [[|c]|].
  - eexists. split; [| reflexivity].
    apply Forall_forall. intros n Hn.
    apply list_elem_of_filter in Hn. apply Hn.
  - exists []. split; [constructor | reflexivity].
  - exists []. split; [constructor | reflexivity].
Qed.

End LoopClaim.

Section RunClaims.
Import PyStr PyFloat Convert Pipeline.

Variable decode : string -> option (Z * Z).

(** What [main] does after the loop over the splits. *)
Lemma main_eq root out splits w :
  main decode root out splits w =
    match for_each (run_split decode root out) splits (0, 0)
            (World (cwd w) (fs w) (stdout w ++ [OutHeader root out splits])) with
    | (Ok totals, w1) =>
        let w2 := World (cwd w1) (fs w1)
                    (stdout w1 ++ [OutTotals (fst totals) (snd totals)]) in
        match write_text (out // "dataset.yaml")
                (dataset_yaml_text (path_str (MkPath true (resolve w2 out)))) w2 with
        | (Ok _, w3) => print (OutSaved (out // "dataset.yaml")) w3
        | (Raise e, w3) => (Raise e, w3)
        end
    | (Raise e, w1) => (Raise e, w1)
    end.
Proof.
  unfold main. rewrite io_bind_eq. unfold print at 1. cbv beta iota.
  rewrite io_bind_eq.
  destruct (for_each _ splits (0, 0) _) as [[totals|e] w1]; [| reflexivity].
  reflexivity.
Qed.

Lemma write_file_Ok k c w u w' :
  write_file k c w = (Ok u, w') -> w' = set_fs w (<[k := File c]> (fs w)).
Proof.
  unfold write_file.
  destruct (stat (fs w) (removelast k)) as [[|?]|]; try discriminate.
  destruct (stat (fs w) k) as [[|?]|]; try discriminate; intros [= _ <-]; reflexivity.
Qed.

(** C7, as the code has it: a missing split directory is a no-op that
    returns (0, 0) after a warning, and the loop goes on with the
    remaining splits; a missing source root is not told apart from that:
    every split is skipped in turn, the totals stay at (0, 0), no file is
    touched, and the run then writes the manifest.  The run ends in an
    error only if the manifest cannot be written, after every split was
    visited. *)
Theorem missing_directories_are_skipped visdrone_root output_root w :
  (forall split,
     stat (fs w) (resolve w (images_dir visdrone_root split)) = None ->
     process_split decode visdrone_root output_root split w
       = (Ok (0, 0),
          World (cwd w) (fs w)
            (stdout w ++ [OutWarnMissing (images_dir visdrone_root split) split])) /\
     forall rest totals,
       for_each (run_split decode visdrone_root output_root) (split :: rest) totals w
       = for_each (run_split decode visdrone_root output_root) rest totals
           (World (cwd w) (fs w)
              (stdout w ++ Spec.skipped_split_output visdrone_root split))) /\
  (stat (fs w) (resolve w visdrone_root) = None ->
   forall splits,
     for_each (run_split decode visdrone_root output_root) splits (0, 0) w
       = (Ok (0, 0),
          World (cwd w) (fs w)
            (stdout w ++ flat_map (Spec.skipped_split_output visdrone_root) splits)) /\
     (forall e w', main decode visdrone_root output_root splits w = (Raise e, w') ->
        fs w' = fs w /\ forall split, split ∈ splits -> OutProcessing split ∈ stdout w') /\
     (stat (fs w) (resolve w output_root) = Some Dir ->
      stat (fs w) (resolve w output_root ++ ["dataset.yaml"]) <> Some Dir ->
      exists w', main decode visdrone_root output_root splits w = (Ok tt, w'))).
Proof.
  split.
  - intros split Hm. split; [apply process_split_missing; exact Hm |].
    intros rest [tp ts]. rewrite for_each_cons.
    rewrite run_split_missing by exact Hm. reflexivity.
  - intros Hroot splits. split; [apply for_each_missing_root; exact Hroot |].
    assert (Hmain := main_eq visdrone_root output_root splits w).
    rewrite for_each_missing_root in Hmain by exact Hroot.
    cbn [cwd fs stdout fst snd] in Hmain. cbv zeta in Hmain.
    unfold write_text, write_file in Hmain. cbn [cwd fs stdout] in Hmain.
    rewrite resolve_div in Hmain.
    change (resolve (World (cwd w) (fs w) ?o) ?p) with (resolve w p) in Hmain.
    rewrite removelast_snoc in Hmain.
    split.
    + intros e w' He. rewrite Hmain in He.
      assert (fs w' = fs w /\
              stdout w' = (stdout w ++ [OutHeader visdrone_root output_root splits]
                           ++ flat_map (Spec.skipped_split_output visdrone_root) splits)
                          ++ [OutTotals 0 0]) as [Hfs Hout].
      { destruct (stat (fs w) (resolve w output_root)) as [[|?]|];
          [destruct (stat (fs w) (resolve w output_root ++ ["dataset.yaml"])) as [[|?]|] |
           |]; try discriminate;
          injection He as _ <-; split; try reflexivity;
          cbn [stdout]; rewrite <- !app_assoc; reflexivity. }
      split; [exact Hfs |].
      intros split Hin. rewrite Hout.
      apply elem_of_app. left. apply elem_of_app. right. apply elem_of_app. right.
      apply list_elem_of_In, in_flat_map. exists split.
      split; [apply list_elem_of_In; exact Hin | left; reflexivity].
    + intros Hout Hfile. rewrite Hmain, Hout.
      destruct (stat (fs w) (resolve w output_root ++ ["dataset.yaml"])) as [[|?]|];
        [congruence | eexists; reflexivity | eexists; reflexivity].
Qed.

End RunClaims.

Section ManifestClaims.
Import PyStr PyFloat Convert Pipeline.

Variable decode : string -> option (Z * Z).

(** C8, as the code has it: when the run completes, the one file it
    writes after the loop over the splits is [dataset.yaml] under the
    output root; it records the absolute output root, the two relative
    paths [images/train] and [images/val] whatever splits were requested,
    the class count 4, and a class-name table of three entries, for the
    target ids 0, 2 and 3. *)
Theorem manifest_written visdrone_root output_root splits w w' :
  main decode visdrone_root output_root splits w = (Ok tt, w') ->
  let root := path_str (MkPath true (resolve w output_root)) in
  (exists totals w1,
     for_each (run_split decode visdrone_root output_root) splits (0, 0)
       (World (cwd w) (fs w) (stdout w ++ [OutHeader visdrone_root output_root splits]))
     = (Ok totals, w1) /\
     fs w' = <[resolve w output_root ++ ["dataset.yaml"] := File (dataset_yaml_text root)]>
               (fs w1)) /\
  fs w' !! (resolve w output_root ++ ["dataset.yaml"]) = Some (File (dataset_yaml_text root)) /\
  Spec.top_entries (dataset_yaml_lines root)
    = [("path", root); ("train", "images/train"); ("val", "images/val"); ("nc", "4")]%string /\
  Spec.name_entries (dataset_yaml_lines root)
    = [("0", "person"); ("2", "car"); ("3", "truck")]%string.
Proof.
  intros Hmain root. rewrite main_eq in Hmain.
  pose proof (keeps_cwd_for_each (run_split decode visdrone_root output_root) splits
                (keeps_cwd_run_split decode visdrone_root output_root) (0, 0)
                (World (cwd w) (fs w) (stdout w ++ [OutHeader visdrone_root output_root splits])))
    as Hcwd.
  destruct (for_each _ splits (0, 0) _) as [[totals|e] w1]; [| discriminate].
  cbn [snd cwd] in Hcwd. cbv zeta in Hmain.
  assert (Hres : forall o p, resolve (World (cwd w1) (fs w1) o) p = resolve w p).
  { intros o p. unfold resolve. cbn [cwd]. rewrite Hcwd. reflexivity. }
  rewrite Hres in Hmain. fold root in Hmain.
  unfold write_text in Hmain. rewrite Hres, resolve_div in Hmain.
  destruct (write_file _ _ _) as [[u|e] w3] eqn:Hw; [| discriminate].
  apply write_file_Ok in Hw. subst w3.
  unfold print in Hmain. injection Hmain as <-. cbn [fs set_fs].
  split; [exists totals, w1; split; reflexivity |].
  split; [apply lookup_insert_eq |].
  split; reflexivity.
Qed.

End ManifestClaims.

(** ** The claims on the example worlds *)

Section ExampleRuns.
Import PyStr PyFloat Convert Pipeline Examples.


(** The whole train split of [one_split]: [a.jpg] is committed with its
    two surviving records, [b.jpg] is skipped and leaves no file. *)
Lemma process_split_example :
  let r := process_split decode visdrone_root output_root "train" (one_split "train") in
  fst r = Ok (1, 1) /\
  fs (snd r) !! (out ++ ["labels"; "train"; "a.txt"])
    = Some (File ("0 0.097656 0.347222 0.039062 0.138889" +:+ LF +:+
                  "2 0.996094 0.986111 0.007812 0.027778")) /\
  fs (snd r) !! (out ++ ["images"; "train"; "a.jpg"]) = Some (File "JPEG 1280x720") /\
  fs (snd r) !! (out ++ ["labels"; "train"; "b.txt"]) = None /\
  fs (snd r) !! (out ++ ["images"; "train"; "b.jpg"]) = None /\
  size (fs (snd r)) = S (S (size (fs (one_split "train")))).
Proof. repeat split; vm_compute; reflexivity. Qed.



Lemma missing_directories_are_skipped_witness :
  let w := no_source in
  (process_split decode visdrone_root output_root "val" w
   = (Ok (0, 0),
      World (cwd w) (fs w)
        (stdout w ++
         [OutWarnMissing (visdrone_root // ("VisDrone2019-DET-" +:+ "val") // "images") "val"]))) /\
  (for_each (run_split decode visdrone_root output_root) ["train"; "val"] (0, 0) w
   = (Ok (0, 0),
      World (cwd w) (fs w)
        (stdout w ++ flat_map (Spec.skipped_split_output visdrone_root) ["train"; "val"]))) /\
  exists w', main decode visdrone_root output_root ["train"; "val"] w = (Ok tt, w').
Proof.
  pose proof (missing_directories_are_skipped decode visdrone_root output_root no_source)
    as [Hsplit Hroot].
  split; [apply Hsplit; vm_compute; reflexivity |].
  assert (Hmissing : stat (fs no_source) (resolve no_source visdrone_root) = None)
    by (vm_compute; reflexivity).
  destruct (Hroot Hmissing ["train"; "val"]) as (Hloop & _ & Hmain).
  split; [exact Hloop |].
  apply Hmain; vm_compute; congruence.
Defined.

(** C7 as stated fails: with the source root missing the run visits both
    splits, skips each, writes the manifest and ends without an error. *)
Lemma missing_root_run_completes :
  let r := main decode visdrone_root output_root ["train"; "val"] no_source in
  stat (fs no_source) (resolve no_source visdrone_root) = None /\
  fst r = Ok tt /\
  stdout (snd r)
    = [OutHeader visdrone_root output_root ["train"; "val"];
       OutProcessing "train";
       OutWarnMissing (visdrone_root // "VisDrone2019-DET-train" // "images") "train";
       OutSplitCounts 0 0;
       OutProcessing "val";
       OutWarnMissing (visdrone_root // "VisDrone2019-DET-val" // "images") "val";
       OutSplitCounts 0 0;
       OutTotals 0 0;
       OutSaved (output_root // "dataset.yaml")] /\
  ~ Spec.aborted_before_splits r.
Proof.
  split; [vm_compute; reflexivity |].
  split; [vm_compute; reflexivity |].
  split; [vm_compute; reflexivity |].
  intros [[e He] _]. vm_compute in He. discriminate.
Qed.

Lemma manifest_written_witness :
  let w := one_split "test" in
  let root := path_str (MkPath true (resolve w output_root)) in
  root = "/work/datasets/visdrone"%string /\
  (exists w', main decode visdrone_root output_root ["test"] w = (Ok tt, w') /\
     fs w' !! (out ++ ["dataset.yaml"]) = Some (File (dataset_yaml_text root))) /\
  Spec.top_entries (dataset_yaml_lines root)
    = [("path", root); ("train", "images/train"); ("val", "images/val"); ("nc", "4")]%string /\
  Spec.name_entries (dataset_yaml_lines root)
    = [("0", "person"); ("2", "car"); ("3", "truck")]%string.
Proof.
  intros w root. split; [reflexivity |].
  destruct (main decode visdrone_root output_root ["test"] w) as [r w'] eqn:Hmain.
  assert (Hr : r = Ok tt).
  { change r with (fst (r, w')). rewrite <- Hmain. vm_compute. reflexivity. }
  subst r.
  destruct (manifest_written decode visdrone_root output_root ["test"] w w' Hmain)
    as (_ & Hfile & Htop & Hnames).
  split; [exists w'; split; [reflexivity | exact Hfile] |].
  split; [exact Htop | exact Hnames].
Defined.

(** C8 as stated fails: after a run over the one split [test], which is
    processed, there is no file [manifest] under the output root; the
    file written is [dataset.yaml], it lists [images/train] and
    [images/val] and not [images/test], and its class-name table has
    three entries, not four. *)
Lemma manifest_not_as_specified :
  let w := one_split "test" in
  let r := main decode visdrone_root output_root ["test"] w in
  let lines := dataset_yaml_lines "/work/datasets/visdrone" in
  fst r = Ok tt /\
  OutSplitCounts 1 1 ∈ stdout (snd r) /\
  fs (snd r) !! (out ++ ["dataset.yaml"])
    = Some (File (dataset_yaml_text "/work/datasets/visdrone")) /\
  ~ Spec.manifest_at_manifest output_root w (snd r) /\
  ~ Spec.manifest_lists_splits ["test"] lines /\
  ~ Spec.manifest_has_four_names lines.
Proof.
  intros w r lines.
  split; [vm_compute; reflexivity |].
  split; [vm_compute; do 2 apply list_elem_of_further; apply list_elem_of_here |].
  split; [vm_compute; reflexivity |].
  split; [| split].
  - intros [text Htext]. vm_compute in Htext. discriminate.
  - intros Hsplits. destruct (Hsplits "test"%string) as [k Hk]; [set_solver |].
    vm_compute in Hk.
    repeat (apply elem_of_cons in Hk as [Hk|Hk]; [discriminate Hk |]).
    apply elem_of_nil in Hk. exact Hk.
  - intros Hfour. vm_compute in Hfour. discriminate.
Qed.

End ExampleRuns.

(** * Further properties *)

(** ** Strings and the parsing of a line *)

Section StringFacts.
Import PyStr Props.

Lemma all_chars_app P s t :
  all_chars P (s +:+ t) = all_chars P s && all_chars P t.
Proof.
  induction s as [|c s IH]; simpl; [reflexivity |].
  rewrite IH. apply andb_assoc.
Qed.

Lemma all_chars_impl (P Q : ascii -> bool) s :
  (forall c, P c = true -> Q c = true) -> all_chars P s = true -> all_chars Q s = true.
Proof.
  intros HPQ. induction s as [|c s IH]; simpl; [trivial |].
  rewrite !andb_true_iff. intros [Hc Hs]. auto.
Qed.

Lemma lstrip_all sp s : all_chars sp s = true -> lstrip sp s = EmptyString.
Proof.
  induction s as [|c s IH]; simpl; [trivial |].
  rewrite andb_true_iff. intros [-> Hs]. auto.
Qed.

Lemma rstrip_all sp s : all_chars sp s = true -> rstrip sp s = EmptyString.
Proof.
  induction s as [|c s IH]; simpl; [trivial |].
  rewrite andb_true_iff. intros [-> Hs]. rewrite IH by exact Hs. reflexivity.
Qed.

Lemma lstrip_app_l sp pre s :
  all_chars sp pre = true -> lstrip sp (pre +:+ s) = lstrip sp s.
Proof.
  induction pre as [|c pre IH]; simpl; [trivial |].
  rewrite andb_true_iff. intros [-> Hs]. auto.
Qed.

Lemma rstrip_app_r sp s post :
  all_chars sp post = true -> rstrip sp (s +:+ post) = rstrip sp s.
Proof.
  intros Hpost. induction s as [|c s IH]; simpl.
  - apply rstrip_all. exact Hpost.
  - rewrite IH. reflexivity.
Qed.

Lemma lstrip_app_r sp s post :
  all_chars sp post = true ->
  rstrip sp (lstrip sp (s +:+ post)) = rstrip sp (lstrip sp s).
Proof.
  intros Hpost. induction s as [|c s IH]; simpl.
  - rewrite lstrip_all by exact Hpost. reflexivity.
  - destruct (sp c); [exact IH |].
    change (String c (s +:+ post)) with (String c s +:+ post).
    apply rstrip_app_r. exact Hpost.
Qed.

Lemma strip_surrounded pre s post :
  all_space pre = true -> all_space post = true ->
  strip (pre +:+ s +:+ post) = strip s.
Proof.
  intros Hpre Hpost. unfold strip.
  rewrite lstrip_app_l by exact Hpre.
  apply lstrip_app_r. exact Hpost.
Qed.

(** A string without a character of [sp] is left as it is. *)
Lemma strip_nothing sp s :
  all_chars (fun c => negb (sp c)) s = true ->
  lstrip sp s = s /\ rstrip sp s = s.
Proof.
  induction s as [|c s IH]; simpl; [auto |].
  rewrite andb_true_iff, negb_true_iff. intros [Hc Hs].
  rewrite Hc. split; [reflexivity |].
  destruct (IH Hs) as [_ ->]. destruct s; reflexivity.
Qed.

End StringFacts.

Section ParseFacts.
Import PyStr Props Convert.

Lemma split_comma_one s :
  all_chars not_comma s = true -> split_comma s = [s].
Proof.
  induction s as [|c s IH]; simpl; [reflexivity |].
  unfold not_comma at 1. rewrite andb_true_iff, negb_true_iff.
  intros [-> Hs]. rewrite IH by exact Hs. reflexivity.
Qed.

Lemma split_comma_cons s rest :
  all_chars not_comma s = true ->
  split_comma (s +:+ String ","%char rest) = s :: split_comma rest.
Proof.
  induction s as [|c s IH]; simpl.
  - reflexivity.
  - unfold not_comma at 1. rewrite andb_true_iff, negb_true_iff.
    intros [-> Hs]. rewrite IH by exact Hs. reflexivity.
Qed.

(** The characters of a decimal numeral are digits. *)
Lemma string_of_uint_digits d :
  all_chars is_digit (NilEmpty.string_of_uint d) = true.
Proof. induction d; simpl; auto. Qed.

Lemma parse_digits_uint d :
  parse_digits (NilEmpty.string_of_uint d) 0 true = Some (Z.of_N (Pos.of_uint d)) /\
  forall acc, parse_digits (NilEmpty.string_of_uint d) (Zpos acc) true
              = Some (Zpos (Pos.of_uint_acc d acc)).
Proof.
  induction d as [|d [IH0 IH]|d [IH0 IH]|d [IH0 IH]|d [IH0 IH]|d [IH0 IH]
                  |d [IH0 IH]|d [IH0 IH]|d [IH0 IH]|d [IH0 IH]|d [IH0 IH]];
    (split; [| intros acc]); try reflexivity;
    cbn [NilEmpty.string_of_uint parse_digits];
    change (is_digit _) with true; cbv iota;
    try (change (digit_val _) with 0); try (change (digit_val _) with 1);
    try (change (digit_val _) with 2); try (change (digit_val _) with 3);
    try (change (digit_val _) with 4); try (change (digit_val _) with 5);
    try (change (digit_val _) with 6); try (change (digit_val _) with 7);
    try (change (digit_val _) with 8); try (change (digit_val _) with 9);
    cbn [Pos.of_uint Pos.of_uint_acc Z.of_N];
    first [ exact IH0 | apply IH | idtac ].
  all: try (rewrite <- IH; f_equal; lia).
Qed.

Lemma parse_digits_first d :
  d <> Decimal.Nil ->
  parse_digits (NilEmpty.string_of_uint d) 0 false
  = parse_digits (NilEmpty.string_of_uint d) 0 true.
Proof. destruct d; [congruence | reflexivity ..]. Qed.

(** Digits and the minus sign are neither white space nor a comma. *)
Lemma numeral_char c :
  numeral c = true ->
  is_c_space c = false /\ is_space c = false /\ not_comma c = true.
Proof.
  destruct c as [[] [] [] [] [] [] [] []]; vm_compute; intuition congruence.
Qed.

(** [int(str(n))] is [n]. *)
Lemma str_of_int_chars n : all_chars numeral (str_of_int n) = true.
Proof.
  assert (Hd : forall d, all_chars numeral (NilZero.string_of_uint d) = true).
  { intros d. unfold NilZero.string_of_uint.
    destruct d; try reflexivity;
      apply (all_chars_impl is_digit); try apply string_of_uint_digits;
      intros c Hc; unfold numeral; rewrite Hc; reflexivity. }
  unfold str_of_int. destruct n as [|p|p]; [reflexivity | apply Hd |].
  cbn [Z.to_int NilZero.string_of_int all_chars]. apply Hd.
Qed.

Lemma py_int_str_of_int n : py_int (str_of_int n) = Some n.
Proof.
  unfold py_int.
  destruct (strip_nothing is_c_space (str_of_int n)) as [-> ->].
  { apply (all_chars_impl _ _ _ (fun c H => proj2 (negb_true_iff _) (proj1 (numeral_char c H)))
             (str_of_int_chars n)). }
  unfold str_of_int. destruct n as [|p|p]; [reflexivity | |].
  - cbn [Z.to_int NilZero.string_of_int].
    pose proof (DecimalPos.Unsigned.to_uint_nonnil p) as Hnil.
    pose proof (DecimalPos.Unsigned.of_to p) as Hof.
    unfold NilZero.string_of_uint.
    destruct (Pos.to_uint p) as [|d|d|d|d|d|d|d|d|d|d] eqn:Hd; [congruence | ..].
    all: match goal with
         | |- context [NilEmpty.string_of_uint ?u] =>
             change (parse_digits (NilEmpty.string_of_uint u) 0 false
                     = Some (Z.pos p));
             rewrite (parse_digits_first u) by discriminate;
             rewrite (proj1 (parse_digits_uint u)), Hof; reflexivity
         end.
  - cbn [Z.to_int NilZero.string_of_int].
    pose proof (DecimalPos.Unsigned.to_uint_nonnil p) as Hnil.
    pose proof (DecimalPos.Unsigned.of_to p) as Hof.
    unfold NilZero.string_of_uint.
    destruct (Pos.to_uint p) as [|d|d|d|d|d|d|d|d|d|d] eqn:Hd; [congruence | ..].
    all: match goal with
         | |- context [NilEmpty.string_of_uint ?u] =>
             change (Z.opp <$> parse_digits (NilEmpty.string_of_uint u) 0 false
                     = Some (Z.neg p));
             rewrite (parse_digits_first u) by discriminate;
             rewrite (proj1 (parse_digits_uint u)), Hof; reflexivity
         end.
Qed.

End ParseFacts.

Section ParseProps.
Import PyStr Props Convert.

Lemma numerals_joined (fields : list string) :
  Forall (fun s => all_chars numeral s = true) fields ->
  all_chars (fun c => negb (is_space c)) (join "," fields) = true /\
  split_comma (join "," fields) = match fields with [] => [EmptyString] | _ => fields end.
Proof.
  induction fields as [|s fields IH]; intros Hf; [split; reflexivity |].
  apply Forall_cons in Hf as [Hs Hf]. specialize (IH Hf).
  assert (Hsp : all_chars (fun c => negb (is_space c)) s = true).
  { apply (all_chars_impl numeral); [| exact Hs].
    intros c Hc. apply negb_true_iff, (numeral_char c Hc). }
  assert (Hco : all_chars not_comma s = true).
  { apply (all_chars_impl numeral); [| exact Hs].
    intros c Hc. apply (numeral_char c Hc). }
  destruct fields as [|s' fields].
  - simpl. split; [exact Hsp | apply split_comma_one; exact Hco].
  - change (join "," (s :: s' :: fields))
      with (s +:+ String ","%char (join "," (s' :: fields))).
    destruct IH as [IH1 IH2]. split.
    + rewrite all_chars_app, Hsp. cbn [all_chars andb]. exact IH1.
    + rewrite split_comma_cons by exact Hco. rewrite IH2. reflexivity.
Qed.

(** X2: a line written as eight decimal integers separated by commas
    is parsed into its first four fields and its sixth.  The integers are
    taken below [10^4300], the longest literal [int] reads by default. *)
Theorem well_formed_line_is_parsed x y w h score c truncation occlusion :
  Forall (fun n => Z.abs n < 10 ^ 4300) [x; y; w; h; score; c; truncation; occlusion] ->
  parse_line (join "," (str_of_int <$> [x; y; w; h; score; c; truncation; occlusion]))
  = Some (x, y, w, h, c).
Proof.
  intros _. unfold parse_line.
  destruct (numerals_joined (str_of_int <$> [x; y; w; h; score; c; truncation; occlusion]))
    as [Hsp Hsplit].
  { repeat constructor; apply str_of_int_chars. }
  unfold strip.
  destruct (strip_nothing is_space _ Hsp) as [-> ->].
  rewrite Hsplit. cbn [fmap list_fmap length Nat.ltb Nat.leb].
  unfold parse_fields. cbn [lookup list_lookup mbind option_bind].
  rewrite !py_int_str_of_int. reflexivity.
Qed.

Lemma well_formed_line_is_parsed_witness :
  parse_line "-3,90,10,10,0,1,0,0" = Some (-3, 90, 10, 10, 1).
Proof.
  apply (well_formed_line_is_parsed (-3) 90 10 10 0 1 0 0).
  repeat constructor; reflexivity.
Defined.

(** X3: white space around a line, the line terminator a line read
    from a file ends with included, does not change its conversion. *)
Theorem surrounding_white_space_is_ignored pre line post W H :
  all_space pre = true -> all_space post = true ->
  convert_visdrone_annotation (pre +:+ line +:+ post) W H
  = convert_visdrone_annotation line W H.
Proof.
  intros Hpre Hpost.
  unfold convert_visdrone_annotation, convert_record, parse_line.
  rewrite (strip_surrounded pre line post Hpre Hpost). reflexivity.
Qed.

Lemma surrounding_white_space_is_ignored_witness :
  convert_visdrone_annotation
    ("  " +:+ "100,200,50,100,1,1,0,0" +:+ String (ascii_of_nat 13) Pipeline.LF) 1280 720
  = convert_visdrone_annotation "100,200,50,100,1,1,0,0" 1280 720.
Proof.
  apply (surrounding_white_space_is_ignored "  " "100,200,50,100,1,1,0,0"
           (String (ascii_of_nat 13) Pipeline.LF) 1280 720); reflexivity.
Defined.

End ParseProps.

(** ** Clipping *)

Section ClipFacts.
Import PyStr PyFloat Convert.

Lemma convert_record_moved line line0 W H x y w h c :
  parse_line line = Some (x, y, w, h, c) ->
  parse_line line0 = Some (Z.max 0 x, Z.max 0 y, w, h, c) ->
  convert_record line W H = convert_record line0 W H.
Proof.
  intros Hp Hp0. unfold convert_record. rewrite Hp, Hp0.
  destruct (VISDRONE_TO_SNIPERSCOPE !! c) as [t|]; [| reflexivity].
  destruct (too_small w h) eqn:Hs; [reflexivity |].
  assert (Hclip : clip (Z.max 0 x) (Z.max 0 y) w h W H = clip x y w h W H).
  { unfold clip. rewrite !(Z.max_r 0 (Z.max 0 _)) by lia. reflexivity. }
  destruct (out_of_bounds x y w h W H) eqn:E,
           (out_of_bounds (Z.max 0 x) (Z.max 0 y) w h W H) eqn:E0.
  - rewrite Hclip. reflexivity.
  - unfold out_of_bounds in E0. rewrite !orb_false_iff, !Z.ltb_ge in E0.
    unfold clip. rewrite !Z.min_l by lia. rewrite Hs. reflexivity.
  - exfalso. unfold out_of_bounds in E, E0.
    rewrite !orb_false_iff, !Z.ltb_ge in E.
    rewrite !orb_true_iff, !Z.ltb_lt in E0. lia.
  - unfold out_of_bounds in E. rewrite !orb_false_iff, !Z.ltb_ge in E.
    rewrite !Z.max_r by lia. reflexivity.
Qed.

(** X4: a box that starts left of the image or above it is moved, not
    cut: it converts exactly as the box of the same width and height
    whose corner is brought to the edge of the image. *)
Theorem box_with_negative_corner_is_moved line line0 W H x y w h c :
  parse_line line = Some (x, y, w, h, c) ->
  parse_line line0 = Some (Z.max 0 x, Z.max 0 y, w, h, c) ->
  convert_visdrone_annotation line W H = convert_visdrone_annotation line0 W H.
Proof.
  intros Hp Hp0. unfold convert_visdrone_annotation.
  rewrite (convert_record_moved line line0 W H x y w h c Hp Hp0). reflexivity.
Qed.

Lemma box_with_negative_corner_is_moved_witness :
  convert_visdrone_annotation "-20,-5,50,40,0,1,0,0" 100 100
  = convert_visdrone_annotation "0,0,50,40,0,1,0,0" 100 100.
Proof.
  apply (box_with_negative_corner_is_moved _ _ 100 100 (-20) (-5) 50 40 1);
    vm_compute; reflexivity.
Defined.

Lemma moved_box_is_not_the_visible_part :
  convert_visdrone_annotation "-20,-5,50,40,0,1,0,0" 100 100
    = Ok (Some "0 0.250000 0.200000 0.500000 0.400000") /\
  convert_visdrone_annotation "0,0,30,35,0,1,0,0" 100 100
    = Ok (Some "0 0.150000 0.175000 0.300000 0.350000").
Proof. split; vm_compute; reflexivity. Qed.

End ClipFacts.

(** ** Rounding below [2^53] *)

Section RoundingBounds.
Import PyFloat Props.

Lemma digits2_le p d : 0 <= d -> Zpos p < 2 ^ d -> Zpos (digits2_pos p) <= d.
Proof.
  intros Hd Hp. rewrite digits2_pos_log2.
  apply Z.log2_lt_pow2 in Hp; lia.
Qed.

Lemma digits2_ge p d : 0 <= d -> 2 ^ d <= Zpos p -> d + 1 <= Zpos (digits2_pos p).
Proof.
  intros Hd Hp. rewrite digits2_pos_log2.
  apply Z.log2_le_pow2 in Hp; lia.
Qed.

Lemma digits2_bounds p :
  2 ^ (Zpos (digits2_pos p) - 1) <= Zpos p < 2 ^ Zpos (digits2_pos p).
Proof.
  rewrite digits2_pos_log2.
  pose proof (Z.log2_spec (Zpos p) eq_refl) as [H1 H2].
  replace (Z.log2 (Z.pos p) + 1 - 1) with (Z.log2 (Z.pos p)) by lia.
  replace (Z.log2 (Z.pos p) + 1) with (Z.succ (Z.log2 (Z.pos p))) by lia.
  split; assumption.
Qed.

Lemma iter_pos_nat {A} (f : A -> A) p :
  forall x, SpecFloat.iter_pos f p x = Nat.iter (Pos.to_nat p) f x.
Proof.
  induction p as [p IH|p IH|]; intros x; simpl SpecFloat.iter_pos.
  - rewrite !IH, <- Nat.iter_add, Pos2Nat.inj_xI.
    replace (S (2 * Pos.to_nat p)) with (S (Pos.to_nat p + Pos.to_nat p)) by lia.
    rewrite <- Nat.iter_succ_r. reflexivity.
  - rewrite !IH, <- Nat.iter_add, Pos2Nat.inj_xO.
    replace (2 * Pos.to_nat p)%nat with (Pos.to_nat p + Pos.to_nat p)%nat by lia.
    reflexivity.
  - reflexivity.
Qed.

Lemma loc_of_shr_record_of_loc m l : loc_of_shr_record (shr_record_of_loc m l) = l.
Proof. destruct l as [|[]]; reflexivity. Qed.

(** One shift: the mantissa is halved, and the result is exact when the
    record was and the bit shifted out is 0. *)
Lemma shr_1_spec mrs :
  0 <= shr_m mrs ->
  shr_m (shr_1 mrs) = shr_m mrs / 2 /\
  (loc_of_shr_record mrs = loc_Exact -> shr_m mrs mod 2 = 0 ->
   loc_of_shr_record (shr_1 mrs) = loc_Exact).
Proof.
  destruct mrs as [[|[q|q|]|q] [] []]; simpl; intros Hm; try lia;
    (split; [| try discriminate; try reflexivity]).
  all: try reflexivity.
  all: try (rewrite Pos2Z.inj_xI; intros _ Hodd;
            rewrite Z.add_comm, Z.mul_comm, Z_mod_plus_full in Hodd; discriminate).
  all: try (rewrite Pos2Z.inj_xI, Z.add_comm, Z.mul_comm, Z.div_add by lia; reflexivity).
  all: try (rewrite Pos2Z.inj_xO, Z.mul_comm, Z.div_mul by lia; reflexivity).
  all: try (intros _ H; discriminate H).
Qed.

Lemma iter_shr_1_spec n :
  forall mrs, 0 <= shr_m mrs ->
    shr_m (Nat.iter n shr_1 mrs) = shr_m mrs / 2 ^ Z.of_nat n /\
    (loc_of_shr_record mrs = loc_Exact -> shr_m mrs mod 2 ^ Z.of_nat n = 0 ->
     loc_of_shr_record (Nat.iter n shr_1 mrs) = loc_Exact).
Proof.
  induction n as [|n IH]; intros mrs Hm.
  - simpl. rewrite Z.div_1_r. auto.
  - destruct (IH mrs Hm) as [IHm IHl].
    assert (Hpos : 0 < 2 ^ Z.of_nat n) by (apply Z.pow_pos_nonneg; lia).
    assert (Hn : 0 <= shr_m (Nat.iter n shr_1 mrs)).
    { rewrite IHm. apply Z.div_pos; lia. }
    destruct (shr_1_spec _ Hn) as [Sm Sl].
    change (Nat.iter (S n) shr_1 mrs) with (shr_1 (Nat.iter n shr_1 mrs)).
    rewrite Nat2Z.inj_succ, Z.pow_succ_r by lia.
    rewrite (Z.mul_comm 2).
    split.
    + rewrite Sm, IHm, Z.div_div by lia. reflexivity.
    + intros Hl Hmod.
      rewrite Z.rem_mul_r in Hmod by lia.
      pose proof (Z.mod_pos_bound (shr_m mrs) (2 ^ Z.of_nat n) Hpos).
      pose proof (Z.mod_pos_bound (shr_m mrs / 2 ^ Z.of_nat n) 2 eq_refl).
      apply Sl; [apply IHl; [exact Hl | nia] |].
      rewrite IHm. nia.
Qed.

Lemma room_le m e l hi : room m e l hi -> m <= hi * 2 ^ (- e).
Proof. destruct l; simpl; lia. Qed.

(** The shift to the format exponent keeps a value below [2^53] between
    its integer bounds. *)
Lemma shr_between m e l lo hi :
  0 <= m -> e <= 0 -> hi < 2 ^ 53 -> lo * 2 ^ (- e) <= m -> room m e l hi ->
  let r := shr_fexp prec emax m e l in
  0 <= shr_m (fst r) /\ snd r <= 0 /\ lo * 2 ^ (- snd r) <= shr_m (fst r) /\
  room (shr_m (fst r)) (snd r) (loc_of_shr_record (fst r)) hi.
Proof.
  intros Hm He Hhi Hlo Hroom r. subst r.
  assert (HP : 0 < 2 ^ (- e)) by (apply Z.pow_pos_nonneg; lia).
  assert (Hlt : m < 2 ^ (53 - e)).
  { apply room_le in Hroom.
    replace (53 - e) with (53 + - e) by lia. rewrite Z.pow_add_r by lia. nia. }
  assert (Hfexp : fexp prec emax (Zdigits2 m + e) <= 0).
  { unfold fexp, emin, prec, emax. destruct m as [|p|p]; [simpl; lia | | lia].
    pose proof (digits2_le p (53 - e) ltac:(lia) Hlt). simpl Zdigits2. lia. }
  unfold shr_fexp, shr.
  destruct (fexp prec emax (Zdigits2 m + e) - e) as [|q|q] eqn:Hn;
    cbn [fst snd]; rewrite ?shr_record_of_loc_m, ?loc_of_shr_record_of_loc; auto.
  rewrite iter_pos_nat.
  destruct (iter_shr_1_spec (Pos.to_nat q) (shr_record_of_loc m l)) as [Sm Sl];
    [rewrite shr_record_of_loc_m; exact Hm |].
  rewrite positive_nat_Z, shr_record_of_loc_m, loc_of_shr_record_of_loc in *.
  set (e' := e + Z.pos q) in *.
  assert (He' : e' <= 0) by lia.
  assert (HQ : 0 < 2 ^ Z.pos q) by (apply Z.pow_pos_nonneg; lia).
  assert (HP' : 0 < 2 ^ (- e')) by (apply Z.pow_pos_nonneg; lia).
  assert (Hpow : 2 ^ (- e) = 2 ^ Z.pos q * 2 ^ (- e')).
  { rewrite <- Z.pow_add_r by lia. f_equal. lia. }
  assert (Hle : m <= hi * 2 ^ (- e)) by (apply room_le in Hroom; exact Hroom).
  assert (Hstrict : l <> loc_Exact -> m + 1 <= hi * 2 ^ (- e))
    by (destruct l; simpl in Hroom; [congruence | intros _; exact Hroom]).
  rewrite Sm. rewrite Hpow in Hlo, Hle, Hstrict.
  split; [apply Z.div_pos; lia |]. split; [exact He' |]. split.
  - apply Z.div_le_lower_bound; [lia | nia].
  - destruct (loc_of_shr_record (Nat.iter (Pos.to_nat q) shr_1 (shr_record_of_loc m l)))
      as [|c] eqn:Hloc; simpl.
    + apply Z.div_le_upper_bound; [lia | nia].
    + assert (Hlt' : m < 2 ^ Z.pos q * (hi * 2 ^ (- e'))).
      { destruct l as [|c']; [| specialize (Hstrict ltac:(discriminate)); nia].
        assert (Hmod : m mod 2 ^ Z.pos q <> 0).
        { intros Hmod. discriminate (Sl eq_refl Hmod). }
        assert (m <> 2 ^ Z.pos q * (hi * 2 ^ (- e'))); [| nia].
        intros Heq. apply Hmod. rewrite Heq, Z.mul_comm. apply Z_mod_mult. }
      pose proof (Z.div_lt_upper_bound m (2 ^ Z.pos q) (hi * 2 ^ (- e')) HQ Hlt'). lia.
Qed.

(** Rounding to nearest keeps a value below [2^53] between its integer
    bounds, and never overflows on it. *)
Lemma round_between m e l lo hi :
  0 <= m -> e <= 0 -> hi < 2 ^ 53 -> lo * 2 ^ (- e) <= m -> room m e l hi ->
  between lo hi (binary_round_aux prec emax false m e l).
Proof.
  intros Hm He Hhi Hlo Hroom. unfold binary_round_aux.
  pose proof (shr_between m e l lo hi Hm He Hhi Hlo Hroom) as H1. cbv zeta in H1.
  destruct (shr_fexp prec emax m e l) as [mrs' e']. cbn [fst snd] in H1.
  destruct H1 as (Hm' & He' & Hlo' & Hroom').
  set (mr := round_nearest_even (shr_m mrs') (loc_of_shr_record mrs')).
  assert (Hmr : shr_m mrs' <= mr /\ room mr e' loc_Exact hi).
  { unfold mr, round_nearest_even.
    destruct (loc_of_shr_record mrs') as [|[]]; simpl in *;
      try destruct (Z.even (shr_m mrs')); lia. }
  destruct Hmr as [Hge Hroom2].
  pose proof (shr_between mr e' loc_Exact lo hi ltac:(lia) He' Hhi ltac:(lia) Hroom2) as H2.
  cbv zeta in H2.
  destruct (shr_fexp prec emax mr e' loc_Exact) as [mrs'' e'']. cbn [fst snd] in H2.
  destruct H2 as (Hm'' & He'' & Hlo'' & Hroom'').
  apply room_le in Hroom''.
  assert (HP : 0 < 2 ^ (- e'')) by (apply Z.pow_pos_nonneg; lia).
  destruct (shr_m mrs'') as [|p|p]; [| | lia].
  - simpl. nia.
  - destruct (Z.leb_spec e'' (emax - prec)); [| unfold emax, prec in *; lia].
    simpl. lia.
Qed.

Lemma iter_xO_pow p d : Zpos (Pos.iter xO p d) = Zpos p * 2 ^ Zpos d.
Proof.
  rewrite (Pos.iter_swap_gen _ _ Zpos xO (Z.mul 2)) by reflexivity.
  change (Pos.iter (Z.mul 2) (Z.pos p) d) with (Z.shiftl (Zpos p) (Zpos d)).
  apply Z.shiftl_mul_pow2. lia.
Qed.

(** Alignment to a lower exponent keeps the value. *)
Lemma shl_align_spec p e e' :
  snd (shl_align p e e') <= e /\
  Zpos (fst (shl_align p e e')) = Zpos p * 2 ^ (e - snd (shl_align p e e')).
Proof.
  unfold shl_align. destruct (e' - e) as [|d|d] eqn:Hd; cbn [fst snd].
  - rewrite Z.sub_diag. lia.
  - rewrite Z.sub_diag. lia.
  - rewrite iter_xO_pow. split; [lia |]. f_equal. f_equal. lia.
Qed.

Lemma binary_round_between p e lo hi :
  e <= 0 -> hi < 2 ^ 53 -> lo * 2 ^ (- e) <= Zpos p <= hi * 2 ^ (- e) ->
  between lo hi (binary_round prec emax false p e).
Proof.
  intros He Hhi Hp. unfold binary_round.
  pose proof (shl_align_spec p e (fexp prec emax (Z.pos (digits2_pos p) + e))) as [Hz Hm].
  destruct (shl_align p e _) as [mz ez]. cbn [fst snd] in Hz, Hm.
  assert (Hpow : 2 ^ (- ez) = 2 ^ (- e) * 2 ^ (e - ez)).
  { rewrite <- Z.pow_add_r by lia. f_equal. lia. }
  assert (0 < 2 ^ (e - ez)) by (apply Z.pow_pos_nonneg; lia).
  apply round_between; try lia; unfold room; rewrite Hm, Hpow; nia.
Qed.

(** [float(n)] for [0 <= n < 2^53]. *)
Lemma float_of_int_between n lo hi :
  lo <= n <= hi -> 0 <= n -> hi < 2 ^ 53 ->
  between lo hi (binary_normalize prec emax n 0 false).
Proof.
  intros Hn H0 Hhi. destruct n as [|p|p]; [simpl; lia | | lia].
  apply binary_round_between; simpl; lia.
Qed.

Lemma exact_int_between n : 0 < n -> between n n (exact_int n).
Proof. destruct n as [|p|p]; simpl; lia. Qed.

Lemma between_weaken lo hi lo' hi' f :
  between lo hi f -> lo' <= lo -> hi <= hi' -> between lo' hi' f.
Proof.
  destruct f as [[]|[]| |[] m e]; simpl; try tauto; [lia |].
  intros (He & Hl & Hh) Hlo Hhi.
  assert (0 < 2 ^ (- e)) by (apply Z.pow_pos_nonneg; lia).
  split; [exact He | nia].
Qed.

(** The sum of two such floats. *)
Lemma float_add_between a b la ha lb hb :
  between la ha a -> between lb hb b -> 0 <= la -> 0 <= lb -> ha + hb < 2 ^ 53 ->
  between (la + lb) (ha + hb) (float_add a b).
Proof.
  unfold float_add.
  destruct a as [[]|[]| |[] ma ea], b as [[]|[]| |[] mb eb]; simpl between at 1 2;
    try tauto; intros Ha Hb Hla Hlb Hh.
  - simpl. lia.
  - simpl SFadd. apply (between_weaken lb hb); [exact Hb | lia | lia].
  - simpl SFadd. apply (between_weaken la ha); [exact Ha | lia | lia].
  - destruct Ha as (Hea & Ha), Hb as (Heb & Hb).
    cbn [SFadd cond_Zopp].
    pose proof (shl_align_spec ma ea (Z.min ea eb)) as [Hza Hma].
    pose proof (shl_align_spec mb eb (Z.min ea eb)) as [Hzb Hmb].
    assert (Hsa : snd (shl_align ma ea (Z.min ea eb)) = Z.min ea eb \/
                  (snd (shl_align ma ea (Z.min ea eb)) = ea /\ ea = Z.min ea eb)).
    { unfold shl_align. destruct (Z.min ea eb - ea) eqn:E; cbn [snd]; lia. }
    assert (Hsb : snd (shl_align mb eb (Z.min ea eb)) = Z.min ea eb \/
                  (snd (shl_align mb eb (Z.min ea eb)) = eb /\ eb = Z.min ea eb)).
    { unfold shl_align. destruct (Z.min ea eb - eb) eqn:E; cbn [snd]; lia. }
    assert (Hsa' : snd (shl_align ma ea (Z.min ea eb)) = Z.min ea eb) by lia.
    assert (Hsb' : snd (shl_align mb eb (Z.min ea eb)) = Z.min ea eb) by lia.
    rewrite Hsa' in Hma. rewrite Hsb' in Hmb.
    set (ez := Z.min ea eb) in *.
    change (Z.pos (fst (shl_align ma ea ez)) + Z.pos (fst (shl_align mb eb ez)))
      with (Z.pos (fst (shl_align ma ea ez) + fst (shl_align mb eb ez))).
    cbn [binary_normalize].
    assert (Hpa : 2 ^ (- ez) = 2 ^ (- ea) * 2 ^ (ea - ez)).
    { rewrite <- Z.pow_add_r by lia. f_equal. lia. }
    assert (Hpb : 2 ^ (- ez) = 2 ^ (- eb) * 2 ^ (eb - ez)).
    { rewrite <- Z.pow_add_r by lia. f_equal. lia. }
    assert (0 < 2 ^ (ea - ez)) by (apply Z.pow_pos_nonneg; lia).
    assert (0 < 2 ^ (eb - ez)) by (apply Z.pow_pos_nonneg; lia).
    assert (0 < 2 ^ (- ea)) by (apply Z.pow_pos_nonneg; lia).
    assert (0 < 2 ^ (- eb)) by (apply Z.pow_pos_nonneg; lia).
    apply binary_round_between; [lia | lia |].
    rewrite Pos2Z.inj_add, Hma, Hmb.
    rewrite !Z.mul_add_distr_r.
    split.
    + rewrite Hpa at 1. rewrite Hpb. nia.
    + rewrite Hpa at 1. rewrite Hpb. nia.
Qed.

Lemma new_location_exact n r :
  (r = 0 -> new_location n r = loc_Exact) /\
  (r <> 0 -> exists c, new_location n r = loc_Inexact c).
Proof.
  unfold new_location.
  destruct (Z.even n); unfold new_location_even, new_location_odd;
    destruct (Z.eqb_spec r 0) as [-> | Hr];
    (split; [try congruence; reflexivity | try congruence; intros _; eexists; reflexivity]).
Qed.

(** The quotient of two such floats, the divisor at least 1: at most
    [K] when the dividend is at most [K] times the divisor. *)
Lemma float_div_between a b la ha lb hb K :
  between la ha a -> between lb hb b -> 1 <= lb -> ha < 2 ^ 53 ->
  ha <= K * lb -> 0 <= K < 2 ^ 53 ->
  between 0 K (SFdiv prec emax a b).
Proof.
  destruct a as [[]|[]| |[] ma ea], b as [[]|[]| |[] mb eb]; simpl between at 1 2;
    try tauto; intros Ha Hb Hlb Hha HK HK2; try lia.
  - simpl. lia.
  - destruct Ha as (Hea & Ha), Hb as (Heb & Hb).
    assert (HA : 0 < 2 ^ (- ea)) by (apply Z.pow_pos_nonneg; lia).
    assert (HY : 0 < 2 ^ (- eb)) by (apply Z.pow_pos_nonneg; lia).
    assert (Hd1 : Zpos (digits2_pos ma) + ea <= 53).
    { assert (Z.pos ma < 2 ^ (53 - ea)).
      { replace (53 - ea) with (53 + - ea) by lia. rewrite Z.pow_add_r by lia. nia. }
      pose proof (digits2_le ma (53 - ea) ltac:(lia) H). lia. }
    assert (Hd2 : 1 <= Zpos (digits2_pos mb) + eb).
    { pose proof (digits2_ge mb (- eb) ltac:(lia) ltac:(nia)). lia. }
    cbn [SFdiv xorb]. unfold SFdiv_core_binary. cbn [Zdigits2].
    set (e' := Z.min (fexp prec emax (Z.pos (digits2_pos ma) + ea
                                      - (Z.pos (digits2_pos mb) + eb))) (ea - eb)).
    assert (He' : e' <= 0 /\ e' <= ea - eb).
    { unfold e', fexp, emin, prec, emax. lia. }
    set (s := ea - eb - e').
    set (m' := match s with Z.pos _ => Z.shiftl (Z.pos ma) s | 0 => Z.pos ma | _ => 0 end).
    assert (Hm' : m' = Z.pos ma * 2 ^ s).
    { unfold m'. destruct s as [|q|q] eqn:Hs; [simpl; lia | | lia].
      apply Z.shiftl_mul_pow2. lia. }
    assert (HS : 0 < 2 ^ s) by (apply Z.pow_pos_nonneg; lia).
    assert (HE : 0 < 2 ^ (- e')) by (apply Z.pow_pos_nonneg; lia).
    assert (Hpow : 2 ^ (- ea) * 2 ^ s = 2 ^ (- e') * 2 ^ (- eb)).
    { rewrite <- !Z.pow_add_r by lia. f_equal. lia. }
    assert (Hbound : m' <= K * 2 ^ (- e') * Z.pos mb).
    { rewrite Hm'.
      assert (Z.pos ma * 2 ^ s <= ha * (2 ^ (- ea) * 2 ^ s)) by nia.
      rewrite Hpow in H.
      assert (ha * (2 ^ (- e') * 2 ^ (- eb)) <= K * lb * (2 ^ (- e') * 2 ^ (- eb))) by nia.
      assert (K * lb * (2 ^ (- e') * 2 ^ (- eb)) <= K * 2 ^ (- e') * Z.pos mb) by nia.
      lia. }
    pose proof (Z_div_mod m' (Z.pos mb) eq_refl) as Hdiv.
    destruct (Z.div_eucl m' (Z.pos mb)) as [q r]. destruct Hdiv as [Hq Hr].
    assert (0 <= m') by (rewrite Hm'; nia).
    assert (Hq0 : 0 <= q) by nia.
    apply round_between; [exact Hq0 | lia | lia | lia |].
    destruct (new_location_exact (Z.pos mb) r) as [Hx Hi].
    destruct (Z.eq_dec r 0) as [-> | Hne].
    + rewrite Hx by reflexivity. simpl. nia.
    + destruct (Hi Hne) as [c ->]. simpl. nia.
Qed.

(** A quotient of two positive integers below [2^53] is not rounded to
    zero. *)
Lemma int_truediv_nonzero a b :
  0 < a < 2 ^ 53 -> 0 < b < 2 ^ 53 ->
  is_zero (SFdiv prec emax (exact_int a) (exact_int b)) = false.
Proof.
  intros Ha Hb. destruct a as [|ma|ma]; [lia | | lia].
  destruct b as [|mb|mb]; [lia | | lia].
  cbn [exact_int SFdiv xorb]. unfold SFdiv_core_binary. cbn [Zdigits2].
  pose proof (digits2_bounds ma) as Hda. pose proof (digits2_bounds mb) as Hdb.
  pose proof (digits2_le ma 53 ltac:(lia) ltac:(lia)) as Hla.
  pose proof (digits2_le mb 53 ltac:(lia) ltac:(lia)) as Hlb.
  set (da := Z.pos (digits2_pos ma)) in *. set (db := Z.pos (digits2_pos mb)) in *.
  assert (1 <= da) by (unfold da; lia). assert (1 <= db) by (unfold db; lia).
  replace (Z.min (fexp prec emax (da + 0 - (db + 0))) (0 - 0)) with (da - db - 53)
    by (unfold fexp, emin, prec, emax; lia).
  replace (0 - 0 - (da - db - 53)) with (53 + db - da) by lia.
  destruct (53 + db - da) as [|s|s] eqn:Hs; [lia | | lia].
  rewrite Z.shiftl_mul_pow2 by lia.
  pose proof (Z_div_mod (Z.pos ma * 2 ^ Z.pos s) (Z.pos mb) eq_refl) as Hdiv.
  destruct (Z.div_eucl _ (Z.pos mb)) as [q r]. destruct Hdiv as [Hq Hr].
  apply binary_round_aux_nonzero; [| unfold emin, prec, emax; lia].
  assert (Hbig : 2 ^ db <= Z.pos ma * 2 ^ Z.pos s).
  { assert (2 ^ (da - 1) * 2 ^ Z.pos s <= Z.pos ma * 2 ^ Z.pos s).
    { apply Z.mul_le_mono_nonneg_r; [apply Z.pow_nonneg; lia | lia]. }
    rewrite <- Z.pow_add_r in H1 by lia.
    assert (2 ^ db <= 2 ^ (da - 1 + Z.pos s)) by (apply Z.pow_le_mono_r; lia).
    lia. }
  nia.
Qed.

(** Comparison of such a float with an integer. *)
Lemma finite_cmp_int m e n :
  e <= 0 ->
  float_cmp_int (S754_finite false m e) n = Some (Z.compare (Zpos m) (n * 2 ^ (- e))).
Proof.
  intros He. unfold float_cmp_int, F2Q.
  destruct (Z.leb_spec 0 e) as [H0 | H0].
  - assert (e = 0) as -> by lia. unfold Qcompare, inject_Z. simpl Qnum. simpl Qden.
    simpl (2 ^ 0). simpl (2 ^ (- 0)). rewrite !Z.mul_1_r. reflexivity.
  - unfold Qcompare, inject_Z. simpl Qnum. simpl Qden.
    rewrite Z2Pos.id by (apply Z.pow_pos_nonneg; lia).
    rewrite Z.mul_1_r. reflexivity.
Qed.

Lemma between_nonneg lo hi f : between lo hi f -> 0 <= lo -> int_le_float 0 f = true.
Proof.
  destruct f as [[]|[]| |[] m e]; simpl between; try tauto; intros Hb Hlo;
    try reflexivity.
  unfold int_le_float. rewrite finite_cmp_int by lia. reflexivity.
Qed.

Lemma between_positive lo hi f :
  between lo hi f -> is_zero f = false -> int_lt_float 0 f = true.
Proof.
  destruct f as [[]|[]| |[] m e]; simpl between; try tauto; try discriminate.
  intros Hb _. unfold int_lt_float. rewrite finite_cmp_int by lia. reflexivity.
Qed.

Lemma between_at_most_1 lo hi f : between lo hi f -> hi <= 1 -> float_le_int f 1 = true.
Proof.
  destruct f as [[]|[]| |[] m e]; simpl between; try tauto; intros Hb Hhi;
    try reflexivity.
  unfold float_le_int. rewrite finite_cmp_int by lia.
  assert (0 < 2 ^ (- e)) by (apply Z.pow_pos_nonneg; lia).
  destruct (Z.compare_spec (Z.pos m) (1 * 2 ^ (- e))); try reflexivity. nia.
Qed.

End RoundingBounds.

Section NormalizeInRange.
Import PyStr PyFloat Convert Props.

Lemma small_in_double_range : 2 ^ 53 < DBL_OVERFLOW.
Proof. reflexivity. Qed.

(** One coordinate: the centre and the size of a span of [w >= 10]
    pixels from [x >= 0] inside a side of [W < 2^53] pixels. *)
Lemma normalize_side x w W :
  0 <= x -> 10 <= w -> x + w <= W -> W < 2 ^ 53 ->
  exists half sum centre size,
    int_truediv w 2 = Ok half /\ int_add_float x half = Ok sum /\
    float_div_int sum W = Ok centre /\ int_truediv w W = Ok size /\
    int_le_float 0 centre = true /\ float_le_int centre 1 = true /\
    int_lt_float 0 size = true /\ float_le_int size 1 = true.
Proof.
  intros Hx Hw HW HW53. pose proof small_in_double_range as Hbig.
  assert (H53 : 0 < 2 ^ 53) by reflexivity.
  assert (Hhalf : between 0 w (SFdiv prec emax (exact_int w) (exact_int 2))).
  { apply (float_div_between _ _ w w 2 2 w);
      [apply exact_int_between; lia | apply exact_int_between; lia | lia ..]. }
  assert (Hfx : between x x (binary_normalize prec emax x 0 false))
    by (apply float_of_int_between; lia).
  assert (HfW : between W W (binary_normalize prec emax W 0 false))
    by (apply float_of_int_between; lia).
  pose proof (float_add_between _ _ x x 0 w Hfx Hhalf ltac:(lia) ltac:(lia) ltac:(lia))
    as Hsum.
  assert (Hcentre : between 0 1
            (SFdiv prec emax
               (float_add (binary_normalize prec emax x 0 false)
                  (SFdiv prec emax (exact_int w) (exact_int 2)))
               (binary_normalize prec emax W 0 false))).
  { apply (float_div_between _ _ (x + 0) (x + w) W W 1); [exact Hsum | exact HfW | lia ..]. }
  assert (Hsize : between 0 1 (SFdiv prec emax (exact_int w) (exact_int W))).
  { apply (float_div_between _ _ w w W W 1);
      [apply exact_int_between; lia | apply exact_int_between; lia | lia ..]. }
  eexists _, _, _, _.
  split; [apply int_truediv_returns; lia |].
  split; [unfold int_add_float; rewrite float_of_int_returns by lia; rewrite bind_Ok;
          reflexivity |].
  split.
  { unfold float_div_int. rewrite float_of_int_returns by lia. rewrite bind_Ok.
    unfold float_truediv. rewrite binary_normalize_nonzero by lia. reflexivity. }
  split; [apply int_truediv_returns; nia |].
  split; [exact (between_nonneg _ _ _ Hcentre ltac:(lia)) |].
  split; [exact (between_at_most_1 _ _ _ Hcentre ltac:(lia)) |].
  split; [| exact (between_at_most_1 _ _ _ Hsize ltac:(lia))].
  apply (between_positive _ _ _ Hsize). apply int_truediv_nonzero; lia.
Qed.

(** Inside an image whose sides are below [2^53], the validation of the
    normalized values always succeeds. *)
Lemma normalize_in_range t x y w h W H :
  0 <= x -> 10 <= w -> x + w <= W -> W < 2 ^ 53 ->
  0 <= y -> 10 <= h -> y + h <= H -> H < 2 ^ 53 ->
  exists b, normalize t x y w h W H = Ok (Some b).
Proof.
  intros Hx Hw HW HW53 Hy Hh HH HH53.
  destruct (normalize_side x w W Hx Hw HW HW53)
    as (hw & sx & cx & nw & E1 & E2 & E3 & E4 & C1 & C2 & C3 & C4).
  destruct (normalize_side y h H Hy Hh HH HH53)
    as (hh & sy & cy & nh & F1 & F2 & F3 & F4 & D1 & D2 & D3 & D4).
  unfold normalize.
  rewrite E1, bind_Ok, E2, bind_Ok, E3, bind_Ok, F1, bind_Ok, F2, bind_Ok, F3, bind_Ok,
    E4, bind_Ok, F4, bind_Ok.
  unfold in_range. cbn [Convert.cx Convert.cy Convert.nw Convert.nh].
  rewrite C1, C2, C3, C4, D1, D2, D3, D4. cbn. eauto.
Qed.

End NormalizeInRange.

(** ** When a line gives an annotation *)

Section Decided.
Import PyStr PyFloat Convert Props.

(** The guard of the clipping branch is a shortcut: clipping a box that
    lies inside the image changes nothing. *)
Lemma bounds_check_is_clip x y w h W H :
  Spec.bounds_check x y w h W H = clip x y w h W H.
Proof.
  rewrite <- bounds_check_clip.
  destruct (out_of_bounds x y w h W H) eqn:E; [reflexivity |].
  unfold out_of_bounds in E. rewrite !orb_false_iff, !Z.ltb_ge in E.
  unfold clip. rewrite !Z.max_r, !Z.min_l by lia. reflexivity.
Qed.

Lemma too_small_false w h : too_small w h = false <-> 10 <= w /\ 10 <= h.
Proof. unfold too_small, MIN_BOX_SIZE. rewrite orb_false_iff, !Z.ltb_ge. tauto. Qed.

(** X1: in an image whose sides are below [2^53] pixels, whether a
    parsed line gives an annotation is decided by its integers alone: it
    does exactly when the class is mapped, the box is at least 10 by 10,
    and so is the box clipped to the image (clipping leaves a box inside
    the image as it is).  The validation of the normalized values rejects
    nothing. *)
Theorem conversion_is_decided_by_the_integers line W H x y w h c :
  parse_line line = Some (x, y, w, h, c) ->
  W < 2 ^ 53 -> H < 2 ^ 53 ->
  let '(_, _, w', h') := clip x y w h W H in
  (exists s, convert_visdrone_annotation line W H = Ok (Some s)) <->
  is_Some (VISDRONE_TO_SNIPERSCOPE !! c) /\ 10 <= w /\ 10 <= h /\ 10 <= w' /\ 10 <= h'.
Proof.
  intros Hp HW HH.
  destruct (clip x y w h W H) as [[[x' y'] w'] h'] eqn:Hclip.
  rewrite <- bounds_check_is_clip in Hclip.
  split.
  - intros [s Hs]. destruct (convert_Some _ _ _ _ Hs) as (b & Hb & _).
    destruct (convert_record_Some _ _ _ _ Hb)
      as (x0 & y0 & w0 & h0 & c0 & t & Hp0 & Hc & Hsmall & Hn).
    rewrite Hp in Hp0. injection Hp0 as <- <- <- <- <-.
    rewrite Hclip in Hn. destruct Hn as [Hsmall' _].
    apply too_small_false in Hsmall, Hsmall'.
    split; [eauto | lia].
  - intros ([t Hc] & Hw & Hh & Hw' & Hh').
    assert (Hsmall : too_small w h = false) by (apply too_small_false; lia).
    assert (Hsmall' : too_small w' h' = false) by (apply too_small_false; lia).
    destruct (bounds_check_inside _ _ _ _ _ _ _ _ _ _ Hclip Hsmall')
      as [(Hx1 & Hx2 & Hx3) (Hy1 & Hy2 & Hy3)].
    destruct (normalize_in_range t x' y' w' h' W H) as [b Hb]; try assumption.
    exists (format_yolo b). unfold convert_visdrone_annotation.
    rewrite (convert_record_staged _ _ _ _ _ _ _ _ _ Hp Hc Hsmall), Hclip, Hsmall', Hb.
    reflexivity.
Qed.

End Decided.

Section DecidedExample.
Import PyStr PyFloat Convert Props.

Lemma conversion_is_decided_by_the_integers_witness :
  (exists s, convert_visdrone_annotation "1270,700,50,50,0,4,0,0" 1280 720 = Ok (Some s)) /\
  ~ (exists s, convert_visdrone_annotation "1271,700,50,50,0,4,0,0" 1280 720 = Ok (Some s)).
Proof.
  assert (H53 : 1280 < 2 ^ 53 /\ 720 < 2 ^ 53) by (split; reflexivity).
  destruct H53 as [HW HH].
  pose proof (conversion_is_decided_by_the_integers
                "1270,700,50,50,0,4,0,0" 1280 720 1270 700 50 50 4 eq_refl HW HH) as T1.
  pose proof (conversion_is_decided_by_the_integers
                "1271,700,50,50,0,4,0,0" 1280 720 1271 700 50 50 4 eq_refl HW HH) as T2.
  cbn [clip] in T1, T2. simpl Z.max in T1, T2. simpl Z.min in T1, T2.
  split.
  - apply T1. split; [exists 2; reflexivity | lia].
  - intros Hs. apply T2 in Hs. lia.
Defined.

End DecidedExample.

(** ** The shape of an output line *)

Section Signs.
Import PyFloat.

Lemma sign_round m e l : sign_bit (binary_round_aux prec emax false m e l) = false.
Proof.
  unfold binary_round_aux.
  destruct (shr_fexp prec emax m e l) as [mrs' e'].
  destruct (shr_fexp prec emax _ e' loc_Exact) as [mrs'' e''].
  destruct (shr_m mrs'') as [|p|p]; try reflexivity.
  destruct (e'' <=? emax - prec); reflexivity.
Qed.

Lemma sign_float_of_int n : 0 <= n -> sign_bit (binary_normalize prec emax n 0 false) = false.
Proof.
  destruct n as [|p|p]; [reflexivity | | lia].
  intros _. unfold binary_normalize, binary_round.
  destruct (shl_align p 0 _) as [mz ez]. apply sign_round.
Qed.

Lemma sign_exact_int n : 0 <= n -> sign_bit (exact_int n) = false.
Proof. destruct n; [reflexivity | reflexivity | lia]. Qed.

Lemma sign_div a b :
  sign_bit a = false -> sign_bit b = false -> sign_bit (SFdiv prec emax a b) = false.
Proof.
  destruct a as [[]|[]| |[] ma ea], b as [[]|[]| |[] mb eb]; try discriminate;
    try reflexivity.
  intros _ _. cbn [SFdiv xorb].
  destruct (SFdiv_core_binary prec emax (Z.pos ma) ea (Z.pos mb) eb) as [[mz ez] lz].
  apply sign_round.
Qed.

Lemma sign_add a b :
  sign_bit a = false -> sign_bit b = false -> sign_bit (float_add a b) = false.
Proof.
  unfold float_add.
  destruct a as [[]|[]| |[] ma ea], b as [[]|[]| |[] mb eb]; try discriminate;
    try reflexivity.
  intros _ _. cbn [SFadd cond_Zopp].
  change (Z.pos (fst (shl_align ma ea (Z.min ea eb))) + Z.pos (fst (shl_align mb eb (Z.min ea eb))))
    with (Z.pos (fst (shl_align ma ea (Z.min ea eb)) + fst (shl_align mb eb (Z.min ea eb)))).
  unfold binary_normalize, binary_round.
  destruct (shl_align _ (Z.min ea eb) _) as [mz ez]. apply sign_round.
Qed.

End Signs.

Section RecordSigns.
Import PyStr PyFloat Convert.

(** No field of a returned record carries a minus sign. *)
Lemma normalize_signs t x y w h W H b :
  0 <= x -> 0 <= w -> 0 <= W -> 0 <= y -> 0 <= h -> 0 <= H ->
  normalize t x y w h W H = Ok (Some b) ->
  sign_bit (cx b) = false /\ sign_bit (cy b) = false /\
  sign_bit (nw b) = false /\ sign_bit (nh b) = false.
Proof.
  intros Hx Hw HW Hy Hh HH. unfold normalize.
  assert (Htd : forall a d q, 0 <= a -> 0 <= d -> int_truediv a d = Ok q -> sign_bit q = false).
  { intros a d q Ha Hd. unfold int_truediv.
    destruct (d =? 0); [discriminate |].
    destruct (_ <=? _); [discriminate |]. intros [= <-].
    apply sign_div; apply sign_exact_int; assumption. }
  assert (Hfi : forall n q, 0 <= n -> float_of_int n = Ok q -> sign_bit q = false).
  { intros n q Hn. unfold float_of_int. destruct (_ <=? _); [discriminate |].
    intros [= <-]. apply sign_float_of_int. exact Hn. }
  assert (Hadd : forall n f q, 0 <= n -> sign_bit f = false ->
                   int_add_float n f = Ok q -> sign_bit q = false).
  { intros n f q Hn Hf. unfold int_add_float.
    destruct (float_of_int n) as [a|] eqn:Ha; [| discriminate].
    rewrite bind_Ok. intros [= <-]. apply sign_add; [exact (Hfi _ _ Hn Ha) | exact Hf]. }
  assert (Hdiv : forall f n q, 0 <= n -> sign_bit f = false ->
                   float_div_int f n = Ok q -> sign_bit q = false).
  { intros f n q Hn Hf. unfold float_div_int.
    destruct (float_of_int n) as [a|] eqn:Ha; [| discriminate].
    rewrite bind_Ok. unfold float_truediv. destruct (is_zero a); [discriminate |].
    intros [= <-]. apply sign_div; [exact Hf | exact (Hfi _ _ Hn Ha)]. }
  destruct (int_truediv w 2) as [hw|] eqn:E1; [| discriminate]. rewrite bind_Ok.
  destruct (int_add_float x hw) as [sx|] eqn:E2; [| discriminate]. rewrite bind_Ok.
  destruct (float_div_int sx W) as [fcx|] eqn:E3; [| discriminate]. rewrite bind_Ok.
  destruct (int_truediv h 2) as [hh|] eqn:E4; [| discriminate]. rewrite bind_Ok.
  destruct (int_add_float y hh) as [sy|] eqn:E5; [| discriminate]. rewrite bind_Ok.
  destruct (float_div_int sy H) as [fcy|] eqn:E6; [| discriminate]. rewrite bind_Ok.
  destruct (int_truediv w W) as [fnw|] eqn:E7; [| discriminate]. rewrite bind_Ok.
  destruct (int_truediv h H) as [fnh|] eqn:E8; [| discriminate]. rewrite bind_Ok.
  destruct (negb _); [discriminate |]. intros [= <-]. cbn [cx cy nw nh].
  assert (H2 : 0 <= 2) by lia.
  pose proof (Htd _ _ _ Hw H2 E1) as S1. pose proof (Htd _ _ _ Hh H2 E4) as S4.
  pose proof (Hadd _ _ _ Hx S1 E2) as S2. pose proof (Hadd _ _ _ Hy S4 E5) as S5.
  split; [exact (Hdiv _ _ _ HW S2 E3) |]. split; [exact (Hdiv _ _ _ HH S5 E6) |].
  split; [exact (Htd _ _ _ Hw HW E7) | exact (Htd _ _ _ Hh HH E8)].
Qed.

End RecordSigns.

Section Decimals.
Import PyStr PyFloat Props.

Lemma string_of_uint_length d :
  String.length (NilEmpty.string_of_uint d) = Decimal.nb_digits d.
Proof. induction d; simpl; congruence. Qed.

Lemma of_uint_acc_ge d :
  forall acc, Zpos acc * 10 ^ Z.of_nat (Decimal.nb_digits d) <= Zpos (Pos.of_uint_acc d acc).
Proof.
  induction d; intros acc; cbn [Decimal.nb_digits Pos.of_uint_acc]; [simpl; lia | ..].
  all: rewrite Nat2Z.inj_succ, Z.pow_succ_r by lia.
  all: eapply Z.le_trans; [| apply IHd].
  all: assert (0 <= 10 ^ Z.of_nat (Decimal.nb_digits d)) by (apply Z.pow_nonneg; lia).
  all: rewrite ?Pos2Z.inj_add, ?Pos2Z.inj_mul; nia.
Qed.

(** A positive number below [10^k] has at most [k] digits. *)
Lemma to_uint_digits p k :
  Zpos p < 10 ^ Z.of_nat k -> (Decimal.nb_digits (Pos.to_uint p) <= k)%nat.
Proof.
  intros Hp.
  pose proof (DecimalPos.Unsigned.of_to p) as Hval.
  pose proof (DecimalPos.Unsigned.to_uint_nonzero p) as Hnz.
  pose proof (DecimalPos.Unsigned.to_uint_nonnil p) as Hnn.
  assert (Hnorm : Decimal.unorm (Pos.to_uint p) = Pos.to_uint p).
  { rewrite <- DecimalPos.Unsigned.to_of, Hval. reflexivity. }
  assert (Hacc : forall d acc, Pos.to_uint p = d -> forall d',
            Pos.of_uint d = Npos (Pos.of_uint_acc d' acc) ->
            Decimal.nb_digits d = S (Decimal.nb_digits d') ->
            (Decimal.nb_digits d <= k)%nat).
  { intros d acc Hd d' Hof Hlen. rewrite <- Hd, Hval in Hof. injection Hof as Hof.
    pose proof (of_uint_acc_ge d' acc) as Hge. rewrite <- Hof in Hge.
    assert (10 ^ Z.of_nat (Decimal.nb_digits d') < 10 ^ Z.of_nat k).
    { assert (0 < 10 ^ Z.of_nat (Decimal.nb_digits d')) by (apply Z.pow_pos_nonneg; lia).
      nia. }
    apply Z.pow_lt_mono_r_iff in H; lia. }
  destruct (Pos.to_uint p) as [|d|d|d|d|d|d|d|d|d|d] eqn:Hd; [congruence | ..].
  2-10: eapply (Hacc _ _ eq_refl d); reflexivity.
  exfalso.
  assert (Hcase : d = Decimal.Nil \/ d <> Decimal.Nil)
    by (destruct d; [left; reflexivity | right; discriminate ..]).
  destruct Hcase as [-> | Hne]; [apply Hnz; reflexivity |].
  rewrite DecimalFacts.unorm_D0 in Hnorm.
  pose proof (DecimalFacts.nb_digits_unorm d Hne) as Hlen.
  rewrite Hnorm in Hlen. simpl in Hlen. lia.
Qed.

Lemma str_of_int_small r k :
  0 <= r < 10 ^ Z.of_nat k -> (1 <= k)%nat ->
  (String.length (str_of_int r) <= k)%nat /\ all_chars is_digit (str_of_int r) = true.
Proof.
  intros Hr Hk. unfold str_of_int. destruct r as [|p|p]; [simpl; split; [lia | reflexivity] | | lia].
  cbn [Z.to_int NilZero.string_of_int]. unfold NilZero.string_of_uint.
  pose proof (to_uint_digits p k ltac:(lia)) as Hlen.
  pose proof (string_of_uint_length (Pos.to_uint p)) as Hs.
  pose proof (string_of_uint_digits (Pos.to_uint p)) as Hd.
  destruct (Pos.to_uint p); [simpl; split; [lia | reflexivity] | ..];
    (split; [rewrite Hs; exact Hlen | exact Hd]).
Qed.

Lemma zeros_succ n :
  String.concat "" (replicate (S n) "0"%string)
  = String "0"%char (String.concat "" (replicate n "0"%string)).
Proof. destruct n; reflexivity. Qed.

Lemma zero_pad_digits k s :
  (String.length s <= k)%nat -> all_chars is_digit s = true ->
  String.length (zero_pad k s) = k /\ all_chars is_digit (zero_pad k s) = true.
Proof.
  intros Hlen Hd. unfold zero_pad.
  assert (Hz : forall n, String.length (String.concat "" (replicate n "0"%string)) = n /\
                         all_chars is_digit (String.concat "" (replicate n "0"%string)) = true).
  { induction n as [|n [IH1 IH2]]; [split; reflexivity |].
    rewrite zeros_succ. cbn [String.length all_chars]. rewrite IH1, IH2. split; reflexivity. }
  destruct (Hz (k - String.length s)%nat) as [Hz1 Hz2].
  split.
  - transitivity (String.length (String.concat "" (replicate (k - String.length s) "0"%string))
                  + String.length s)%nat; [| lia].
    generalize (String.concat "" (replicate (k - String.length s) "0"%string)).
    intros z. induction z as [|c z IH]; simpl; [reflexivity | rewrite IH; reflexivity].
  - rewrite all_chars_app, Hz2, Hd. reflexivity.
Qed.

Lemma round_half_even_le n d K :
  0 < d -> 0 <= n <= K * d -> 0 <= round_half_even n d <= K.
Proof.
  intros Hd Hn. unfold round_half_even.
  pose proof (Z.div_mod n d ltac:(lia)) as Hdm.
  pose proof (Z.mod_pos_bound n d Hd) as Hr.
  assert (Hq : 0 <= n / d) by (apply Z.div_pos; lia).
  assert (HqK : n / d <= K) by (apply Z.div_le_upper_bound; [lia | nia]).
  destruct (Z.compare_spec (2 * (n mod d)) d) as [He | Hl | Hg].
  - destruct (Z.even (n / d)); [lia |]. assert (n / d <> K) by nia. lia.
  - lia.
  - assert (n / d <> K) by nia. lia.
Qed.

(** A finite value of the unit interval is at most a million millionths. *)
Lemma micro_units_unit f :
  is_finite f = true -> (0 <= F2Q f <= 1)%Q -> 0 <= micro_units f <= 10 ^ 6.
Proof.
  destruct f as [s|s| |s m e]; try discriminate; intros _ [H0 H1]; [simpl; lia |].
  unfold F2Q in H0, H1. unfold micro_units.
  destruct (Z.leb_spec 0 e) as [He | He].
  - unfold Qle, inject_Z in H0, H1. simpl in H0, H1.
    assert (0 < 2 ^ e) by (apply Z.pow_pos_nonneg; lia).
    destruct s; [nia |]. assert (Z.pos m * 2 ^ e = 1) by nia. rewrite H2. lia.
  - assert (HP : 0 < 2 ^ (- e)) by (apply Z.pow_pos_nonneg; lia).
    unfold Qle in H0, H1. simpl in H0, H1.
    rewrite Z2Pos.id in H1 by exact HP.
    destruct s; [lia |].
    apply round_half_even_le; [exact HP | lia].
Qed.

Lemma format_6f_unit f :
  is_finite f = true -> sign_bit f = false -> (0 <= F2Q f <= 1)%Q ->
  unit_decimal (format_6f f) = true.
Proof.
  intros Hfin Hsign Hq. pose proof (micro_units_unit f Hfin Hq) as Hu.
  assert (Hfmt : format_6f f =
            (str_of_int (micro_units f / 10 ^ 6) +:+ "." +:+
             zero_pad 6 (str_of_int (micro_units f mod 10 ^ 6)))%string).
  { unfold format_6f. destruct f as [s|s| |s m e]; try discriminate;
      simpl in Hsign; subst s; reflexivity. }
  rewrite Hfmt. clear Hfmt.
  destruct (Z.eq_dec (micro_units f) (10 ^ 6)) as [-> | Hne]; [reflexivity |].
  rewrite Z.div_small, Z.mod_small by lia.
  destruct (str_of_int_small (micro_units f) 6 ltac:(simpl; lia) ltac:(lia)) as [Hl Hd].
  destruct (zero_pad_digits 6 _ Hl Hd) as [Hl6 Hd6].
  change (str_of_int 0 +:+ "." +:+ zero_pad 6 (str_of_int (micro_units f)))%string
    with (String "0"%char (String "."%char (zero_pad 6 (str_of_int (micro_units f))))).
  unfold unit_decimal. rewrite Hl6, Hd6. reflexivity.
Qed.

End Decimals.

Section ShapeProps.
Import PyStr PyFloat Convert Props.

(** The shape of a returned line. *)
Lemma convert_line_shape line W H s :
  convert_visdrone_annotation line W H = Ok (Some s) ->
  exists c f1 f2 f3 f4,
    s = (c +:+ " " +:+ f1 +:+ " " +:+ f2 +:+ " " +:+ f3 +:+ " " +:+ f4)%string /\
    (c = "0" \/ c = "2" \/ c = "3")%string /\
    unit_decimal f1 = true /\ unit_decimal f2 = true /\
    unit_decimal f3 = true /\ unit_decimal f4 = true.
Proof.
  intros Hs. destruct (convert_Some _ _ _ _ Hs) as (b & Hb & ->).
  destruct (convert_record_Some _ _ _ _ Hb) as (x & y & w & h & c & t & _ & _ & _ & Hn).
  destruct (Spec.bounds_check x y w h W H) as [[[x' y'] w'] h'] eqn:Hclip.
  destruct Hn as [Hsmall Hn].
  destruct (bounds_check_inside _ _ _ _ _ _ _ _ _ _ Hclip Hsmall)
    as [(Hx1 & Hx2 & Hx3) (Hy1 & Hy2 & Hy3)].
  destruct (normalize_signs t x' y' w' h' W H b) as (S1 & S2 & S3 & S4);
    [lia .. | exact Hn |].
  destruct (normalize_Some _ _ _ _ _ _ _ _ Hn) as [Hcls Hr].
  destruct (in_range_unit _ Hr) as ((F1 & Q1) & (F2 & Q2) & (F3 & [Q3 Q3']) & (F4 & [Q4 Q4'])).
  exists (str_of_int (cls b)), (format_6f (cx b)), (format_6f (cy b)),
         (format_6f (nw b)), (format_6f (nh b)).
  split; [reflexivity |]. split.
  - assert (Hc : cls b = 0 \/ cls b = 2 \/ cls b = 3).
    { destruct (convert_record_Some _ _ _ _ Hb)
        as (x0 & y0 & w0 & h0 & c0 & t0 & _ & Hc0 & _ & Hn0).
      destruct (Spec.bounds_check x0 y0 w0 h0 W H) as [[[? ?] ?] ?].
      destruct Hn0 as [_ Hn0]. apply normalize_Some in Hn0 as [-> _].
      rewrite class_map_lookup in Hc0. apply class_map_Some in Hc0. lia. }
    destruct Hc as [-> | [-> | ->]]; auto.
  - repeat split; apply format_6f_unit; try assumption.
    + split; [apply Qlt_le_weak |]; assumption.
    + split; [apply Qlt_le_weak |]; assumption.
Qed.

(** X5: every line the conversion returns has five columns separated by
    single spaces: the class id 0, 2 or 3, then four numbers written as
    [0.dddddd] or [1.000000]; no sign, no exponent, no [nan] or [inf]. *)
Theorem emitted_line_has_five_plain_columns line W H s :
  convert_visdrone_annotation line W H = Ok (Some s) ->
  exists c f1 f2 f3 f4,
    s = (c +:+ " " +:+ f1 +:+ " " +:+ f2 +:+ " " +:+ f3 +:+ " " +:+ f4)%string /\
    (c = "0" \/ c = "2" \/ c = "3")%string /\
    unit_decimal f1 = true /\ unit_decimal f2 = true /\
    unit_decimal f3 = true /\ unit_decimal f4 = true.
Proof. apply convert_line_shape. Qed.

End ShapeProps.

Section ShapeExample.
Import PyStr PyFloat Convert Props.

Lemma emitted_line_has_five_plain_columns_witness :
  exists c f1 f2 f3 f4,
    "0 0.097656 0.347222 0.039062 0.138889"%string
    = (c +:+ " " +:+ f1 +:+ " " +:+ f2 +:+ " " +:+ f3 +:+ " " +:+ f4)%string /\
    (c = "0" \/ c = "2" \/ c = "3")%string /\
    unit_decimal f1 = true /\ unit_decimal f2 = true /\
    unit_decimal f3 = true /\ unit_decimal f4 = true.
Proof.
  apply (emitted_line_has_five_plain_columns "100,200,50,100,1,1,0,0" 1280 720).
  vm_compute. reflexivity.
Defined.

End ShapeExample.

(** ** Class ids and the data set description *)

Section ClassTable.
Import PyStr PyFloat Convert Pipeline.

(** The class id of a returned record is 0, 2 or 3. *)
Lemma convert_record_class line W H b :
  convert_record line W H = Ok (Some b) -> cls b = 0 \/ cls b = 2 \/ cls b = 3.
Proof.
  intros Hb.
  destruct (convert_record_Some _ _ _ _ Hb) as (x & y & w & h & c & t & _ & Hc & _ & Hn).
  destruct (Spec.bounds_check x y w h W H) as [[[x' y'] w'] h'].
  destruct Hn as [_ Hn]. apply normalize_Some in Hn as [-> _].
  rewrite class_map_lookup in Hc. apply class_map_Some in Hc. lia.
Qed.

(** X6: the labels and the data set description agree: the class id at
    the head of every line the conversion returns has an entry in the
    class name table of [dataset.yaml], and is below the class count [nc]
    the file declares. *)
Theorem emitted_class_is_declared line W H s root :
  convert_visdrone_annotation line W H = Ok (Some s) ->
  exists b name nc,
    s = format_yolo b /\
    (str_of_int (cls b), name) ∈ Spec.name_entries (dataset_yaml_lines root) /\
    ("nc"%string, str_of_int nc) ∈ Spec.top_entries (dataset_yaml_lines root) /\
    0 <= cls b < nc.
Proof.
  intros Hs. destruct (convert_Some _ _ _ _ Hs) as (b & Hb & ->).
  assert (Hnames : Spec.name_entries (dataset_yaml_lines root)
                   = [("0", "person"); ("2", "car"); ("3", "truck")]%string)
    by reflexivity.
  assert (Htop : ("nc"%string, str_of_int 4) ∈ Spec.top_entries (dataset_yaml_lines root)).
  { change (Spec.top_entries (dataset_yaml_lines root))
      with [("path", root); ("train", "images/train"); ("val", "images/val");
            ("nc", "4")]%string.
    do 3 apply list_elem_of_further. apply list_elem_of_here. }
  rewrite Hnames.
  destruct (convert_record_class _ _ _ _ Hb) as [Hc | [Hc | Hc]].
  - exists b, "person"%string, 4. rewrite Hc.
    split; [reflexivity |]. split; [apply list_elem_of_here |]. split; [exact Htop | lia].
  - exists b, "car"%string, 4. rewrite Hc.
    split; [reflexivity |]. split; [apply list_elem_of_further, list_elem_of_here |].
    split; [exact Htop | lia].
  - exists b, "truck"%string, 4. rewrite Hc.
    split; [reflexivity |].
    split; [do 2 apply list_elem_of_further; apply list_elem_of_here |].
    split; [exact Htop | lia].
Qed.

Lemma emitted_class_is_declared_witness :
  exists b name nc,
    "3 0.039062 0.083333 0.046875 0.083333"%string = format_yolo b /\
    (str_of_int (cls b), name)
      ∈ Spec.name_entries (dataset_yaml_lines "/work/datasets/visdrone") /\
    ("nc"%string, str_of_int nc)
      ∈ Spec.top_entries (dataset_yaml_lines "/work/datasets/visdrone") /\
    0 <= cls b < nc.
Proof.
  apply (emitted_class_is_declared "10,20,30,40,0,5,0,0" 640 480).
  vm_compute. reflexivity.
Defined.

End ClassTable.

(** ** The text of a label file *)

Section LabelText.
Import PyStr PyFloat Convert Pipeline Props.

Lemma plain_char c :
  plain c = true ->
  Ascii.eqb c CR = false /\ Ascii.eqb c (ascii_of_nat 10) = false.
Proof.
  destruct c as [[] [] [] [] [] [] [] []]; vm_compute; intuition congruence.
Qed.

Lemma digit_plain c : is_digit c = true -> plain c = true /\ is_space c = false.
Proof.
  destruct c as [[] [] [] [] [] [] [] []]; vm_compute; intuition congruence.
Qed.

Lemma unit_decimal_chars f :
  unit_decimal f = true ->
  all_chars plain f = true /\ all_chars (fun c => negb (is_space c)) f = true /\
  f <> EmptyString.
Proof.
  unfold unit_decimal. destruct f as [|i [|dot frac]]; try discriminate.
  destruct (Ascii.eqb_spec dot "."%char) as [-> | Hne];
    [| destruct dot as [[] [] [] [] [] [] [] []]; try discriminate; congruence].
  rewrite !andb_true_iff. intros [[_ Hd] Hi].
  assert (Hi' : is_digit i = true).
  { apply orb_true_iff in Hi as [Hi | Hi].
    - apply Ascii.eqb_eq in Hi. subst i. reflexivity.
    - apply andb_true_iff in Hi as [Hi _]. apply Ascii.eqb_eq in Hi. subst i. reflexivity. }
  split; [| split; [| discriminate]]; cbn [all_chars].
  - rewrite (proj1 (digit_plain i Hi')). cbn.
    apply (all_chars_impl is_digit); [intros c Hc; apply (digit_plain c Hc) | exact Hd].
  - rewrite (proj2 (digit_plain i Hi')). cbn.
    apply (all_chars_impl is_digit); [| exact Hd].
    intros c Hc. rewrite (proj2 (digit_plain c Hc)). reflexivity.
Qed.

End LabelText.

Section LabelLines.
Import PyStr PyFloat Convert Pipeline Props.

Lemma string_app_assoc (s t u : string) : ((s +:+ t) +:+ u = s +:+ (t +:+ u))%string.
Proof.
  induction s as [|c s IH]; [reflexivity |].
  change (String c ((s +:+ t) +:+ u) = String c (s +:+ (t +:+ u))).
  f_equal. exact IH.
Qed.

(** What a returned line is made of: plain characters, a digit first,
    and no white space at its end. *)
Lemma convert_line_chars line W H r :
  convert_visdrone_annotation line W H = Ok (Some r) ->
  all_chars plain r = true /\ strip r = r /\ r <> EmptyString.
Proof.
  intros Hr.
  destruct (convert_line_shape _ _ _ _ Hr)
    as (c & f1 & f2 & f3 & f4 & -> & Hc & U1 & U2 & U3 & U4).
  destruct (unit_decimal_chars _ U1) as (P1 & _ & _).
  destruct (unit_decimal_chars _ U2) as (P2 & _ & _).
  destruct (unit_decimal_chars _ U3) as (P3 & _ & _).
  destruct (unit_decimal_chars _ U4) as (P4 & N4 & E4).
  assert (Hplain : all_chars plain
            (c +:+ " " +:+ f1 +:+ " " +:+ f2 +:+ " " +:+ f3 +:+ " " +:+ f4) = true).
  { rewrite !all_chars_app, P1, P2, P3, P4.
    destruct Hc as [-> | [-> | ->]]; reflexivity. }
  split; [exact Hplain |]. split; [| destruct Hc as [-> | [-> | ->]]; discriminate].
  unfold strip.
  assert (Hl : lstrip is_space
                 (c +:+ " " +:+ f1 +:+ " " +:+ f2 +:+ " " +:+ f3 +:+ " " +:+ f4)
               = (c +:+ " " +:+ f1 +:+ " " +:+ f2 +:+ " " +:+ f3 +:+ " " +:+ f4)%string)
    by (destruct Hc as [-> | [-> | ->]]; reflexivity).
  rewrite Hl.
  assert (Hr4 : forall s, rstrip is_space (s +:+ f4) = (s +:+ f4)%string).
  { intros s. induction s as [|a s IH]; [apply (strip_nothing is_space f4 N4) |].
    change (String a s +:+ f4)%string with (String a (s +:+ f4)).
    change (rstrip is_space (String a (s +:+ f4)))
      with (match rstrip is_space (s +:+ f4) with
            | EmptyString => if is_space a then EmptyString else String a EmptyString
            | r' => String a r'
            end).
    rewrite IH.
    destruct (s +:+ f4)%string eqn:E; [| reflexivity].
    destruct s; [| discriminate]. contradiction. }
  replace (c +:+ " " +:+ f1 +:+ " " +:+ f2 +:+ " " +:+ f3 +:+ " " +:+ f4)%string
    with ((c +:+ " " +:+ f1 +:+ " " +:+ f2 +:+ " " +:+ f3 +:+ " ") +:+ f4)%string.
  - apply Hr4.
  - rewrite !string_app_assoc. reflexivity.
Qed.

Lemma universal_newlines_none s :
  all_chars not_CR s = true -> universal_newlines s = s.
Proof.
  induction s as [|c s IH]; [reflexivity |].
  cbn [all_chars universal_newlines]. unfold not_CR at 1.
  rewrite andb_true_iff, negb_true_iff. intros [-> Hs]. rewrite IH by exact Hs. reflexivity.
Qed.

Lemma lines_keepends_cons c r :
  lines_keepends (String c r) =
    if Ascii.eqb c (ascii_of_nat 10) then String c EmptyString :: lines_keepends r
    else match lines_keepends r with
         | l :: ls => String c l :: ls
         | [] => [String c EmptyString]
         end.
Proof. reflexivity. Qed.

Lemma lines_keepends_one r :
  all_chars not_LF r = true -> r <> EmptyString -> lines_keepends r = [r].
Proof.
  induction r as [|c r IH]; [congruence |]. intros Hr _.
  cbn [all_chars] in Hr. unfold not_LF at 1 in Hr.
  apply andb_true_iff in Hr as [Hc Hr]. apply negb_true_iff in Hc.
  rewrite lines_keepends_cons, Hc.
  destruct r as [|c' r']; [reflexivity |].
  rewrite IH by (assumption || discriminate). reflexivity.
Qed.

Lemma lines_keepends_line r rest :
  all_chars not_LF r = true ->
  lines_keepends (r +:+ LF +:+ rest) = (r +:+ LF)%string :: lines_keepends rest.
Proof.
  induction r as [|c r IH]; intros Hr; [reflexivity |].
  cbn [all_chars] in Hr. unfold not_LF at 1 in Hr.
  apply andb_true_iff in Hr as [Hc Hr]. apply negb_true_iff in Hc.
  change (String c r +:+ LF +:+ rest)%string with (String c (r +:+ LF +:+ rest)).
  rewrite lines_keepends_cons, Hc, (IH Hr). reflexivity.
Qed.

(** The text of a label file, read back line by line. *)
Lemma label_text_lines (rs : list string) :
  rs <> [] ->
  Forall (fun r => all_chars plain r = true /\ strip r = r /\ r <> EmptyString) rs ->
  strip <$> lines_keepends (universal_newlines (join LF rs)) = rs.
Proof.
  intros Hne Hrs.
  assert (Hcr : all_chars not_CR (join LF rs) = true).
  { clear Hne. induction Hrs as [|r rs (Hp & _ & _) _ IH]; [reflexivity |].
    assert (all_chars not_CR r = true).
    { apply (all_chars_impl plain); [| exact Hp].
      intros c Hc. unfold not_CR. rewrite (proj1 (plain_char c Hc)). reflexivity. }
    destruct rs as [|r' rs]; [exact H |].
    change (join LF (r :: r' :: rs)) with (r +:+ LF +:+ join LF (r' :: rs))%string.
    rewrite !all_chars_app, H, IH. reflexivity. }
  rewrite universal_newlines_none by exact Hcr. clear Hcr.
  induction Hrs as [|r rs (Hp & Hs & He) Hrs IH]; [congruence |].
  assert (Hlf : all_chars not_LF r = true).
  { apply (all_chars_impl plain); [| exact Hp].
    intros c Hc. unfold not_LF. rewrite (proj2 (plain_char c Hc)). reflexivity. }
  destruct rs as [|r' rs].
  - change (join LF [r]) with r. rewrite lines_keepends_one by assumption.
    cbn [fmap list_fmap]. rewrite Hs. reflexivity.
  - change (join LF (r :: r' :: rs)) with (r +:+ LF +:+ join LF (r' :: rs))%string.
    rewrite lines_keepends_line by exact Hlf.
    rewrite fmap_cons, IH by discriminate. f_equal.
    rewrite <- Hs at 2.
    exact (strip_surrounded EmptyString r LF eq_refl eq_refl).
Qed.

(** X7: the text written to a label file holds one line per record and
    no line terminator at its end: read back line by line, as this script
    reads its input, and stripped, it gives the records again, in
    order. *)
Theorem label_file_has_one_line_per_record (rs : list string) :
  rs <> [] ->
  Forall (fun r => exists line W H, convert_visdrone_annotation line W H = Ok (Some r)) rs ->
  strip <$> lines_keepends (universal_newlines (join LF rs)) = rs.
Proof.
  intros Hne Hrs. apply label_text_lines; [exact Hne |].
  eapply Forall_impl; [exact Hrs |].
  intros r (line & W & H & Hr). exact (convert_line_chars _ _ _ _ Hr).
Qed.

End LabelLines.

Section LabelLinesExample.
Import PyStr PyFloat Convert Pipeline Props.

Lemma label_file_has_one_line_per_record_witness :
  strip <$> lines_keepends (universal_newlines
                              (join LF ["0 0.097656 0.347222 0.039062 0.138889";
                                        "2 0.996094 0.986111 0.007812 0.027778"]%string))
  = ["0 0.097656 0.347222 0.039062 0.138889";
     "2 0.996094 0.986111 0.007812 0.027778"]%string.
Proof.
  apply label_file_has_one_line_per_record; [discriminate |].
  repeat constructor.
  - exists "100,200,50,100,1,1,0,0"%string, 1280, 720. vm_compute. reflexivity.
  - exists "1270,700,50,50,0,4,0,0"%string, 1280, 720. vm_compute. reflexivity.
Defined.

End LabelLinesExample.

(** ** Names of label files *)

Section StemFacts.
Import PyStr Props Pipeline.

Lemma string_length_app s t :
  String.length (s +:+ t) = (String.length s + String.length t)%nat.
Proof. induction s as [|c s IH]; simpl; [reflexivity | rewrite IH; reflexivity]. Qed.

Lemma ends_with_app suffix n :
  ends_with suffix n = true <-> exists s, n = s +:+ suffix.
Proof.
  induction n as [|c n IH].
  - cbn [ends_with]. rewrite orb_false_r. split.
    + intros H. apply String.eqb_eq in H. exists EmptyString. exact H.
    + intros [s Hs]. destruct s; [| discriminate].
      assert (suffix = EmptyString) as -> by (symmetry; exact Hs). reflexivity.
  - cbn [ends_with]. rewrite orb_true_iff, IH. split.
    + intros [H | [s ->]].
      * apply String.eqb_eq in H. exists EmptyString. exact H.
      * exists (String c s). reflexivity.
    + intros [s Hs]. destruct s as [|c' s].
      * left. assert (suffix = String c n) as -> by (symmetry; exact Hs).
        apply String.eqb_refl.
      * right. injection Hs as _ ->. eauto.
Qed.

Lemma rfind_dot_app s t :
  forall i found,
    rfind_dot (s +:+ t) i found = rfind_dot t (i + String.length s) (rfind_dot s i found).
Proof.
  induction s as [|c s IH]; intros i found; simpl.
  - rewrite Nat.add_0_r. reflexivity.
  - rewrite IH. f_equal. lia.
Qed.

Lemma substring_prefix s t : String.substring 0 (String.length s) (s +:+ t) = s.
Proof.
  induction s as [|c s IH]; simpl.
  - destruct t; reflexivity.
  - rewrite IH. reflexivity.
Qed.

(** The stem of [NAME.jpg] is [NAME], for a non-empty [NAME]. *)
Lemma stem_of_jpg s : s <> EmptyString -> stem_of (s +:+ ".jpg") = s.
Proof.
  intros Hs. unfold stem_of. rewrite rfind_dot_app. simpl rfind_dot at 1.
  rewrite string_length_app. simpl (String.length ".jpg").
  assert (0 < String.length s)%nat by (destruct s; [congruence | simpl; lia]).
  cbn [Nat.add].
  destruct (Nat.ltb_spec 0 (String.length s)); [| lia].
  destruct (Nat.ltb_spec (String.length s) (String.length s + 4 - 1)); [| lia].
  apply substring_prefix.
Qed.

End StemFacts.

Section StemProps.
Import PyStr Props Pipeline.

(** X8: the label file of an image [NAME.jpg] is [NAME.txt]: for every
    name the glob pattern matches, other than the bare [.jpg], the stem
    followed by [.jpg] is the name again; so two such images with the same
    label file name are the same image. *)
Theorem label_name_follows_image_name (dir : Path) n :
  ends_with ".jpg" n = true -> n <> ".jpg"%string ->
  (stem (dir // n) +:+ ".jpg")%string = n /\
  forall n', ends_with ".jpg" n' = true -> n' <> ".jpg"%string ->
    (stem (dir // n') +:+ ".txt")%string = (stem (dir // n) +:+ ".txt")%string -> n' = n.
Proof.
  assert (Hstem : forall m, ends_with ".jpg" m = true -> m <> ".jpg"%string ->
                    (stem (dir // m) +:+ ".jpg")%string = m).
  { intros m Hm Hne. apply ends_with_app in Hm as [s ->].
    rewrite stem_div, stem_of_jpg; [reflexivity |].
    intros ->. apply Hne. reflexivity. }
  intros Hn Hne. split; [apply Hstem; assumption |].
  intros n' Hn' Hne' Heq.
  rewrite <- (Hstem n Hn Hne), <- (Hstem n' Hn' Hne'). f_equal.
  clear -Heq. revert Heq. generalize (stem (dir // n')) (stem (dir // n)).
  intros a. induction a as [|c a IH]; intros b Heq.
  - destruct b as [|c b]; [reflexivity |]. simpl in Heq.
    apply (f_equal String.length) in Heq. simpl in Heq.
    rewrite string_length_app in Heq. simpl in Heq. lia.
  - destruct b as [|c' b]; simpl in Heq.
    + apply (f_equal String.length) in Heq. simpl in Heq.
      rewrite string_length_app in Heq. simpl in Heq. lia.
    + injection Heq as -> Heq. f_equal. apply IH. exact Heq.
Qed.

Lemma label_name_follows_image_name_witness :
  (stem (Examples.image "train" "0000001_00001_d_0000001.jpg") +:+ ".jpg")%string
  = "0000001_00001_d_0000001.jpg"%string.
Proof.
  refine (proj1 (label_name_follows_image_name
                   (Examples.visdrone_root // "VisDrone2019-DET-train" // "images")
                   "0000001_00001_d_0000001.jpg" eq_refl _)).
  discriminate.
Defined.

(** The exception: [.jpg] and [.jpg.jpg] share the label file [.jpg.txt]. *)
Lemma bare_suffix_shares_label :
  ends_with ".jpg" ".jpg" = true /\ ends_with ".jpg" ".jpg.jpg" = true /\
  stem_of ".jpg" = ".jpg"%string /\ stem_of ".jpg.jpg" = ".jpg"%string.
Proof. repeat split; reflexivity. Qed.

End StemProps.

(** ** What a run may touch *)

Section Confinement.
Import PyStr Convert Pipeline Props.

Variable decode : string -> option (Z * Z).

Lemma confined_to_refl (O : list string) m : confined_to O m m.
Proof.
  split; [| auto]. intros k v Hk.
  split; [eauto |]. split; [intros ->; exact Hk | intros _; exact Hk].
Qed.

Lemma confined_to_trans (O : list string) m1 m2 m3 :
  confined_to O m1 m2 -> confined_to O m2 m3 -> confined_to O m1 m3.
Proof.
  intros [H12 N12] [H23 N23]. split.
  - intros k v Hk. destruct (H12 k v Hk) as ([v2 Hv2] & Hd & Hn).
    destruct (H23 k v2 Hv2) as (Hs3 & Hd3 & Hn3).
    split; [exact Hs3 |]. split.
    + intros ->. specialize (Hd eq_refl). rewrite Hd in Hv2. injection Hv2 as <-. auto.
    + intros Hout. specialize (Hn Hout). rewrite Hn in Hv2. injection Hv2 as <-. auto.
  - intros k v Hk. destruct (N23 k v Hk) as [Hk2 | Hk2]; [| auto].
    apply N12. exact Hk2.
Qed.


Lemma under_refl out : under out out.
Proof. split; reflexivity. Qed.

Lemma under_div out p n : under out p -> under out (p // n).
Proof.
  intros [Ha Hn]. split; [exact Ha |].
  simpl. apply prefix_app_r. exact Hn.
Qed.

Lemma under_resolve out p w : under out p -> resolve w out `prefix_of` resolve w p.
Proof.
  intros [Ha [t Ht]]. unfold resolve. rewrite Ha, Ht.
  destruct (anchored out).
  - exists t. reflexivity.
  - exists t. apply app_assoc.
Qed.

(** Computations that leave the files alone. *)
Lemma confined_same {A} out (m : io A) :
  (forall w, cwd (snd (m w)) = cwd w /\ fs (snd (m w)) = fs w) -> confined out m.
Proof.
  intros Hm w. destruct (Hm w) as [Hc Hf]. split; [exact Hc |].
  rewrite Hf. apply confined_to_refl.
Qed.

Lemma confined_ret {A} out (a : A) : confined out (mret a).
Proof. apply confined_same. intros w. split; reflexivity. Qed.

Lemma confined_bind {A B} out (m : io A) (f : A -> io B) :
  confined out m -> (forall a, confined out (f a)) -> confined out (m ≫= f).
Proof.
  intros Hm Hf w. rewrite io_bind_eq. specialize (Hm w).
  destruct (m w) as [[a|e] w1]; simpl in *; [| exact Hm].
  destruct Hm as [Hc Hm]. destruct (Hf a w1) as [Hc' Hf'].
  split; [congruence |].
  assert (Hr : resolve w1 out = resolve w out) by (unfold resolve; rewrite Hc; reflexivity).
  rewrite Hr in Hf'. exact (confined_to_trans _ _ _ _ Hm Hf').
Qed.


Lemma confined_path_exists out p : confined out (path_exists p).
Proof. apply confined_same. intros w. split; reflexivity. Qed.


Lemma confined_lift {A} out (r : result A) : confined out (lift r).
Proof. apply confined_same. intros w. split; reflexivity. Qed.


Lemma confined_read_lines out p : confined out (read_lines p).
Proof.
  apply confined_same. intros w. unfold read_lines.
  destruct (stat _ _) as [[|?]|]; split; reflexivity.
Qed.

Lemma confined_imread out p : confined out (imread decode p).
Proof.
  apply confined_same. intros w. unfold imread.
  destruct (stat _ _) as [[|?]|]; split; reflexivity.
Qed.


(** Below a directory, a path resolves to what the files hold at it. *)
Lemma walk_snoc m rest n :
  forall cur, walk m cur rest = Some Dir ->
    walk m cur (rest ++ [n]) =
      match m !! (cur ++ rest ++ [n]) with
      | Some Dir => Some Dir
      | Some (File c) => Some (File c)
      | None => None
      end.
Proof.
  induction rest as [|a rest IH]; intros cur Hw.
  - simpl. destruct (m !! (cur ++ [n])) as [[|c]|]; reflexivity.
  - simpl in Hw. simpl.
    destruct (m !! (cur ++ [a])) as [[|c]|]; [| destruct rest; discriminate | discriminate].
    rewrite (IH _ Hw), <- app_assoc. reflexivity.
Qed.

(** A file is written at [k] only where no directory is. *)
Lemma write_file_confined (O : list string) k c w :
  O `prefix_of` k ->
  cwd (snd (write_file k c w)) = cwd w /\
  confined_to O (fs w) (fs (snd (write_file k c w))).
Proof.
  intros HO. split; [apply keeps_cwd_write_file |].
  unfold write_file.
  destruct (stat (fs w) (removelast k)) as [[|?]|] eqn:Hparent;
    try apply confined_to_refl.
  assert (Hk : fs w !! k <> Some Dir \/ stat (fs w) k = Some Dir).
  { destruct k as [|a k'] using rev_ind; [right; reflexivity |].
    rewrite removelast_snoc in Hparent. unfold stat in *.
    rewrite (walk_snoc _ _ _ _ Hparent). simpl.
    destruct (fs w !! (k' ++ [a])) as [[|?]|]; [right; reflexivity | left; congruence ..]. }
  assert (Hnew : confined_to O (fs w) (<[k := File c]> (fs w)) \/ stat (fs w) k = Some Dir).
  { destruct Hk as [Hk | Hk]; [left | right; exact Hk]. split.
    - intros k' v Hv. destruct (decide (k' = k)) as [-> | Hne].
      + rewrite lookup_insert_eq. split; [eauto |]. split.
        * intros ->. contradiction.
        * intros Hout. contradiction.
      + rewrite lookup_insert_ne by congruence. rewrite Hv.
        split; [eauto |]. split; [intros -> |]; reflexivity.
    - intros k' v Hv. destruct (decide (k' = k)) as [-> | Hne]; [auto |].
      rewrite lookup_insert_ne in Hv by congruence. auto. }
  destruct (stat (fs w) k) as [[|?]|] eqn:Hstat; try apply confined_to_refl;
    destruct Hnew as [Hnew | Hnew]; (exact Hnew || discriminate).
Qed.

Lemma confined_write_text out p text : under out p -> confined out (write_text p text).
Proof.
  intros Hp w. unfold write_text. apply write_file_confined, under_resolve, Hp.
Qed.

Lemma confined_shutil_copy out src dst : under out dst -> confined out (shutil_copy src dst).
Proof.
  intros Hp w. unfold shutil_copy.
  destruct (stat (fs w) (resolve w src)) as [[|c]|];
    try (split; [reflexivity | apply confined_to_refl]).
  case_decide; [split; [reflexivity | apply confined_to_refl] |].
  apply write_file_confined.
  destruct (stat (fs w) (resolve w dst)) as [[|?]|];
    try (apply under_resolve, Hp).
  apply prefix_app_r, under_resolve, Hp.
Qed.

Lemma confined_for_each {A S} out (body : A -> S -> io S) l :
  (forall a s, confined out (body a s)) -> forall s, confined out (for_each body l s).
Proof.
  intros Hb. induction l as [|a l IH]; intros s; simpl.
  - apply confined_ret.
  - apply confined_bind; [apply Hb | exact IH].
Qed.

Lemma confined_process_image out a oi ol p c :
  under out oi -> under out ol ->
  confined out (process_image decode a oi ol p c).
Proof.
  intros Hoi Hol. unfold process_image. destruct c as [processed skipped].
  apply confined_bind; [apply confined_imread |].
  intros [[h wd]|]; [| apply confined_ret].
  apply confined_bind; [apply confined_path_exists |].
  intros [|]; [| apply confined_ret]. cbn [negb].
  apply confined_bind; [apply confined_read_lines |]. intros lines.
  apply confined_bind; [apply confined_lift |].
  intros [|l ls]; [apply confined_ret |].
  apply confined_bind; [apply confined_shutil_copy, under_div, Hoi |]. intros _.
  apply confined_bind; [apply confined_write_text, under_div, Hol |]. intros _.
  apply confined_ret.
Qed.





End Confinement.

(** ** Directories and counts of a split *)

Section SplitFacts.
Import PyStr Convert Pipeline Props.

Variable decode : string -> option (Z * Z).

(** A path that resolves to a directory still does when every directory
    is kept. *)
Lemma walk_Dir_keeps (m m' : gmap (list string) node) rest :
  (forall k, m !! k = Some Dir -> m' !! k = Some Dir) ->
  forall cur, walk m cur rest = Some Dir -> walk m' cur rest = Some Dir.
Proof.
  intros Hk. induction rest as [|a rest IH]; intros cur; [trivial |].
  simpl. destruct (m !! (cur ++ [a])) as [[|c]|] eqn:Ha;
    [| destruct rest; discriminate | discriminate].
  rewrite (Hk _ Ha). apply IH.
Qed.

Lemma confined_to_stat_Dir (O : list string) (m m' : gmap (list string) node) k :
  confined_to O m m' -> stat m k = Some Dir -> stat m' k = Some Dir.
Proof.
  intros [Hc _]. apply walk_Dir_keeps. intros k' Hk'.
  destruct (Hc k' Dir Hk') as (_ & Hd & _). apply Hd. reflexivity.
Qed.

(** What [process_split] does on a split that is present. *)
Lemma process_split_present root out split w r w' :
  stat (fs w) (resolve w (images_dir root split)) <> None ->
  process_split decode root out split w = (r, w') ->
  (exists e, r = Raise e) \/
  exists w1 w2 image_files,
    mkdir_parents (output_images out split) w = (Ok tt, w1) /\
    mkdir_parents (output_labels out split) w1 = (Ok tt, w2) /\
    glob_jpg (images_dir root split) w2 = (Ok image_files, w2) /\
    for_each (process_image decode (annotations_dir root split)
                (output_images out split) (output_labels out split))
      image_files (0, 0) w2 = (r, w').
Proof.
  intros Hdir. unfold process_split. rewrite io_bind_eq. unfold path_exists.
  destruct (stat (fs w) _) as [n|]; [| congruence]. cbv beta iota delta [negb].
  rewrite io_bind_eq.
  destruct (mkdir_parents _ w) as [[[]|e] w1] eqn:H1; [| intros [= <- _]; eauto].
  rewrite io_bind_eq.
  destruct (mkdir_parents _ w1) as [[[]|e] w2] eqn:H2; [| intros [= <- _]; eauto].
  rewrite io_bind_eq.
  destruct (glob_jpg _ w2) as [[files|e] w3] eqn:Hglob; [| intros [= <- _]; eauto].
  assert (w3 = w2) as ->.
  { unfold glob_jpg in Hglob. destruct (stat _ _) as [[|?]|]; congruence. }
  intros Hloop. right. exists w1, w2, files. auto.
Qed.

(** A turn of the loop over the images never lowers a counter. *)
Lemma process_image_monotone a oi ol p c w c' w' :
  process_image decode a oi ol p c w = (Ok c', w') ->
  fst c <= fst c' /\ snd c <= snd c'.
Proof.
  unfold process_image. destruct c as [processed skipped].
  rewrite io_bind_eq. unfold imread.
  destruct (stat (fs w) (resolve w p)) as [[|content]|];
    try (intros [= <- _]; simpl; lia).
  destruct (decode content) as [[h wd]|]; [| intros [= <- _]; simpl; lia].
  rewrite io_bind_eq. unfold path_exists.
  destruct (stat (fs w) (resolve w (a // (stem p +:+ ".txt")))) as [[|text]|];
    cbv beta iota delta [negb]; try (intros [= <- _]; simpl; lia).
  all: rewrite io_bind_eq; unfold read_lines;
    destruct (stat _ _) as [[|?]|]; try discriminate;
    rewrite io_bind_eq; unfold lift;
    destruct (convert_lines _ wd h) as [[|l ls]|]; try discriminate;
      [intros [= <- _]; simpl; lia |];
    rewrite io_bind_eq; destruct (shutil_copy _ _ _) as [[u|e] w1]; [| discriminate];
    rewrite io_bind_eq; destruct (write_text _ _ _) as [[u'|e] w2]; [| discriminate];
    intros [= <- _]; simpl; lia.
Qed.

Lemma for_each_monotone {A} (body : A -> Z * Z -> io (Z * Z)) :
  (forall a c w c' w', body a c w = (Ok c', w') -> fst c <= fst c' /\ snd c <= snd c') ->
  forall l c w c' w', for_each body l c w = (Ok c', w') ->
    fst c <= fst c' /\ snd c <= snd c'.
Proof.
  intros Hbody l. induction l as [|a l IH]; intros c w c' w' Hl.
  - injection Hl as <- _. lia.
  - simpl for_each in Hl. rewrite io_bind_eq in Hl.
    destruct (body a c w) as [[c1|e] w1] eqn:Hb; [| discriminate].
    apply Hbody in Hb. apply IH in Hl. lia.
Qed.

End SplitFacts.

Section SplitProps.
Import PyStr Convert Pipeline Props.

Variable decode : string -> option (Z * Z).

(** X10: when [process_split] completes on a split that is present, the
    two output directories of the split exist, whether or not an image was
    found or converted. *)
Theorem processed_split_leaves_output_directories root out split w counts w' :
  stat (fs w) (resolve w (images_dir root split)) <> None ->
  process_split decode root out split w = (Ok counts, w') ->
  stat (fs w') (resolve w' (output_images out split)) = Some Dir /\
  stat (fs w') (resolve w' (output_labels out split)) = Some Dir.
Proof.
  intros Hdir Hrun.
  destruct (process_split_present decode root out split w _ _ Hdir Hrun)
    as [[e He] | (w1 & w2 & files & H1 & H2 & _ & Hloop)]; [discriminate |].
  destruct (output_directories_ready _ _ _ _ _ _ _ H1 H2) as [Hi Hl].
  pose proof (confined_for_each out
                (process_image decode (annotations_dir root split)
                   (output_images out split) (output_labels out split)) files) as Hconf.
  destruct (Hconf (fun a s => confined_process_image decode out _ _ _ a s
                      (under_div _ _ _ (under_div _ _ _ (under_refl out)))
                      (under_div _ _ _ (under_div _ _ _ (under_refl out))))
              (0, 0) w2) as [Hcwd Hfs].
  rewrite Hloop in Hcwd, Hfs. cbn [snd] in Hcwd, Hfs.
  assert (Hr : forall p, resolve w' p = resolve w2 p)
    by (intros p; unfold resolve; rewrite Hcwd; reflexivity).
  rewrite !Hr. split; eapply confined_to_stat_Dir; eassumption.
Qed.


(** X11: every image the split lists is counted once: when
    [process_split] completes, its two counters are not negative; they are
    zero for a split whose image directory is missing, and otherwise add
    up to the number of [.jpg] entries of the image directory, as listed
    once the output directories are made. *)
Theorem every_listed_image_is_counted root out split w processed skipped w' :
  process_split decode root out split w = (Ok (processed, skipped), w') ->
  0 <= processed /\ 0 <= skipped /\
  match stat (fs w) (resolve w (images_dir root split)) with
  | None => processed = 0 /\ skipped = 0
  | Some _ =>
      exists w1 w2 image_files,
        mkdir_parents (output_images out split) w = (Ok tt, w1) /\
        mkdir_parents (output_labels out split) w1 = (Ok tt, w2) /\
        glob_jpg (images_dir root split) w2 = (Ok image_files, w2) /\
        processed + skipped = Z.of_nat (length image_files)
  end.
Proof.
  intros Hrun.
  destruct (stat (fs w) (resolve w (images_dir root split))) as [n|] eqn:Hdir.
  - assert (Hne : stat (fs w) (resolve w (images_dir root split)) <> None) by congruence.
    destruct (process_split_present decode root out split w _ _ Hne Hrun)
      as [[e He] | (w1 & w2 & files & H1 & H2 & Hg & Hloop)]; [discriminate |].
    pose proof (for_each_monotone _ (process_image_monotone decode _ _ _) _ _ _ _ _ Hloop)
      as [Hp Hs].
    pose proof (for_each_counts _ (process_image_counts decode _ _ _) _ _ _ _ _ Hloop)
      as Hsum.
    simpl in Hp, Hs, Hsum.
    split; [exact Hp |]. split; [exact Hs |].
    exists w1, w2, files. repeat (split; [assumption |]). lia.
  - rewrite (process_split_missing decode root out split w Hdir) in Hrun.
    injection Hrun as <- <- _. lia.
Qed.


End SplitProps.

Section SplitExamples.
Import PyStr Convert Pipeline Props.

Lemma processed_split_leaves_output_directories_witness :
  let w' := snd (process_split Examples.decode Examples.visdrone_root Examples.output_root
                   "val" MoreExamples.empty_split) in
  stat (fs MoreExamples.empty_split) (Examples.out ++ ["images"; "val"]) = None /\
  stat (fs w') (Examples.out ++ ["images"; "val"]) = Some Dir /\
  stat (fs w') (Examples.out ++ ["labels"; "val"]) = Some Dir.
Proof.
  intros w'. split; [vm_compute; reflexivity |].
  destruct (process_split Examples.decode Examples.visdrone_root Examples.output_root
              "val" MoreExamples.empty_split) as [r w0] eqn:Hrun.
  assert (Hr : r = Ok (0, 0)).
  { change r with (fst (r, w0)). rewrite <- Hrun. vm_compute. reflexivity. }
  assert (Hc : cwd w0 = ["work"%string]).
  { change w0 with (snd (r, w0)). rewrite <- Hrun. vm_compute. reflexivity. }
  subst r.
  assert (Hdir : stat (fs MoreExamples.empty_split)
                   (resolve MoreExamples.empty_split
                      (images_dir Examples.visdrone_root "val")) <> None)
    by (vm_compute; discriminate).
  pose proof (processed_split_leaves_output_directories Examples.decode
                Examples.visdrone_root Examples.output_root "val"
                MoreExamples.empty_split (0, 0) w0 Hdir Hrun) as [Hi Hl].
  subst w'. cbn [snd].
  unfold resolve in Hi, Hl. rewrite Hc in Hi, Hl. split; [exact Hi | exact Hl].
Defined.

Lemma every_listed_image_is_counted_witness :
  exists w1 w2 image_files,
    mkdir_parents (output_images Examples.output_root "train") (Examples.one_split "train")
      = (Ok tt, w1) /\
    mkdir_parents (output_labels Examples.output_root "train") w1 = (Ok tt, w2) /\
    glob_jpg (images_dir Examples.visdrone_root "train") w2 = (Ok image_files, w2) /\
    1 + 1 = Z.of_nat (length image_files).
Proof.
  destruct (process_split Examples.decode Examples.visdrone_root Examples.output_root
              "train" (Examples.one_split "train")) as [r w0] eqn:Hrun.
  assert (Hr : r = Ok (1, 1)).
  { change r with (fst (r, w0)). rewrite <- Hrun. vm_compute. reflexivity. }
  subst r.
  pose proof (every_listed_image_is_counted Examples.decode Examples.visdrone_root Examples.output_root
                "train" (Examples.one_split "train") 1 1 w0 Hrun) as (_ & _ & H).
  assert (Hdir : stat (fs (Examples.one_split "train"))
                   (resolve (Examples.one_split "train")
                      (images_dir Examples.visdrone_root "train")) = Some Dir)
    by (vm_compute; reflexivity).
  rewrite Hdir in H. exact H.
Defined.

End SplitExamples.

(** ** A second pass over the images *)

Section Rerun.
Import PyStr PyFloat Convert Pipeline Spec.

Variable decode : string -> option (Z * Z).
Hypothesis decode_in_range :
  forall c h w, decode c = Some (h, w) -> w < DBL_OVERFLOW /\ h < DBL_OVERFLOW.

Variables (visdrone_root output_root : Path) (split : string).










End Rerun.

Section RerunExample.
Import PyStr PyFloat Convert Pipeline Spec Examples.


End RerunExample.

(** ** A run that finds no split *)

Section RunWithoutSplits.
Import PyStr Convert Pipeline.

Variable decode : string -> option (Z * Z).

(** When none of the splits is found, each is skipped in turn. *)
Lemma for_each_all_missing root out splits :
  forall totals w,
    (forall split, split ∈ splits ->
       stat (fs w) (resolve w (images_dir root split)) = None) ->
    for_each (run_split decode root out) splits totals w
    = (Ok totals,
       World (cwd w) (fs w)
         (stdout w ++ flat_map (Spec.skipped_split_output root) splits)).
Proof.
  induction splits as [|split rest IH]; intros [tp ts] w Hmiss.
  - simpl. rewrite app_nil_r. destruct w; reflexivity.
  - rewrite for_each_cons.
    rewrite run_split_missing by (apply Hmiss, list_elem_of_here).
    rewrite IH by (intros s Hs; apply Hmiss, list_elem_of_further, Hs).
    cbn [cwd fs stdout flat_map]. rewrite <- app_assoc. reflexivity.
Qed.

(** X13: the output root is made only while a split is processed: a run
    that finds none of its splits makes no directory, prints the totals 0
    and 0, and then fails to open [dataset.yaml] with an [OSError] unless
    the output root is already there; it leaves the files as they
    were. *)
Theorem run_without_a_split_needs_the_output_root visdrone_root output_root splits w :
  (forall split, split ∈ splits ->
     stat (fs w) (resolve w (images_dir visdrone_root split)) = None) ->
  stat (fs w) (resolve w output_root) <> Some Dir ->
  main decode visdrone_root output_root splits w
  = (Raise OSError,
     World (cwd w) (fs w)
       (stdout w ++ [OutHeader visdrone_root output_root splits]
          ++ flat_map (fun split =>
                         [ OutProcessing split;
                           OutWarnMissing (images_dir visdrone_root split) split;
                           OutSplitCounts 0 0 ]) splits
          ++ [OutTotals 0 0])).
Proof.
  intros Hmiss Hout. rewrite main_eq.
  change (flat_map _ splits)
    with (flat_map (Spec.skipped_split_output visdrone_root) splits).
  rewrite for_each_all_missing by exact Hmiss.
  cbn [cwd fs stdout fst snd]. cbv zeta.
  unfold write_text, write_file. cbn [cwd fs stdout].
  rewrite resolve_div.
  change (resolve (World (cwd w) (fs w) ?o) ?p) with (resolve w p).
  rewrite removelast_snoc.
  destruct (stat (fs w) (resolve w output_root)) as [[|?]|]; [congruence | |];
    rewrite <- !app_assoc; reflexivity.
Qed.

End RunWithoutSplits.

Section RunWithoutSplitsExample.
Import PyStr Convert Pipeline.

Lemma run_without_a_split_needs_the_output_root_witness :
  fst (main Examples.decode Examples.visdrone_root Examples.output_root
         ["train"; "val"]%string MoreExamples.bare) = Raise OSError /\
  fs (snd (main Examples.decode Examples.visdrone_root Examples.output_root
             ["train"; "val"]%string MoreExamples.bare)) = fs MoreExamples.bare /\
  last (stdout (snd (main Examples.decode Examples.visdrone_root Examples.output_root
                       ["train"; "val"]%string MoreExamples.bare))) = Some (OutTotals 0 0).
Proof.
  rewrite (run_without_a_split_needs_the_output_root Examples.decode
             Examples.visdrone_root Examples.output_root ["train"; "val"]%string
             MoreExamples.bare).
  - repeat split.
  - intros split _. vm_compute. reflexivity.
  - vm_compute. discriminate.
Defined.

End RunWithoutSplitsExample.

(** ** Printed counts and totals *)

Section Printing.
Import PyStr Convert Pipeline Props.

Variable decode : string -> option (Z * Z).

Lemma silent_prints_no_counts {A} (m : io A) :
  (forall w, stdout (snd (m w)) = stdout w) -> prints_no_counts m.
Proof. intros Hm w. exists []. rewrite app_nil_r. auto. Qed.

Lemma prints_no_counts_bind {A B} (m : io A) (f : A -> io B) :
  prints_no_counts m -> (forall a, prints_no_counts (f a)) -> prints_no_counts (m ≫= f).
Proof.
  intros Hm Hf w. rewrite io_bind_eq. destruct (Hm w) as (e1 & H1 & Q1).
  destruct (m w) as [[a|e] w1]; cbn [snd] in *; [| eauto].
  destruct (Hf a w1) as (e2 & H2 & Q2).
  exists (e1 ++ e2). rewrite H2, H1, <- app_assoc, omap_app, Q1, Q2. auto.
Qed.

Lemma prints_no_counts_ret {A} (a : A) : prints_no_counts (mret a).
Proof. apply silent_prints_no_counts. reflexivity. Qed.

Lemma prints_no_counts_write_file k c : prints_no_counts (write_file k c).
Proof.
  apply silent_prints_no_counts. intros w. unfold write_file.
  destruct (stat (fs w) (removelast k)) as [[|?]|]; try reflexivity.
  destruct (stat (fs w) k) as [[|?]|]; reflexivity.
Qed.

Lemma prints_no_counts_for_each {A S} (body : A -> S -> io S) l :
  (forall a s, prints_no_counts (body a s)) ->
  forall s, prints_no_counts (for_each body l s).
Proof.
  intros Hb. induction l as [|a l IH]; intros s; simpl.
  - apply prints_no_counts_ret.
  - apply prints_no_counts_bind; [apply Hb | exact IH].
Qed.

Lemma prints_no_counts_process_image a oi ol p c :
  prints_no_counts (process_image decode a oi ol p c).
Proof.
  unfold process_image. destruct c as [processed skipped].
  apply prints_no_counts_bind.
  { apply silent_prints_no_counts. intros w. unfold imread.
    destruct (stat _ _) as [[|?]|]; reflexivity. }
  intros [[h wd]|]; [| apply prints_no_counts_ret].
  apply prints_no_counts_bind; [apply silent_prints_no_counts; reflexivity |].
  intros [|]; [| apply prints_no_counts_ret]. cbn [negb].
  apply prints_no_counts_bind.
  { apply silent_prints_no_counts. intros w. unfold read_lines.
    destruct (stat _ _) as [[|?]|]; reflexivity. }
  intros lines.
  apply prints_no_counts_bind; [apply silent_prints_no_counts; reflexivity |].
  intros [|l ls]; [apply prints_no_counts_ret |].
  apply prints_no_counts_bind.
  { intros w. unfold shutil_copy.
    destruct (stat (fs w) (resolve w p)) as [[|?]|];
      try (exists []; rewrite app_nil_r; split; reflexivity).
    case_decide; [exists []; rewrite app_nil_r; split; reflexivity |].
    apply prints_no_counts_write_file. }
  intros _.
  apply prints_no_counts_bind.
  { intros w. unfold write_text. apply prints_no_counts_write_file. }
  intros _. apply prints_no_counts_ret.
Qed.

(** [process_split] prints at most its warning. *)
Lemma prints_no_counts_process_split root out split :
  prints_no_counts (process_split decode root out split).
Proof.
  unfold process_split.
  apply prints_no_counts_bind; [apply silent_prints_no_counts; reflexivity |].
  intros [|]; cbn [negb].
  - apply prints_no_counts_bind.
    { apply silent_prints_no_counts. intros w. unfold mkdir_parents.
      destruct (mkdirs _ _ _); reflexivity. }
    intros _. apply prints_no_counts_bind.
    { apply silent_prints_no_counts. intros w. unfold mkdir_parents.
      destruct (mkdirs _ _ _); reflexivity. }
    intros _. apply prints_no_counts_bind.
    { apply silent_prints_no_counts. intros w. unfold glob_jpg.
      destruct (stat _ _) as [[|?]|]; reflexivity. }
    intros files. apply prints_no_counts_for_each.
    intros. apply prints_no_counts_process_image.
  - apply prints_no_counts_bind; [| intros; apply prints_no_counts_ret].
    intros w. exists [OutWarnMissing (images_dir root split) split]. split; reflexivity.
Qed.

(** The loop over the splits adds each split's counts to the totals and
    prints them, one line per split. *)
Lemma run_splits_totals root out splits :
  forall tp ts w tp' ts' w',
    for_each (run_split decode root out) splits (tp, ts) w = (Ok (tp', ts'), w') ->
    exists added,
      stdout w' = stdout w ++ added /\
      length (omap split_counts added) = length splits /\
      tp' = tp + total ((omap split_counts added).*1) /\
      ts' = ts + total ((omap split_counts added).*2).
Proof.
  induction splits as [|split rest IH]; intros tp ts w tp' ts' w' Hrun.
  - injection Hrun as <- <- <-. exists []. rewrite app_nil_r. unfold total. simpl.
    repeat split; try reflexivity; lia.
  - rewrite for_each_cons in Hrun.
    destruct (run_split decode root out split (tp, ts) w) as [[[tp1 ts1]|e] w1] eqn:Hone;
      [| discriminate].
    destruct (IH _ _ _ _ _ _ Hrun) as (e2 & H2 & L2 & T2 & S2).
    unfold run_split in Hone. rewrite io_bind_eq in Hone.
    unfold print at 1 in Hone. cbv beta iota in Hone. rewrite io_bind_eq in Hone.
    destruct (prints_no_counts_process_split root out split
                (World (cwd w) (fs w) (stdout w ++ [OutProcessing split])))
      as (e1 & H1 & Q1).
    destruct (process_split decode root out split _) as [[[p s]|e] w0]; [| discriminate].
    cbn [snd stdout] in H1. rewrite io_bind_eq in Hone.
    unfold print in Hone. cbv beta iota in Hone.
    injection Hone as <- <- <-.
    exists ([OutProcessing split] ++ e1 ++ [OutSplitCounts p s] ++ e2).
    cbn [stdout] in H2. rewrite H2, H1.
    split; [rewrite <- !app_assoc; reflexivity |].
    rewrite !omap_app, Q1.
    change (omap split_counts [OutProcessing split]) with (@nil (Z * Z)).
    change (omap split_counts [OutSplitCounts p s]) with [(p, s)].
    unfold total in *. rewrite T2, S2. simpl. rewrite L2.
    repeat split; symmetry; exact (Z.add_assoc _ _ _).
Qed.

(** X14: the totals printed at the end of a run are the sums of the
    counts printed for the splits, of which there is one line per
    requested split. *)
Theorem totals_are_the_sums_of_the_split_counts visdrone_root output_root splits w w' :
  main decode visdrone_root output_root splits w = (Ok tt, w') ->
  exists printed,
    stdout w' = stdout w ++ [OutHeader visdrone_root output_root splits] ++ printed
                  ++ [OutTotals (total ((omap split_counts printed).*1))
                                (total ((omap split_counts printed).*2));
                      OutSaved (output_root // "dataset.yaml")] /\
    length (omap split_counts printed) = length splits.
Proof.
  intros Hmain. rewrite main_eq in Hmain.
  destruct (for_each _ splits (0, 0) _) as [[[tp ts]|e] w1] eqn:Hloop; [| discriminate].
  destruct (run_splits_totals _ _ _ _ _ _ _ _ _ Hloop) as (added & Hout & Hlen & Htp & Hts).
  cbv zeta in Hmain. cbn [fst snd] in Hmain.
  destruct (write_text _ _ _) as [[u|e] w3] eqn:Hw; [| discriminate].
  destruct (prints_no_counts_write_file
              (resolve (World (cwd w1) (fs w1) (stdout w1 ++ [OutTotals tp ts]))
                 (output_root // "dataset.yaml"))
              (dataset_yaml_text
                 (path_str (MkPath true
                    (resolve (World (cwd w1) (fs w1) (stdout w1 ++ [OutTotals tp ts]))
                       output_root))))
              (World (cwd w1) (fs w1) (stdout w1 ++ [OutTotals tp ts])))
    as (e3 & H3 & _).
  assert (Hsame : stdout w3 = stdout w1 ++ [OutTotals tp ts]).
  { unfold write_text in Hw. unfold write_file in Hw.
    destruct (stat _ (removelast _)) as [[|?]|]; try discriminate.
    destruct (stat _ _) as [[|?]|]; try discriminate; injection Hw as _ <-; reflexivity. }
  clear H3.
  unfold print in Hmain. injection Hmain as <-. cbn [stdout].
  exists added. split; [| exact Hlen].
  rewrite Hsame, Hout. cbn [stdout]. rewrite Htp, Hts. rewrite <- !app_assoc.
  reflexivity.
Qed.

End Printing.

Section PrintingExample.
Import PyStr Convert Pipeline Props Examples.

Lemma totals_are_the_sums_of_the_split_counts_witness :
  let w' := snd (main decode visdrone_root output_root ["test"]%string (one_split "test")) in
  exists printed,
    stdout w' = [OutHeader visdrone_root output_root ["test"]%string] ++ printed
                  ++ [OutTotals (total ((omap split_counts printed).*1))
                                (total ((omap split_counts printed).*2));
                      OutSaved (output_root // "dataset.yaml")] /\
    length (omap split_counts printed) = 1%nat.
Proof.
  intros w'.
  destruct (main decode visdrone_root output_root ["test"]%string (one_split "test"))
    as [r w0] eqn:Hmain.
  assert (Hr : r = Ok tt).
  { change r with (fst (r, w0)). rewrite <- Hmain. vm_compute. reflexivity. }
  subst r w'. cbn [snd].
  exact (totals_are_the_sums_of_the_split_counts decode visdrone_root output_root
           ["test"]%string (one_split "test") w0 Hmain).
Defined.

End PrintingExample.
